(** * The workbook loader of noncon2 ([excel_loader.py]), embedded in Rocq

    The loader reads a zip-packaged spreadsheet with nothing but the
    standard library of Python: [zipfile], [xml.etree.ElementTree], [re]
    and [datetime].  The development below embeds the loader function by
    function and states the properties of its specification about it.

    Conventions of the embedding.
    - A Python [str] is a Rocq [string]; each [ascii] stands for the code
      point of the same number, so the strings covered are those over the
      code points U+0000 .. U+00FF.
    - A Python exception is a value of [exn]; code that may raise returns
      a [result].
    - The archive is taken once it is open: a finite map from the names of
      its parts to their contents.  [zipfile.ZipFile(path)] and the check
      that the path exists are outside the embedding.
    - A [dict] whose iteration order is observed is an insertion-ordered
      association list with unique keys ([odict]); the dictionaries that
      are only looked up are [gmap]s.
    - A Python [float] is an IEEE 754 binary64 number, a [spec_float] of
      the standard library, rounded to nearest-even with its
      [binary_round_aux]. *)

From Stdlib Require Import ZArith Ascii String Floats.SpecFloat.
From stdpp Require Import base option list strings gmap.

Local Open Scope Z_scope.

(** ** Exceptions and results *)

Inductive value_error :=
  | InvalidIntLiteral (text : string)     (* int("abc") *)
  | InvalidFloatLiteral (text : string)   (* float("abc") *)
  | NanToInteger                          (* int(float("nan")) *)
  | ExceedsDigitLimit                     (* int("9" * 5000) *)
  | Message (msg : string).               (* raise ValueError(msg) *)

Inductive exn :=
  | KeyError (key : string)
  | ParseError
  | IndexError
  | OverflowError
  | ValueError (why : value_error).

Inductive result (A : Type) :=
  | OK (a : A)
  | Raise (e : exn).
Arguments OK {A} a.
Arguments Raise {A} e.

#[global] Instance result_ret : MRet result := @OK.
#[global] Instance result_bind : MBind result := λ A B f m,
  match m with
  | OK a => f a
  | Raise e => Raise e
  end.

#[global] Instance result_fmap : FMap result := λ A B f m,
  match m with
  | OK a => OK (f a)
  | Raise e => Raise e
  end.

Definition is_OK {A} (m : result A) : Prop := ∃ a, m = OK a.

(** ** Strings *)

Module Str.

Definition ord (c : ascii) : Z := Z.of_N (N_of_ascii c).

Definition between (lo hi : Z) (c : ascii) : bool :=
  (lo <=? ord c) && (ord c <=? hi).

(** [str.isspace] on one code point below 256: TAB..CR, FS..US, the
    space, NEL and the no-break space. *)
Definition isspace (c : ascii) : bool :=
  between 9 13 c || between 28 32 c || (ord c =? 133) || (ord c =? 160).

Definition isdigit (c : ascii) : bool := between 48 57 c.   (* [0-9] *)
Definition isupper_ascii (c : ascii) : bool := between 65 90 c.   (* [A-Z] *)

(** [str.lower] on one code point below 256: A..Z and the capital
    letters U+00C0 .. U+00DE without the multiplication sign. *)
Definition lower_char (c : ascii) : ascii :=
  if between 65 90 c || (between 192 222 c && negb (ord c =? 215))
  then ascii_of_N (N_of_ascii c + 32)
  else c.

Fixpoint lower (s : string) : string :=
  match s with
  | EmptyString => EmptyString
  | String c r => String (lower_char c) (lower r)
  end.

Fixpoint lstrip_by (ws : ascii → bool) (s : string) : string :=
  match s with
  | EmptyString => EmptyString
  | String c r => if ws c then lstrip_by ws r else s
  end.

Fixpoint rstrip_by (ws : ascii → bool) (s : string) : string :=
  match s with
  | EmptyString => EmptyString
  | String c r =>
      match rstrip_by ws r with
      | EmptyString => if ws c then EmptyString else String c EmptyString
      | String c' r' => String c (String c' r')
      end
  end.

Definition strip_by (ws : ascii → bool) (s : string) : string :=
  rstrip_by ws (lstrip_by ws s).

(** [s.strip()] *)
Definition strip : string → string := strip_by isspace.

(** [s.lstrip(chars)] for a one-character [chars] *)
Definition lstrip_char (ch : ascii) : string → string :=
  lstrip_by (λ c, bool_decide (c = ch)).

(** [s.startswith(p)] *)
Fixpoint startswith (p s : string) : bool :=
  match p, s with
  | EmptyString, _ => true
  | String a p', String b s' => bool_decide (a = b) && startswith p' s'
  | String _ _, EmptyString => false
  end.

(** [needle in s] *)
Fixpoint contains (needle s : string) : bool :=
  startswith needle s ||
  match s with
  | EmptyString => false
  | String _ r => contains needle r
  end.

(** [s.endswith(p)] *)
Fixpoint endswith (p s : string) : bool :=
  bool_decide (s = p) ||
  match s with
  | EmptyString => false
  | String _ r => endswith p r
  end.

(** The longest prefix of characters satisfying [P], and the rest. *)
Fixpoint span (P : ascii → bool) (s : string) : string * string :=
  match s with
  | EmptyString => (EmptyString, EmptyString)
  | String c r =>
      if P c then let '(a, b) := span P r in (String c a, b)
      else (EmptyString, s)
  end.

(** Every character of [s] satisfies [P]. *)
Fixpoint all (P : ascii → bool) (s : string) : bool :=
  match s with
  | EmptyString => true
  | String c r => P c && all P r
  end.

(** [bool(s)]: a string is true when it is not empty. *)
Definition truthy (s : string) : bool :=
  match s with EmptyString => false | String _ _ => true end.

End Str.

(** ** Numbers: [int(str)], [float(str)] and [int(float)] *)

Module Num.

Definition digit_value (c : ascii) : Z := Str.ord c - 48.

(** The white space that [int] and [float] skip around a literal:
    TAB..CR and the space, and the other white space of the string
    (NEL, no-break space), which both functions first turn into spaces. *)
Definition isspace_num (c : ascii) : bool :=
  Str.between 9 13 c || (Str.ord c =? 32) || (Str.ord c =? 133) || (Str.ord c =? 160).

Definition split_sign (s : string) : bool * string :=
  match s with
  | String c r =>
      if Ascii.eqb c "-" then (true, r)
      else if Ascii.eqb c "+" then (false, r)
      else (false, s)
  | EmptyString => (false, s)
  end.

(** The digits of an integer literal, [digit ("_"? digit)*]: the value
    read so far and the number of digits. *)
Fixpoint int_digits (s : string) (acc : Z) (n : nat) : option (Z * nat) :=
  match s with
  | EmptyString => None
  | String c r =>
      if Str.isdigit c then
        let acc' := 10 * acc + digit_value c in
        match r with
        | EmptyString => Some (acc', S n)
        | String c' r' =>
            if Ascii.eqb c' "_" then int_digits r' acc' (S n)
            else int_digits r acc' (S n)
        end
      else None
  end.

(** [sys.get_int_max_str_digits()], at its default. *)
Definition int_max_str_digits : nat := 4300.

(** [int(s)] for a string [s]. *)
Definition int_of_str (s : string) : result Z :=
  let '(neg, body) := split_sign (Str.strip_by isspace_num s) in
  match int_digits body 0 0 with
  | None => Raise (ValueError (InvalidIntLiteral s))
  | Some (v, n) =>
      if bool_decide (n ≤ int_max_str_digits)%nat
      then OK (if neg then - v else v)
      else Raise (ValueError ExceedsDigitLimit)
  end.

(** Underscores of a [float] literal: each one stands between two
    digits, and all of them are removed. [prev] is the character before
    [s] (NUL at the start). *)
Fixpoint strip_underscores (prev : ascii) (s : string) : option string :=
  match s with
  | EmptyString => if Ascii.eqb prev "_" then None else Some EmptyString
  | String c r =>
      if Ascii.eqb c "_" then
        if Str.isdigit prev then strip_underscores c r else None
      else if Ascii.eqb prev "_" && negb (Str.isdigit c) then None
      else String c <$> strip_underscores c r
  end.

Fixpoint digits_value (s : string) (acc : Z) : Z :=
  match s with
  | EmptyString => acc
  | String c r => digits_value r (10 * acc + digit_value c)
  end.

(** A–Z to a–z, as the C function [tolower] in the C locale. *)
Definition tolower (c : ascii) : ascii :=
  if Str.between 65 90 c then ascii_of_N (N_of_ascii c + 32) else c.

Fixpoint casefold (s : string) : string :=
  match s with
  | EmptyString => EmptyString
  | String c r => String (tolower c) (casefold r)
  end.

(** The decimal number [m * 10^e10], with the sign [neg], rounded to the
    nearest binary64 number, ties to even; beyond the largest finite
    number the result is an infinity. *)
Definition decimal_to_float (neg : bool) (m e10 : Z) : spec_float :=
  if m =? 0 then S754_zero neg
  else
    let num := m * 10 ^ Z.max e10 0 in
    let den := 10 ^ Z.max (- e10) 0 in
    let '(q, e, l) := SFdiv_core_binary 53 1024 num 0 den 0 in
    binary_round_aux 53 1024 neg q e l.

(** A decimal literal: [sign? (digits ("." digits?)? | "." digits)
    ([eE] sign? digits)?], the whole string. *)
Definition parse_decimal (s : string) : option spec_float :=
  let '(neg, s1) := split_sign s in
  let '(ip, s2) := Str.span Str.isdigit s1 in
  let '(fp, s3) :=
    match s2 with
    | String c r => if Ascii.eqb c "." then Str.span Str.isdigit r else (EmptyString, s2)
    | EmptyString => (EmptyString, s2)
    end in
  if negb (Str.truthy ip) && negb (Str.truthy fp) then None
  else
    let m := digits_value (ip +:+ fp) 0 in
    let shift := Z.of_nat (String.length fp) in
    match s3 with
    | EmptyString => Some (decimal_to_float neg m (- shift))
    | String c r =>
        if Ascii.eqb (tolower c) "e" then
          let '(eneg, r1) := split_sign r in
          let '(ed, r2) := Str.span Str.isdigit r1 in
          if Str.truthy ed && negb (Str.truthy r2) then
            let e := digits_value ed 0 in
            Some (decimal_to_float neg m ((if eneg then - e else e) - shift))
          else None
        else None
    end.

(** [sign? ("inf" | "infinity" | "nan")], in any case. *)
Definition parse_inf_or_nan (s : string) : option spec_float :=
  let '(neg, r) := split_sign s in
  let w := casefold r in
  if bool_decide (w = "inf") || bool_decide (w = "infinity") then Some (S754_infinity neg)
  else if bool_decide (w = "nan") then Some S754_nan
  else None.

(** [float(s)] for a string [s]. *)
Definition float_of_str (s : string) : result spec_float :=
  match strip_underscores "000" s with
  | None => Raise (ValueError (InvalidFloatLiteral s))
  | Some t =>
      let u := Str.strip_by isspace_num t in
      match parse_decimal u with
      | Some x => OK x
      | None =>
          match parse_inf_or_nan u with
          | Some x => OK x
          | None => Raise (ValueError (InvalidFloatLiteral s))
          end
      end
  end.

(** [int(x)] for a float [x]: the integer part, towards zero. *)
Definition int_of_float (x : spec_float) : result Z :=
  match x with
  | S754_zero _ => OK 0
  | S754_finite s m e => OK (cond_Zopp s (Z.shiftl (Z.pos m) e))
  | S754_infinity _ => Raise OverflowError
  | S754_nan => Raise (ValueError NanToInteger)
  end.

End Num.

(** ** Dates: the proleptic Gregorian calendar of [datetime] *)

Module Date.

Record date := mkdate { year : Z; month : Z; day : Z }.

Definition _is_leap (y : Z) : bool :=
  (y mod 4 =? 0) && (negb (y mod 100 =? 0) || (y mod 400 =? 0)).

Definition _DAYS_IN_MONTH : list Z :=
  [-1; 31; 28; 31; 30; 31; 30; 31; 31; 30; 31; 30; 31].

Definition _DAYS_BEFORE_MONTH : list Z :=
  [-1; 0; 31; 59; 90; 120; 151; 181; 212; 243; 273; 304; 334].

Definition table (t : list Z) (i : Z) : Z := nth (Z.to_nat i) t 0.

Definition _days_before_year (y : Z) : Z :=
  let y := y - 1 in
  y * 365 + y / 4 - y / 100 + y / 400.

Definition _days_before_month (y m : Z) : Z :=
  table _DAYS_BEFORE_MONTH m + (if (2 <? m) && _is_leap y then 1 else 0).

Definition _ymd2ord (y m d : Z) : Z :=
  _days_before_year y + _days_before_month y m + d.

Definition _DI400Y : Z := _days_before_year 401.
Definition _DI100Y : Z := _days_before_year 101.
Definition _DI4Y : Z := _days_before_year 5.
Definition _MAXORDINAL : Z := 3652059.   (* date(9999, 12, 31).toordinal() *)

Definition _ord2ymd (n : Z) : date :=
  let n := n - 1 in
  let n400 := n / _DI400Y in
  let n := n mod _DI400Y in
  let y := n400 * 400 + 1 in
  let n100 := n / _DI100Y in
  let n := n mod _DI100Y in
  let n4 := n / _DI4Y in
  let n := n mod _DI4Y in
  let n1 := n / 365 in
  let n := n mod 365 in
  let y := y + n100 * 100 + n4 * 4 + n1 in
  if (n1 =? 4) || (n100 =? 4) then mkdate (y - 1) 12 31
  else
    let leapyear := (n1 =? 3) && (negb (n4 =? 24) || (n100 =? 3)) in
    let m := Z.shiftr (n + 50) 5 in
    let preceding := table _DAYS_BEFORE_MONTH m + (if (2 <? m) && leapyear then 1 else 0) in
    if n <? preceding then
      let m := m - 1 in
      let preceding :=
        preceding - (table _DAYS_IN_MONTH m + (if (m =? 2) && leapyear then 1 else 0)) in
      mkdate y m (n - preceding + 1)
    else mkdate y m (n - preceding + 1).

Definition toordinal (d : date) : Z := _ymd2ord (year d) (month d) (day d).

(** [timedelta(days=n)]: the number of days, at most 999999999 in
    magnitude. *)
Definition timedelta (days : Z) : result Z :=
  if (-999999999 <=? days) && (days <=? 999999999) then OK days
  else Raise OverflowError.

(** [d + delta] for a number of days [delta]. *)
Definition add (d : date) (delta : Z) : result date :=
  let n := toordinal d + delta in
  if (0 <? n) && (n <=? _MAXORDINAL) then OK (_ord2ymd n)
  else Raise OverflowError.

Definition digit_char (d : Z) : ascii := ascii_of_N (Z.to_N (48 + d mod 10)).

(** ["%02d" % n] for [0 <= n < 100] and ["%04d" % n] for [0 <= n < 10000] *)
Definition pad2 (n : Z) : string :=
  String (digit_char (n / 10)) (String (digit_char n) EmptyString).
Definition pad4 (n : Z) : string := pad2 (n / 100) +:+ pad2 (n mod 100).

Definition isoformat (d : date) : string :=
  pad4 (year d) +:+ "-" +:+ pad2 (month d) +:+ "-" +:+ pad2 (day d).

End Date.

(** ** Containers *)

(** [l[i]] on a list: a negative index counts from the end. *)
Definition list_getitem {A} (l : list A) (i : Z) : result A :=
  let n := Z.of_nat (length l) in
  let j := if i <? 0 then i + n else i in
  if (0 <=? j) && (j <? n) then
    match l !! Z.to_nat j with
    | Some x => OK x
    | None => Raise IndexError
    end
  else Raise IndexError.

(** A [dict] in its insertion order. *)
Definition odict (V : Type) : Type := list (string * V).

(** [d[k] = v]: a key that is present keeps its place. *)
Fixpoint odict_set {V} (d : odict V) (k : string) (v : V) : odict V :=
  match d with
  | [] => [(k, v)]
  | (k', v') :: r => if bool_decide (k' = k) then (k, v) :: r else (k', v') :: odict_set r k v
  end.

(** [for x in xs: s = body(s, x)], stopping at the first exception. *)
Fixpoint for_in {A S} (xs : list A) (body : S → A → result S) (s : S) : result S :=
  match xs with
  | [] => OK s
  | x :: r => s' ← body s x; for_in r body s'
  end.

(** ** XML elements, as [xml.etree.ElementTree] presents them *)

Module ET.

#[local] Set Warnings "-register-all".

Inductive element :=
  Element (tag : string) (attrib : gmap string string)
          (text : option string) (children : list element).

Definition tag (e : element) : string := let 'Element t _ _ _ := e in t.
Definition attrib (e : element) : gmap string string := let 'Element _ a _ _ := e in a.
Definition text (e : element) : option string := let 'Element _ _ x _ := e in x.
Definition children (e : element) : list element := let 'Element _ _ _ c := e in c.

(** [e.attrib.get(k, d)] *)
Definition get (e : element) (k d : string) : string := default d (attrib e !! k).

(** [e.text or ""] *)
Definition text_or_empty (e : element) : string := default "" (text e).

Definition tagged (t : string) (e : element) : list element :=
  filter (λ c, tag c = t) (children e).

(** [e.find(t)]: the first child with the tag [t]. *)
Definition find (t : string) (e : element) : option element := head (tagged t e).

(** [e.findall("t1/t2/.../tn")], in document order. *)
Fixpoint findall (path : list string) (e : element) : list element :=
  match path with
  | [] => [e]
  | t :: p => flat_map (findall p) (tagged t e)
  end.

(** All the descendants of [e], in document order. *)
Fixpoint descendants (e : element) : list element :=
  match e with
  | Element _ _ _ cs => flat_map (λ c, c :: descendants c) cs
  end.

(** [e.findall(".//t")] *)
Definition findall_deep (t : string) (e : element) : list element :=
  filter (λ c, tag c = t) (descendants e).

End ET.

(** ** The archive *)

(** A part of the archive holds bytes that [ET.fromstring] parses to a
    document, or rejects. *)
Inductive part :=
  | Malformed
  | Document (root : ET.element).

(** [ET.fromstring(zf.read(name))] *)
Definition read_xml (zf : gmap string part) (name : string) : result ET.element :=
  match zf !! name with
  | None => Raise (KeyError name)
  | Some Malformed => Raise ParseError
  | Some (Document root) => OK root
  end.

(** ** The loader *)

Definition NAMESPACE_MAIN : string :=
  "http://schemas.openxmlformats.org/spreadsheetml/2006/main".
Definition REL_NS : string :=
  "http://schemas.openxmlformats.org/officeDocument/2006/relationships".
Definition PKG_REL_NS : string :=
  "http://schemas.openxmlformats.org/package/2006/relationships".

(** The tag [{ns}name] *)
Definition qname (ns name : string) : string := "{" +:+ ns +:+ "}" +:+ name.
Definition main (name : string) : string := qname NAMESPACE_MAIN name.

Definition FIELD_MAP : gmap string string :=
  list_to_map
    [ ("A", "tag_number"); ("C", "part_description"); ("E", "rejection_type");
      ("G", "rejection_class"); ("I", "defect_description"); ("K", "rejected_by");
      ("M", "containment_date"); ("O", "total_rejected_qty_initial");
      ("Q", "mfg_date"); ("S", "mfg_shift"); ("U", "supplier");
      ("W", "total_rejected_qty_final"); ("Y", "disposition");
      ("AA", "authorized_by"); ("AC", "date_authorized");
      ("AE", "date_sort_rework"); ("AG", "good_pcs"); ("AI", "reworked_pcs");
      ("AK", "scrap_pcs"); ("AM", "complete"); ("AO", "closed_date");
      ("AQ", "closed_by"); ("AS", "qad_number"); ("AU", "qad_date");
      ("AW", "completed_by") ].

Definition DATE_FIELDS : gset string :=
  {[ "containment_date"; "mfg_date"; "date_authorized"; "date_sort_rework";
     "closed_date"; "qad_date" ]}.

Definition BASE_DATE : Date.date := Date.mkdate 1899 12 30.

(** [excel_serial_to_iso(value)] *)
Definition excel_serial_to_iso (value : option string) : result (option string) :=
  match value with
  | None => OK None
  | Some value =>
      let text := Str.strip value in
      if negb (Str.truthy text) then OK None
      else
        match Num.float_of_str text with
        | Raise (ValueError _) => OK None
        | Raise e => Raise e
        | OK serial =>
            days ← Num.int_of_float serial;
            match (delta ← Date.timedelta days; Date.add BASE_DATE delta) with
            | Raise OverflowError => OK None
            | Raise e => Raise e
            | OK date_value => OK (Some (Date.isoformat date_value))
            end
        end
  end.

Record ExcelData := mkExcelData {
  records : list (gmap string string);
  dropdowns : gmap string (list string)
}.

(** [re.match(r"([A-Z]+)", s)]: the column letters. *)
Definition match_column (s : string) : option string :=
  let '(column, _) := Str.span Str.isupper_ascii s in
  if Str.truthy column then Some column else None.

(** [re.match(r"([A-Z]+)([0-9]+)", s)]: the column letters and the row
    number. *)
Definition match_column_row (s : string) : option (string * string) :=
  let '(column, rest) := Str.span Str.isupper_ascii s in
  let '(row_no, _) := Str.span Str.isdigit rest in
  if Str.truthy column && Str.truthy row_no then Some (column, row_no) else None.

Section Loader.

(** The open archive [zf] and [self._shared_strings]. *)
Variable zf : gmap string part.
Variable shared_strings : list string.

Definition _cell_value (cell : ET.element) : result (option string) :=
  match ET.find (main "v") cell with
  | None => OK None
  | Some v =>
      let cell_type := ET.attrib cell !! "t" in
      let raw := ET.text_or_empty v in
      if bool_decide (cell_type = Some "s") then
        match shared_strings with
        | [] => OK (Some raw)
        | _ :: _ =>
            index ← Num.int_of_str raw;
            shared ← list_getitem shared_strings index;
            OK (Some shared)
        end
      else OK (Some raw)
  end.

Fixpoint any_cell_contains (needle : string) (cells : list ET.element) : result bool :=
  match cells with
  | [] => OK false
  | cell :: rest =>
      value ← _cell_value cell;
      match value with
      | Some value =>
          if Str.truthy value && Str.contains (Str.lower needle) (Str.lower value)
          then OK true
          else any_cell_contains needle rest
      | None => any_cell_contains needle rest
      end
  end.

Definition _sheet_contains_text (path needle : string) : result bool :=
  root ← read_xml zf path;
  any_cell_contains needle (ET.findall [main "sheetData"; main "row"; main "c"] root).

(** The first path of [paths] whose sheet contains [needle]. *)
Fixpoint probe_sheets (needle : string) (paths : list string) : result (option string) :=
  match paths with
  | [] => OK None
  | path :: rest =>
      found ← _sheet_contains_text path needle;
      if found : bool then OK (Some path) else probe_sheets needle rest
  end.

Definition _find_log_sheet (sheet_targets : odict string) : result (option string) :=
  match list_find (λ item, Str.startswith "nc log" (Str.lower item.1) = true) sheet_targets with
  | Some (_, (_, path)) => OK (Some path)
  | None =>
      (* As a fallback, inspect sheets for the "Tag Number" header *)
      probe_sheets "Tag Number" (sheet_targets.*2)
  end.

Definition _find_dropdown_sheet (sheet_targets : odict string) : result (option string) :=
  first ← probe_sheets "Rejection Type:"
             (filter (λ item, Str.contains "sheet" (Str.lower item.1) = true) sheet_targets).*2;
  match first with
  | Some path => OK (Some path)
  | None =>
      (* fallback: search every sheet *)
      probe_sheets "Rejection Type:" (sheet_targets.*2)
  end.

(** One cell of a row of the log sheet: the body of the inner loop of
    [_read_log_records], on the state [(record, has_text)]. *)
Definition log_cell (st : gmap string string * bool) (cell : ET.element)
    : result (gmap string string * bool) :=
  let '(record, has_text) := st in
  match match_column (ET.get cell "r" "") with
  | None => OK st
  | Some column =>
      match FIELD_MAP !! column with
      | None => OK st
      | Some field =>
          if negb (Str.truthy field) then OK st
          else
            value ← _cell_value cell;
            match value with
            | None => OK st
            | Some value =>
                let value := Str.strip value in
                if negb (Str.truthy value) then OK st
                else if bool_decide (field ∈ DATE_FIELDS) then
                  iso ← excel_serial_to_iso (Some value);
                  match iso with
                  | Some iso =>
                      OK (<[field := if Str.truthy iso then iso else value]> record, true)
                  | None => OK (<[field := value]> record, true)
                  end
                else OK (<[field := value]> record, true)
            end
      end
  end.

(** One row of the log sheet: the body of the outer loop. *)
Definition log_row (records : list (gmap string string)) (row : ET.element)
    : result (list (gmap string string)) :=
  row_index ← Num.int_of_str (ET.get row "r" "0");
  if row_index <? 7 then OK records   (* skip headers and intro blocks *)
  else
    '(record, has_text) ← for_in (ET.findall [main "c"] row) log_cell (∅, false);
    OK (if has_text : bool then records ++ [record] else records).

Definition _read_log_records (path : string) : result (list (gmap string string)) :=
  sheet ← read_xml zf path;
  for_in (ET.findall [main "sheetData"; main "row"] sheet) log_row [].

(** [dropdowns[key].append(value)] *)
Definition append_to (key value : string) (d : gmap string (list string))
    : gmap string (list string) :=
  <[key := default [] (d !! key) ++ [value]]> d.

(** One cell of the dropdown sheet: the body of the scan of
    [_read_dropdowns]. *)
Definition dropdown_cell (d : gmap string (list string)) (cell : ET.element)
    : result (gmap string (list string)) :=
  match match_column_row (ET.get cell "r" "") with
  | None => OK d
  | Some (column, row_no) =>
      if bool_decide (row_no = "1") then OK d   (* skip headers *)
      else
        value ← _cell_value cell;
        match value with
        | None => OK d
        | Some value =>
            if negb (Str.truthy value) then OK d
            else
              let value := Str.strip value in
              if bool_decide (column = "A") then OK (append_to "rejection_type" value d)
              else if bool_decide (column = "C") then OK (append_to "rejection_class" value d)
              else if bool_decide (column = "E") then OK (append_to "disposition" value d)
              else OK d
        end
  end.

(** Deduplicate while preserving order. *)
Fixpoint unique_from (seen : gset string) (values : list string) : list string :=
  match values with
  | [] => []
  | item :: rest =>
      if bool_decide (item ∈ seen) then unique_from seen rest
      else item :: unique_from ({[item]} ∪ seen) rest
  end.

Definition unique (values : list string) : list string := unique_from ∅ values.

Definition empty_dropdowns : gmap string (list string) :=
  <["disposition" := []]> (<["rejection_class" := []]> (<["rejection_type" := []]> ∅)).

(** The scan of [_read_dropdowns], before the lists are deduplicated. *)
Definition scan_dropdowns (sheet : ET.element) : result (gmap string (list string)) :=
  for_in (ET.findall [main "sheetData"; main "row"; main "c"] sheet)
         dropdown_cell empty_dropdowns.

Definition _read_dropdowns (path : string) : result (gmap string (list string)) :=
  sheet ← read_xml zf path;
  scan_dropdowns sheet ≫= λ d : gmap string (list string),
  OK (unique <$> d).

Definition _read_shared_strings : result (list string) :=
  match read_xml zf "xl/sharedStrings.xml" with
  | Raise (KeyError _) => OK []
  | Raise e => Raise e
  | OK root =>
      OK (map (λ si, String.concat "" (map ET.text_or_empty (ET.findall_deep (main "t") si)))
              (ET.findall [main "si"] root))
  end.

(** [e.attrib[k]] *)
Definition attrib_getitem (e : ET.element) (k : string) : result string :=
  match ET.attrib e !! k with
  | Some v => OK v
  | None => Raise (KeyError k)
  end.

Definition _sheet_targets : result (odict string) :=
  workbook_xml ← read_xml zf "xl/workbook.xml";
  let sheets :=
    omap (λ sheet,
            let name := ET.get sheet "name" "" in
            match ET.attrib sheet !! qname REL_NS "id" with
            | Some rid => if Str.truthy rid then Some (name, rid) else None
            | None => None
            end)
         (ET.findall [main "sheets"; main "sheet"] workbook_xml) in
  rels_xml ← read_xml zf "xl/_rels/workbook.xml.rels";
  rels ← for_in (ET.findall [qname PKG_REL_NS "Relationship"] rels_xml)
           (λ (rels : gmap string string) rel,
              if Str.endswith "/worksheet" (ET.get rel "Type" "") then
                id ← attrib_getitem rel "Id";
                target ← attrib_getitem rel "Target";
                OK (<[id := target]> rels)
              else OK rels)
           ∅;
  OK (foldl (λ (sheet_targets : odict string) '(name, rid),
               match rels !! rid with
               | None => sheet_targets
               | Some target =>
                   if negb (Str.truthy target) then sheet_targets
                   (* Targets are relative to xl/ *)
                   else if negb (Str.startswith "/" target)
                   then odict_set sheet_targets name ("xl/" +:+ target)
                   else odict_set sheet_targets name (Str.lstrip_char "/" target)
               end)
            [] sheets).

End Loader.

Definition NO_LOG_SHEET : exn :=
  ValueError (Message "Could not locate NC Log worksheet in workbook.").
Definition NO_DROPDOWN_SHEET : exn :=
  ValueError (Message "Could not locate dropdown worksheet in workbook.").

(** [not path] for an optional path: [None] and the empty string. *)
Definition found (path : option string) : option string :=
  match path with
  | Some p => if Str.truthy p then Some p else None
  | None => None
  end.

(** [NonconExcelLoader.load], on the opened archive. *)
Definition load (zf : gmap string part) : result ExcelData :=
  shared_strings ← _read_shared_strings zf;
  sheet_targets ← _sheet_targets zf;
  log_sheet_path ← _find_log_sheet zf shared_strings sheet_targets;
  match found log_sheet_path with
  | None => Raise NO_LOG_SHEET
  | Some log_sheet_path =>
      dropdown_sheet_path ← _find_dropdown_sheet zf shared_strings sheet_targets;
      match found dropdown_sheet_path with
      | None => Raise NO_DROPDOWN_SHEET
      | Some dropdown_sheet_path =>
          records ← _read_log_records zf shared_strings log_sheet_path;
          dropdowns ← _read_dropdowns zf shared_strings dropdown_sheet_path;
          OK (mkExcelData records dropdowns)
      end
  end.

(** ** The notions that the properties are stated with *)

(** What [lstrip] returns is empty or starts with a character that is
    not white space. *)
Definition starts_clean (ws : ascii → bool) (s : string) : Prop :=
  match s with
  | EmptyString => True
  | String c _ => ws c = false
  end.

(** [n] is the integer part of the finite number [(-1)^s * m * 2^e]: it
    has the sign of the number, and [|n| <= m * 2^e < |n| + 1]. *)
Definition integer_part (s : bool) (m : positive) (e n : Z) : Prop :=
  (if s then n ≤ 0 else 0 ≤ n) ∧
  Z.abs n * 2 ^ Z.max (- e) 0 ≤ Z.pos m * 2 ^ Z.max e 0 < (Z.abs n + 1) * 2 ^ Z.max (- e) 0.

Definition finite (x : spec_float) : bool :=
  match x with
  | S754_zero _ | S754_finite _ _ _ => true
  | S754_infinity _ | S754_nan => false
  end.

(** [n] is the finite number [x] cut towards zero. *)
Definition truncation (x : spec_float) (n : Z) : Prop :=
  match x with
  | S754_zero _ => n = 0
  | S754_finite s m e => integer_part s m e n
  | S754_infinity _ | S754_nan => False
  end.

(** The date a number of days after the anchor, when there is one. *)
Definition date_after_base (days : Z) : option string :=
  if (-999999999 <=? days) && (days <=? 999999999)
     && (0 <? Date.toordinal BASE_DATE + days)
     && (Date.toordinal BASE_DATE + days <=? Date._MAXORDINAL)
  then Some (Date.isoformat (Date._ord2ymd (Date.toordinal BASE_DATE + days)))
  else None.

(** A cell counts for its row when its column is mapped and it decodes to
    text that is not empty once trimmed. *)
Definition cell_counts (shared_strings : list string) (cell : ET.element) : Prop :=
  ∃ column field value,
    match_column (ET.get cell "r" "") = Some column ∧
    FIELD_MAP !! column = Some field ∧
    _cell_value shared_strings cell = OK (Some value) ∧
    Str.strip value ≠ "".

Definition row_has_text (shared_strings : list string) (row : ET.element) : Prop :=
  ∃ cell, cell ∈ ET.findall [main "c"] row ∧ cell_counts shared_strings cell.

(** Every value of the lists is the result of [strip]. *)
Definition all_stripped (d : gmap string (list string)) : Prop :=
  ∀ key values value, d !! key = Some values → value ∈ values → Str.strip value = value.

(** The cells of a worksheet, in document order. *)
Definition cells_of (root : ET.element) : list ET.element :=
  ET.findall [main "sheetData"; main "row"; main "c"] root.

(** The part at [path] is a worksheet with a cell whose decoded text
    includes [needle], whatever the case of the letters. *)
Definition sheet_has_text (zf : gmap string part) (shared_strings : list string)
    (path needle : string) : Prop :=
  ∃ root cell value,
    read_xml zf path = OK root ∧
    cell ∈ cells_of root ∧
    _cell_value shared_strings cell = OK (Some value) ∧
    Str.contains (Str.lower needle) (Str.lower value) = true.

(** The part at [path] is a worksheet all of whose cells decode. *)
Definition sheet_decodes (zf : gmap string part) (shared_strings : list string)
    (path : string) : Prop :=
  ∃ root,
    read_xml zf path = OK root ∧
    ∀ cell, cell ∈ cells_of root → is_OK (_cell_value shared_strings cell).

(** Checks that compute, for the sheets of a given archive. *)
Definition decodes_check (zf : gmap string part) (shared_strings : list string)
    (path : string) : bool :=
  match read_xml zf path with
  | OK root =>
      forallb (λ cell, match _cell_value shared_strings cell with
                       | OK _ => true
                       | Raise _ => false
                       end)
              (cells_of root)
  | Raise _ => false
  end.

(** ** A small workbook, used as a running example *)

Module Example.

Definition elem (t : string) (attrs : list (string * string)) (cs : list ET.element)
    : ET.element :=
  ET.Element (main t) (list_to_map attrs) None cs.

(** [<c r="addr" t="ty"><v>x</v></c>] *)
Definition cell (addr : string) (ty : option string) (x : string) : ET.element :=
  elem "c" (("r", addr) :: match ty with Some t => [("t", t)] | None => [] end)
       [ET.Element (main "v") ∅ (Some x) []].

Definition row (r : string) (cells : list ET.element) : ET.element :=
  elem "row" [("r", r)] cells.

Definition worksheet (rows : list ET.element) : ET.element :=
  elem "worksheet" [] [elem "sheetData" [] rows].

Definition workbook : ET.element :=
  elem "workbook" []
    [elem "sheets" []
       [elem "sheet" [("name", "Data"); (qname REL_NS "id", "rId1")] [];
        elem "sheet" [("name", "Sheet2"); (qname REL_NS "id", "rId2")] []]].

Definition relationship (id target : string) : ET.element :=
  ET.Element (qname PKG_REL_NS "Relationship")
    (list_to_map [("Id", id); ("Target", target); ("Type", REL_NS +:+ "/worksheet")])
    None [].

Definition rels : ET.element :=
  ET.Element (qname PKG_REL_NS "Relationships") ∅ None
    [relationship "rId1" "worksheets/sheet1.xml";
     relationship "rId2" "/xl/worksheets/sheet2.xml"].

Definition log_sheet : ET.element :=
  worksheet
    [row "1" [cell "A1" None "Tag Number"; cell "M1" None "Containment Date"];
     row "7" [cell "A7" (Some "s") "0"; cell "M7" None "45000.75"; cell "Q7" None "n/a";
              cell "B7" None "ignored"];
     row "8" [cell "A8" None "   "; cell "B8" None "unmapped"];
     row "9" [cell "AC9" None " 1 "]].

Definition dropdown_sheet : ET.element :=
  worksheet
    [row "1" [cell "A1" None "Rejection Type:"; cell "C1" None "Class"];
     row "2" [cell "A2" None "Scratch"; cell "C2" None " Major "; cell "E2" None "Scrap"];
     row "3" [cell "A3" None "Dent"; cell "B3" None "other"];
     row "4" [cell "A4" None "Scratch"]].

(** The records of [log_sheet]: the rows 7 and 9. *)
Definition log_records : list (gmap string string) :=
  [list_to_map [("tag_number", "0"); ("containment_date", "2023-03-15"); ("mfg_date", "n/a")];
   list_to_map [("date_authorized", "1899-12-31")]].

(** The lists of [dropdown_sheet]. *)
Definition dropdown_lists : gmap string (list string) :=
  list_to_map [("rejection_type", ["Scratch"; "Dent"]); ("rejection_class", ["Major"]);
               ("disposition", ["Scrap"])].

(** The sheets of the workbook and their parts. *)
Definition targets : odict string :=
  [("Data", "xl/worksheets/sheet1.xml"); ("Sheet2", "xl/worksheets/sheet2.xml")].

(** A package without the shared-strings part. *)
Definition package : gmap string part :=
  list_to_map
    [("xl/workbook.xml", Document workbook);
     ("xl/_rels/workbook.xml.rels", Document rels);
     ("xl/worksheets/sheet1.xml", Document log_sheet);
     ("xl/worksheets/sheet2.xml", Document dropdown_sheet)].

(** The same package with a shared-strings part of two entries. *)
Definition shared_strings_part : ET.element :=
  elem "sst" []
    [elem "si" [] [ET.Element (main "t") ∅ (Some "TAG-001") []];
     elem "si" []
       [elem "r" [] [ET.Element (main "t") ∅ (Some "TAG-") []];
        elem "r" [] [ET.Element (main "t") ∅ (Some "002") []]]].

Definition package_with_strings : gmap string part :=
  <["xl/sharedStrings.xml" := Document shared_strings_part]> package.

(** A log sheet whose cell A7 refers beyond the two shared strings, and
    its package. *)
Definition bad_index_row : ET.element := row "7" [cell "A7" (Some "s") "2"].

Definition bad_index_log_sheet : ET.element :=
  worksheet [row "1" [cell "A1" None "Tag Number"]; bad_index_row].

Definition package_bad_index : gmap string part :=
  <["xl/worksheets/sheet1.xml" := Document bad_index_log_sheet]> package_with_strings.

(** A dropdown sheet with a cell of white space only, and its package. *)
Definition blank_dropdown_sheet : ET.element :=
  worksheet
    [row "1" [cell "A1" None "Rejection Type:"];
     row "2" [cell "A2" None " "; cell "C2" None "Minor"]].

Definition package_blank_dropdown : gmap string part :=
  <["xl/worksheets/sheet2.xml" := Document blank_dropdown_sheet]> package.

(** A log sheet with a date cell holding the text [nan], and its
    package. *)
Definition nan_log_sheet : ET.element :=
  worksheet
    [row "1" [cell "A1" None "Tag Number"];
     row "7" [cell "A7" None "T-1"; cell "M7" None "nan"]].

Definition package_nan_date : gmap string part :=
  <["xl/worksheets/sheet1.xml" := Document nan_log_sheet]> package.

(** A package none of whose sheets has the name or the marker of the
    log sheet. *)
Definition package_no_log : gmap string part :=
  <["xl/worksheets/sheet1.xml" := Document dropdown_sheet]> package.

End Example.

(** ** Dates read back: [coerce_date_param] of [app.py] *)

Module Strptime.

(** [date(y, m, d)] exists: the check that the constructor makes. *)
Definition _days_in_month (y m : Z) : Z :=
  if (m =? 2) && Date._is_leap y then 29 else Date.table Date._DAYS_IN_MONTH m.

Definition valid (d : Date.date) : bool :=
  (1 <=? Date.year d) && (Date.year d <=? 9999)
  && (1 <=? Date.month d) && (Date.month d <=? 12)
  && (1 <=? Date.day d) && (Date.day d <=? _days_in_month (Date.year d) (Date.month d)).

Definition char_is (ch : string) (c : ascii) : bool := bool_decide (String c EmptyString = ch).

(** The ways [(?P<m>1[0-2]|0[1-9]|[1-9])] matches at the start of [s], in
    the order in which the alternatives are tried: the number matched and
    the rest of the string. *)
Definition month_matches (s : string) : list (Z * string) :=
  match s with
  | String a r =>
      match r with
      | String b r' =>
          if char_is "1" a && Str.between 48 50 b
             || char_is "0" a && Str.between 49 57 b
          then [(10 * Num.digit_value a + Num.digit_value b, r')]
          else []
      | EmptyString => []
      end
      ++ (if Str.between 49 57 a then [(Num.digit_value a, r)] else [])
  | EmptyString => []
  end.

(** The first way [(?P<d>3[0-1]|[1-2]\d|0[1-9]|[1-9]| [1-9])] matches at
    the start of [s]. *)
Definition day_match (s : string) : option (Z * string) :=
  match s with
  | String a r =>
      let two :=
        match r with
        | String b r' =>
            if char_is "3" a && Str.between 48 49 b
               || Str.between 49 50 a && Str.isdigit b
               || char_is "0" a && Str.between 49 57 b
            then Some (10 * Num.digit_value a + Num.digit_value b, r')
            else None
        | EmptyString => None
        end in
      match two with
      | Some found => Some found
      | None =>
          if Str.between 49 57 a then Some (Num.digit_value a, r)
          else
            match r with
            | String b r' =>
                if char_is " " a && Str.between 49 57 b then Some (Num.digit_value b, r')
                else None
            | EmptyString => None
            end
      end
  | EmptyString => None
  end.

(** The match of ["-" day] after a month, for the first month that has
    one: the month, the day and what is left of the string. *)
Fixpoint first_month_day (months : list (Z * string)) : option (Z * Z * string) :=
  match months with
  | [] => None
  | (m, String dash r) :: rest =>
      if char_is "-" dash then
        match day_match r with
        | Some (d, remains) => Some (m, d, remains)
        | None => first_month_day rest
        end
      else first_month_day rest
  | (_, EmptyString) :: rest => first_month_day rest
  end.

(** [datetime.strptime(s, "%Y-%m-%d").date()]; [None] stands for the
    [ValueError] that it raises. *)
Definition strptime_ymd (s : string) : option Date.date :=
  match s with
  | String y1 (String y2 (String y3 (String y4 (String dash r)))) =>
      if Str.isdigit y1 && Str.isdigit y2 && Str.isdigit y3 && Str.isdigit y4 && char_is "-" dash
      then
        match first_month_day (month_matches r) with
        | Some (m, d, EmptyString) =>
            let y := Num.digits_value (String y1 (String y2 (String y3 (String y4 EmptyString)))) 0 in
            let date_value := Date.mkdate y m d in
            if valid date_value then Some date_value else None
        | Some (_, _, String _ _) => None   (* unconverted data remains *)
        | None => None
        end
      else None
  | _ => None
  end.

End Strptime.

(** [coerce_date_param(value)] *)
Definition coerce_date_param (value : option string) : option Date.date :=
  match value with
  | None => None
  | Some value =>
      if negb (Str.truthy value) then None
      else Strptime.strptime_ymd value   (* except ValueError: return None *)
  end.

(** ** The database layer ([database.py]): what it computes before SQL *)

(** The values of the dictionaries that go to the database: [None], a
    string or an integer. *)
Inductive pyval :=
  | PNone
  | PStr (s : string)
  | PInt (n : Z).

#[global] Instance pyval_eq_dec : EqDecision pyval.
Proof. solve_decision. Defined.

(** What a function of this layer does: it returns, or it raises the
    [AttributeError] of [.strip()] on an integer. *)
Inductive outcome (A : Type) :=
  | Returns (a : A)
  | AttributeError.
Arguments Returns {A} a.
Arguments AttributeError {A}.

Module Database.

Definition TAG_COLUMNS : list string :=
  [ "tag_number"; "part_description"; "rejection_type"; "rejection_class";
    "defect_description"; "rejected_by"; "containment_date";
    "total_rejected_qty_initial"; "mfg_date"; "mfg_shift"; "supplier";
    "total_rejected_qty_final"; "disposition"; "authorized_by";
    "date_authorized"; "date_sort_rework"; "good_pcs"; "reworked_pcs";
    "scrap_pcs"; "complete"; "closed_date"; "closed_by"; "qad_number";
    "qad_date"; "completed_by"; "is_closed"; "created_at"; "updated_at" ].

(** [(record.get(key) or "").strip()] *)
Definition stripped_text (record : gmap string pyval) (key : string) : outcome string :=
  match record !! key with
  | None | Some PNone => Returns (Str.strip "")
  | Some (PStr s) => Returns (Str.strip (if Str.truthy s then s else ""))
  | Some (PInt n) => if n =? 0 then Returns (Str.strip "") else AttributeError
  end.

Definition determine_is_closed (record : gmap string pyval) : outcome Z :=
  match stripped_text record "closed_date" with
  | AttributeError => AttributeError
  | Returns closed_date =>
      match stripped_text record "complete" with
      | AttributeError => AttributeError
      | Returns complete =>
          let complete := Str.lower complete in
          if Str.truthy closed_date then Returns 1
          else if bool_decide (complete ∈ ({[ "yes"; "y"; "true"; "closed"; "complete" ]} : gset string))
          then Returns 1
          else if bool_decide (complete ∈ ({[ "1"; "closed"; "done" ]} : gset string))
          then Returns 1
          else Returns 0
      end
  end.

(** What [clean_record] stores for a value. *)
Definition clean_value (value : pyval) : pyval :=
  match value with
  | PNone => PNone
  | PStr s => let text := Str.strip s in if Str.truthy text then PStr text else PNone
  | PInt n => PInt n
  end.

Definition clean_record (record : gmap string pyval) : gmap string pyval :=
  foldl (λ (cleaned : gmap string pyval) key,
           match record !! key with
           | None => cleaned
           | Some value => <[key := clean_value value]> cleaned
           end)
        ∅ TAG_COLUMNS.

(** [d.setdefault(key, value)] *)
Definition setdefault (key : string) (value : pyval) (d : gmap string pyval)
    : gmap string pyval :=
  match d !! key with
  | Some _ => d
  | None => <[key := value]> d
  end.

(** [[col for col in TAG_COLUMNS if col in d]] and [[d[col] for col in columns]] *)
Definition columns_of (d : gmap string pyval) : list string :=
  filter (λ col, is_Some (d !! col)) TAG_COLUMNS.
Definition values_of (d : gmap string pyval) (columns : list string) : list pyval :=
  omap (λ col, d !! col) columns.

(** The columns and the values of the [INSERT OR IGNORE] that
    [seed_from_excel] runs for one record, at the time [now]. *)
Definition seed_statement (now : string) (record : gmap string pyval)
    : outcome (list string * list pyval) :=
  let record := setdefault "created_at" (PStr now) record in
  let record := setdefault "updated_at" (PStr now) record in
  match determine_is_closed record with
  | AttributeError => AttributeError
  | Returns is_closed =>
      let record := <["is_closed" := PInt is_closed]> record in
      let cleaned := clean_record record in
      let columns := columns_of cleaned in
      Returns (columns, values_of cleaned columns)
  end.

(** The columns and the values of the [INSERT] of [insert_tag]. *)
Definition insert_statement (now : string) (data : gmap string pyval)
    : outcome (list string * list pyval) :=
  let data := setdefault "created_at" (PStr now) data in
  let data := setdefault "updated_at" (PStr now) data in
  match determine_is_closed data with
  | AttributeError => AttributeError
  | Returns is_closed =>
      let data := <["is_closed" := PInt is_closed]> data in
      let columns := columns_of data in
      Returns (columns, values_of data columns)
  end.

(** The columns assigned and their values in the [UPDATE] of
    [update_tag]; [None] when the function returns without an update. *)
Definition update_statement (now : string) (data : gmap string pyval)
    : outcome (option (list string * list pyval)) :=
  let data := <["updated_at" := PStr now]> data in
  match determine_is_closed data with
  | AttributeError => AttributeError
  | Returns is_closed =>
      let data := <["is_closed" := PInt is_closed]> data in
      let assignments := columns_of data in
      match assignments with
      | [] => Returns None
      | _ :: _ => Returns (Some (assignments, values_of data assignments))
      end
  end.

End Database.

(** ** The forms of [app.py] *)

Module App.

Record field := mkfield {
  name : string;
  label : string;
  type : string;
  readonly : bool;
  options_key : option string
}.

Definition text_field (name label : string) : field := mkfield name label "text" false None.
Definition date_field (name label : string) : field := mkfield name label "date" false None.
Definition select_field (name label : string) : field :=
  mkfield name label "select" false (Some name).

Definition FORM_SECTIONS : list (string * list field) :=
  [ ("Quality Auditor",
     [ mkfield "tag_number" "Tag Number" "text" true None;
       text_field "part_description" "Part Description";
       select_field "rejection_type" "Rejection Type";
       select_field "rejection_class" "Rejection Class";
       mkfield "defect_description" "Defect / Issue Description" "textarea" false None;
       text_field "rejected_by" "Rejected By";
       date_field "containment_date" "Containment Date";
       text_field "total_rejected_qty_initial" "Total Rejected Qty";
       date_field "mfg_date" "Manufacturing Date";
       text_field "mfg_shift" "Manufacturing Shift";
       text_field "supplier" "Supplier";
       text_field "total_rejected_qty_final" "Total Quantity Rejected" ]);
    ("QE / ENG Responsible",
     [ select_field "disposition" "Disposition";
       text_field "authorized_by" "Authorized By";
       date_field "date_authorized" "Date Authorized" ]);
    ("Production Supervisor Responsible",
     [ date_field "date_sort_rework" "Date of Sort / Rework";
       text_field "good_pcs" "Good Pieces";
       text_field "reworked_pcs" "Reworked Pieces";
       text_field "scrap_pcs" "Scrap Pieces";
       date_field "closed_date" "Closed Date";
       text_field "closed_by" "Closed By" ]);
    ("Materials Responsible",
     [ text_field "qad_number" "QAD";
       date_field "qad_date" "QAD Date";
       text_field "completed_by" "Completed By" ]) ].

Definition FIELD_CONFIG : list field := FORM_SECTIONS ≫= snd.

Definition SELECT_FIELDS : gset string :=
  list_to_set (name <$> filter (λ f, type f = "select") FIELD_CONFIG).
Definition DATE_FIELDS : gset string :=
  list_to_set (name <$> filter (λ f, type f = "date") FIELD_CONFIG).

(** [value.strip() or None] *)
Definition strip_or_none (value : string) : pyval :=
  let text := Str.strip value in
  if Str.truthy text then PStr text else PNone.

(** What the first loop of [normalize_form_data] stores under [name]. *)
Definition normalized (form : gmap string string) (name : string) : pyval :=
  let value := form !! name in
  let value :=
    if bool_decide (name ∈ SELECT_FIELDS) && bool_decide (value = Some "__other__") then
      match strip_or_none (default "" (form !! (name +:+ "_other"))) with
      | PStr custom => Some custom
      | _ => None
      end
    else value in
  match value with
  | Some value => strip_or_none value
  | None => PNone
  end.

Definition normalize_form_data (form : gmap string string) : gmap string pyval :=
  let data :=
    foldl (λ (data : gmap string pyval) f, <[name f := normalized form (name f)]> data)
          ∅ FIELD_CONFIG in
  (* Dates: ensure empty string becomes None *)
  foldl (λ (data : gmap string pyval) name,
           match data !! name with
           | None | Some PNone | Some (PStr EmptyString) => <[name := PNone]> data
           | Some _ => data
           end)
        data (elements DATE_FIELDS).

(** [prepare_form_context(record)], with [g.dropdown_options] as an
    argument: [select_values] and [other_values]. *)
Definition prepare_form_context
    (dropdown_options : gmap string (list string)) (record : gmap string pyval)
    : outcome (gmap string string * gmap string string) :=
  foldl (λ (acc : outcome (gmap string string * gmap string string)) f,
           match acc with
           | AttributeError => AttributeError
           | Returns (select_values, other_values) =>
               match Database.stripped_text record f with
               | AttributeError => AttributeError
               | Returns current =>
                   let options := default [] (dropdown_options !! f) in
                   if Str.truthy current && negb (bool_decide (current ∈ options))
                   then Returns (<[f := "__other__"]> select_values, <[f := current]> other_values)
                   else Returns (<[f := current]> select_values, other_values)
               end
           end)
        (Returns (∅, ∅)) (elements SELECT_FIELDS).

End App.

(** ** The notions that the further properties are stated with *)

(** What a cell adds to the dropdown list of [column]: its stripped text,
    when its address has that column and a row number other than "1" and
    it decodes to text that is not empty. *)
Definition dropdown_entry (shared_strings : list string) (column : string)
    (cell : ET.element) : option string :=
  match match_column_row (ET.get cell "r" "") with
  | Some (c, row_no) =>
      if bool_decide (c = column) && negb (bool_decide (row_no = "1")) then
        match _cell_value shared_strings cell with
        | OK (Some value) => if Str.truthy value then Some (Str.strip value) else None
        | _ => None
        end
      else None
  | None => None
  end.

(** The dropdown lists and their columns. *)
Definition DROPDOWN_COLUMNS : list (string * string) :=
  [("rejection_type", "A"); ("rejection_class", "C"); ("disposition", "E")].

(** The fields of a record are names of [FIELD_MAP] and hold text that is
    stripped and not empty. *)
Definition fields_ok (record : gmap string string) : Prop :=
  ∀ field value,
    record !! field = Some value →
    (∃ column, FIELD_MAP !! column = Some field) ∧ value ≠ "" ∧ Str.strip value = value.

(** The part that a target of the relationships names. *)
Definition part_of_target (target : string) : string :=
  if negb (Str.startswith "/" target) then "xl/" +:+ target
  else Str.lstrip_char "/" target.

(** The relationships that the resolver keeps: those of a worksheet. *)
Definition is_worksheet_rel (rel : ET.element) : bool :=
  Str.endswith "/worksheet" (ET.get rel "Type" "").

(** One step of the comprehension that reads the relationships. *)
Definition rels_step (rels : gmap string string) (rel : ET.element)
    : result (gmap string string) :=
  if Str.endswith "/worksheet" (ET.get rel "Type" "") then
    id ← attrib_getitem rel "Id";
    target ← attrib_getitem rel "Target";
    OK (<[id := target]> rels)
  else OK rels.

(** ** The notions of the properties of the resolver, the dates, the
    database layer and the forms *)


(** The sheets that the workbook declares with a relationship id. *)
Definition declared_sheets (workbook_xml : ET.element) : list (string * string) :=
  omap (λ sheet,
          let name := ET.get sheet "name" "" in
          match ET.attrib sheet !! qname REL_NS "id" with
          | Some rid => if Str.truthy rid then Some (name, rid) else None
          | None => None
          end)
       (ET.findall [main "sheets"; main "sheet"] workbook_xml).

(** The relationships part is well formed for the resolver: each
    relationship of a worksheet has its [Id] and its [Target]. *)
Definition rels_complete (rels_xml : ET.element) : Prop :=
  ∀ rel, rel ∈ ET.findall [qname PKG_REL_NS "Relationship"] rels_xml →
         is_worksheet_rel rel = true →
         is_Some (ET.attrib rel !! "Id") ∧ is_Some (ET.attrib rel !! "Target").

(** [P] holds of 0, 1, ..., [n - 1]. *)
Definition all_below (n : N) (P : Z → bool) : bool :=
  (N.iter n (λ '(ok, i), (ok && P i, i + 1)) (true, 0)).1.

(** What the parser reads back from the text of a year, a month and a
    day. *)
Definition year_reads_back (y : Z) : bool :=
  match Date.pad4 y with
  | String a (String b (String c (String d EmptyString))) =>
      Str.isdigit a && Str.isdigit b && Str.isdigit c && Str.isdigit d
      && (Num.digits_value (Date.pad4 y) 0 =? y)
  | _ => false
  end.

Definition month_day_read_back (i : Z) : bool :=
  let m := i / 32 in
  let d := i mod 32 in
  (m <? 1) || (d <? 1)
  || bool_decide (Strptime.first_month_day
                    (Strptime.month_matches (Date.pad2 m +:+ "-" +:+ Date.pad2 d))
                  = Some (m, d, EmptyString)).

(** The check of one day of the 400-year cycle: the date of the ordinal
    [r + 1] exists, and its ordinal is [r + 1]. *)
Definition cycle_day_ok (r : Z) : bool :=
  let d := Date._ord2ymd (r + 1) in
  (1 <=? Date.year d) && (Date.year d <=? 400)
  && ((145730 <? r) || (Date.year d <=? 399))
  && (1 <=? Date.month d) && (Date.month d <=? 12)
  && (1 <=? Date.day d) && (Date.day d <=? Strptime._days_in_month (Date.year d) (Date.month d))
  && (Date.toordinal d =? r + 1).

(** A value as the database layer stores it: no string that is blank or
    has white space around it. *)
Definition stored_value (value : pyval) : Prop :=
  match value with
  | PStr s => s ≠ "" ∧ Str.strip s = s
  | _ => True
  end.

(** The record as [seed_from_excel] stores it: the fields of the loader,
    the two time stamps and the closed flag. *)
Definition seeded (now : string) (is_closed : Z) (record : gmap string string)
    : gmap string pyval :=
  <["is_closed" := PInt is_closed]>
    (<["updated_at" := PStr now]> (<["created_at" := PStr now]> (PStr <$> record))).

(** Whether a record of the loader counts as closed. *)
Definition closed_text (record : gmap string string) : bool :=
  Str.truthy (Str.strip (default "" (record !! "closed_date")))
  || bool_decide (Str.lower (Str.strip (default "" (record !! "complete")))
                  ∈ ["yes"; "y"; "true"; "closed"; "complete"; "1"; "done"]).

(** The names of the fields of the form. *)
Definition FIELD_NAMES : list string := App.name <$> App.FIELD_CONFIG.

(** The step of [prepare_form_context] for one select field. *)
Definition context_step (dropdown_options : gmap string (list string))
    (record : gmap string pyval)
    (acc : outcome (gmap string string * gmap string string)) (f : string)
    : outcome (gmap string string * gmap string string) :=
  match acc with
  | AttributeError => AttributeError
  | Returns (select_values, other_values) =>
      match Database.stripped_text record f with
      | AttributeError => AttributeError
      | Returns current =>
          let options := default [] (dropdown_options !! f) in
          if Str.truthy current && negb (bool_decide (current ∈ options))
          then Returns (<[f := "__other__"]> select_values, <[f := current]> other_values)
          else Returns (<[f := current]> select_values, other_values)
      end
  end.

(** * Properties *)

(** ** The embedding on concrete inputs *)

Example strip_latin1_space : Str.strip (String "160" (String "009" "a b" +:+ String "133" "")) = "a b".
Proof. reflexivity. Qed.

Example lower_latin1 :
  Str.lower ("NC Log 2024 " +:+ String "192" (String "215" "")) =
  "nc log 2024 " +:+ String "224" (String "215" "").
Proof. reflexivity. Qed.

Example int_of_str_signed : Num.int_of_str " -1_2 " = OK (-12).
Proof. reflexivity. Qed.

Example int_of_str_double_underscore :
  Num.int_of_str "1__2" = Raise (ValueError (InvalidIntLiteral "1__2")).
Proof. reflexivity. Qed.

Example int_of_str_empty : Num.int_of_str "" = Raise (ValueError (InvalidIntLiteral "")).
Proof. reflexivity. Qed.

(** 0.1 is 0x1.999999999999ap-4, and 1e23 rounds down to
    99999999999999991611392. *)
Example float_of_str_tenth :
  Num.float_of_str "0.1" = OK (S754_finite false 7205759403792794 (-56)).
Proof. by vm_compute. Qed.

Example float_of_str_1e23 :
  (Num.float_of_str "1e23" ≫= Num.int_of_float) = OK 99999999999999991611392.
Proof. by vm_compute. Qed.

(** A tie goes to the even neighbour, and a decimal that is nearer to 1
    than to the float before it is 1. *)
Example float_of_str_tie : (Num.float_of_str "9007199254740993" ≫= Num.int_of_float)
                           = OK 9007199254740992.
Proof. by vm_compute. Qed.

Example float_of_str_almost_one :
  (Num.float_of_str "0.99999999999999999999" ≫= Num.int_of_float) = OK 1.
Proof. by vm_compute. Qed.

Example float_of_str_largest :
  Num.float_of_str "1.7976931348623157e308" = OK (S754_finite false 9007199254740991 971) ∧
  Num.float_of_str "1.7976931348623159e308" = OK (S754_infinity false).
Proof. by vm_compute. Qed.

Example float_of_str_smallest :
  Num.float_of_str "5e-324" = OK (S754_finite false 1 (-1074)) ∧
  Num.float_of_str "2e-324" = OK (S754_zero false).
Proof. by vm_compute. Qed.

Example float_of_str_forms :
  Num.float_of_str "-1_0.5E+1" = OK (S754_finite true 7388718138654720 (-46)) ∧
  Num.float_of_str ".5" = OK (S754_finite false 4503599627370496 (-53)) ∧
  Num.float_of_str "1." = OK (S754_finite false 4503599627370496 (-52)) ∧
  Num.float_of_str "-Infinity" = OK (S754_infinity true) ∧
  Num.float_of_str "NaN" = OK S754_nan ∧
  Num.float_of_str "1_" = Raise (ValueError (InvalidFloatLiteral "1_")) ∧
  Num.float_of_str "1e" = Raise (ValueError (InvalidFloatLiteral "1e")) ∧
  Num.float_of_str "0x10" = Raise (ValueError (InvalidFloatLiteral "0x10")) ∧
  Num.float_of_str "12/03/2020" = Raise (ValueError (InvalidFloatLiteral "12/03/2020")).
Proof. by vm_compute. Qed.

Example int_of_float_towards_zero :
  (Num.float_of_str "-1.9" ≫= Num.int_of_float) = OK (-1) ∧
  (Num.float_of_str "-0.5" ≫= Num.int_of_float) = OK 0.
Proof. by vm_compute. Qed.

Example ordinals :
  Date.toordinal BASE_DATE = 693594 ∧
  Date._ymd2ord 1 1 1 = 1 ∧
  Date._ymd2ord 9999 12 31 = Date._MAXORDINAL ∧
  Date._ord2ymd 730179 = Date.mkdate 2000 2 29.
Proof. by vm_compute. Qed.

Example excel_serial_to_iso_dates :
  excel_serial_to_iso (Some " 45000.75 ") = OK (Some "2023-03-15") ∧
  excel_serial_to_iso (Some "-1.5") = OK (Some "1899-12-29") ∧
  excel_serial_to_iso (Some "2958465") = OK (Some "9999-12-31") ∧
  excel_serial_to_iso (Some "2958466") = OK None ∧
  excel_serial_to_iso (Some "-693593") = OK (Some "0001-01-01") ∧
  excel_serial_to_iso (Some "-693594") = OK None ∧
  excel_serial_to_iso (Some "1e10") = OK None ∧
  excel_serial_to_iso (Some "  ") = OK None ∧
  excel_serial_to_iso (Some "12/03/2020") = OK None.
Proof. by vm_compute. Qed.

Example match_addresses :
  match_column "AC42" = Some "AC" ∧ match_column "42" = None ∧
  match_column_row "AC42" = Some ("AC", "42") ∧ match_column_row "AC" = None ∧
  match_column_row "A01" = Some ("A", "01").
Proof. by vm_compute. Qed.

Example load_example :
  (load Example.package ≫= λ data, OK (records data)) = OK Example.log_records ∧
  (load Example.package ≫= λ data, OK (map_to_list (dropdowns data))) =
    OK [("rejection_class", ["Major"]); ("rejection_type", ["Scratch"; "Dent"]);
        ("disposition", ["Scrap"])] ∧
  (load Example.package_with_strings ≫= λ data, OK (records data ≫= λ r, option_list (r !! "tag_number")))
    = OK ["TAG-001"].
Proof. repeat split; vm_compute; reflexivity. Qed.

(** ** The result monad and the loops *)

Lemma bind_OK_inv {A B} (m : result A) (f : A → result B) (b : B) :
  m ≫= f = OK b → ∃ a, m = OK a ∧ f a = OK b.
Proof. destruct m as [a|e]; simpl; [eauto | discriminate]. Qed.

(** Two results of the same computation are the same. *)
Ltac same_result :=
  repeat match goal with
  | H1 : ?m = OK _, H2 : ?m = OK _ |- _ => rewrite H1 in H2; simplify_eq
  | H1 : ?m = OK _, H2 : ?m = Raise _ |- _ => rewrite H1 in H2; discriminate
  end.

Lemma is_OK_OK {A} (a : A) : is_OK (OK a).
Proof. by exists a. Qed.

Lemma not_is_OK_Raise {A} (e : exn) : ¬ is_OK (@Raise A e).
Proof. by intros [a ?]. Qed.

Lemma for_in_app {A S} (xs ys : list A) (body : S → A → result S) (s : S) :
  for_in (xs ++ ys) body s = for_in xs body s ≫= for_in ys body.
Proof.
  revert s. induction xs as [|x xs IH]; intros s; simpl; [done|].
  destruct (body s x) as [s'|e]; simpl; [apply IH | done].
Qed.

(** A loop that returns went through every iteration without an
    exception, and keeps every invariant of its body. *)
Lemma for_in_invariant {A S} (P : S → Prop) (xs : list A) (body : S → A → result S) s s' :
  (∀ s x s', x ∈ xs → P s → body s x = OK s' → P s') →
  P s → for_in xs body s = OK s' → P s'.
Proof.
  revert s. induction xs as [|x xs IH]; intros s Hbody HP Hrun; simpl in Hrun.
  - by inversion Hrun; subst.
  - apply bind_OK_inv in Hrun as (s1 & Hx & Hrun).
    eapply IH; [| |exact Hrun].
    + intros ? y ? Hy. apply Hbody. by right.
    + eapply Hbody; [left | exact HP | exact Hx].
Qed.

(** A loop that returns ran its body on every element without an
    exception. *)
Lemma for_in_each_OK {A S} (xs : list A) (body : S → A → result S) s s' :
  for_in xs body s = OK s' → ∀ x, x ∈ xs → ∃ s1 s2, body s1 x = OK s2.
Proof.
  revert s. induction xs as [|y xs IH]; intros s Hrun x Hx; cbn [for_in] in Hrun.
  - by apply elem_of_nil in Hx.
  - apply bind_OK_inv in Hrun as (s1 & Hy & Hrun).
    apply elem_of_cons in Hx as [->|Hx]; [by eauto | by eapply IH].
Qed.

(** ** List indexing *)

Lemma list_getitem_end_relative {A} (l : list A) (k : Z) :
  1 ≤ k ≤ Z.of_nat (length l) →
  ∃ x, l !! Z.to_nat (Z.of_nat (length l) - k) = Some x ∧ list_getitem l (- k) = OK x.
Proof.
  intros Hk. unfold list_getitem.
  destruct (Z.ltb_spec (- k) 0) as [_|]; [|lia].
  replace (- k + Z.of_nat (length l)) with (Z.of_nat (length l) - k) by lia.
  destruct (Z.leb_spec 0 (Z.of_nat (length l) - k)); [|lia].
  destruct (Z.ltb_spec (Z.of_nat (length l) - k) (Z.of_nat (length l))); [|lia].
  simpl.
  destruct (lookup_lt_is_Some_2 l (Z.to_nat (Z.of_nat (length l) - k))) as [x Hx]; [lia|].
  exists x. by rewrite Hx.
Qed.

Lemma list_getitem_beyond {A} (l : list A) (i : Z) :
  Z.of_nat (length l) ≤ i → list_getitem l i = Raise IndexError.
Proof.
  intros Hi. unfold list_getitem.
  destruct (Z.ltb_spec i 0); [lia|].
  destruct (Z.ltb_spec i (Z.of_nat (length l))); [lia|].
  by rewrite andb_false_r.
Qed.

(** ** The cell value decoder *)

Section Cell_value.

Variable shared_strings : list string.
Variables cell v : ET.element.
Hypothesis has_value : ET.find (main "v") cell = Some v.

Lemma cell_value_shared (index : Z) :
  shared_strings ≠ [] →
  ET.attrib cell !! "t" = Some "s" →
  Num.int_of_str (ET.text_or_empty v) = OK index →
  _cell_value shared_strings cell = Some <$> list_getitem shared_strings index.
Proof using has_value.
  intros Hne Ht Hi. unfold _cell_value. rewrite has_value, Ht.
  rewrite bool_decide_eq_true_2 by done.
  destruct shared_strings; [done|]. rewrite Hi. simpl.
  by destruct (list_getitem _ _).
Qed.

End Cell_value.

(** ** Strings *)

Section Strip.

Variable ws : ascii → bool.

Lemma truthy_true (s : string) : Str.truthy s = true ↔ s ≠ "".
Proof. destruct s; simpl; split; congruence. Qed.

Lemma truthy_false (s : string) : Str.truthy s = false ↔ s = "".
Proof. destruct s; simpl; split; congruence. Qed.

Lemma lstrip_by_starts_clean (s : string) : starts_clean ws (Str.lstrip_by ws s).
Proof.
  induction s as [|c r IH]; simpl; [done|].
  destruct (ws c) eqn:Hc; [done|]. simpl. exact Hc.
Qed.

Lemma lstrip_by_clean (s : string) : starts_clean ws s → Str.lstrip_by ws s = s.
Proof. destruct s as [|c r]; simpl; [done|]. by intros ->. Qed.

Lemma lstrip_by_empty (s : string) : Str.lstrip_by ws s = "" ↔ Str.all ws s = true.
Proof.
  induction s as [|c r IH]; simpl; [done|].
  destruct (ws c); simpl; [done|]. split; discriminate.
Qed.

Lemma rstrip_by_empty (s : string) : Str.rstrip_by ws s = "" ↔ Str.all ws s = true.
Proof.
  induction s as [|c r IH]; simpl; [done|].
  destruct (Str.rstrip_by ws r) as [|c' r'] eqn:Hr.
  - destruct (ws c); simpl; [by rewrite <- IH | split; discriminate].
  - split; [discriminate|]. intros [_ Hall]%andb_prop.
    by apply IH in Hall.
Qed.

Lemma rstrip_by_starts_clean (s : string) :
  starts_clean ws s → starts_clean ws (Str.rstrip_by ws s).
Proof.
  destruct s as [|c r]; simpl; [done|]. intros Hc.
  destruct (Str.rstrip_by ws r); [by rewrite Hc|done].
Qed.

Lemma rstrip_by_idemp (s : string) :
  Str.rstrip_by ws (Str.rstrip_by ws s) = Str.rstrip_by ws s.
Proof.
  induction s as [|c r IH]; simpl; [done|].
  destruct (Str.rstrip_by ws r) as [|c' r'] eqn:Hr.
  - destruct (ws c) eqn:Hc; simpl; [done|by rewrite Hc].
  - change (Str.rstrip_by ws (String c (String c' r'))) with
      (match Str.rstrip_by ws (String c' r') with
       | EmptyString => if ws c then EmptyString else String c EmptyString
       | String a b => String c (String a b)
       end).
    by rewrite IH.
Qed.

Lemma strip_by_starts_clean (s : string) : starts_clean ws (Str.strip_by ws s).
Proof. apply rstrip_by_starts_clean, lstrip_by_starts_clean. Qed.

(** Stripping twice is stripping once. *)
Lemma strip_by_idemp (s : string) :
  Str.strip_by ws (Str.strip_by ws s) = Str.strip_by ws s.
Proof.
  unfold Str.strip_by at 1.
  rewrite lstrip_by_clean by apply strip_by_starts_clean.
  apply rstrip_by_idemp.
Qed.

(** The strings that strip to nothing are those of white space only. *)
Lemma strip_by_empty (s : string) : Str.strip_by ws s = "" ↔ Str.all ws s = true.
Proof.
  unfold Str.strip_by. rewrite rstrip_by_empty. split.
  - intros Hall. apply lstrip_by_empty.
    pose proof (lstrip_by_starts_clean s) as Hclean.
    destruct (Str.lstrip_by ws s) as [|c r]; [done|].
    simpl in Hall, Hclean. by rewrite Hclean in Hall.
  - intros Hall. apply lstrip_by_empty in Hall. by rewrite Hall.
Qed.

End Strip.

Lemma strip_idemp (s : string) : Str.strip (Str.strip s) = Str.strip s.
Proof. apply strip_by_idemp. Qed.

Lemma strip_empty (s : string) : Str.strip s = "" ↔ Str.all Str.isspace s = true.
Proof. apply strip_by_empty. Qed.

Lemma contains_truthy (needle s : string) :
  Str.truthy needle = true → Str.contains needle s = true → Str.truthy s = true.
Proof. destruct needle, s; simpl; done. Qed.

(** ** The date serial converter *)

Lemma float_of_str_Raise (s : string) (e : exn) :
  Num.float_of_str s = Raise e → ∃ why, e = ValueError why.
Proof.
  unfold Num.float_of_str. intros H.
  destruct (Num.strip_underscores _ s); [|inversion H; eauto].
  destruct (Num.parse_decimal _); [done|].
  destruct (Num.parse_inf_or_nan _); [done|inversion H; eauto].
Qed.

Lemma int_of_float_integer_part (s : bool) (m : positive) (e : Z) :
  ∃ n, Num.int_of_float (S754_finite s m e) = OK n ∧ integer_part s m e n.
Proof.
  eexists; split; [reflexivity|]. unfold integer_part.
  assert (0 ≤ Z.shiftl (Z.pos m) e) as Hnn by (apply Z.shiftl_nonneg; lia).
  split; [destruct s; simpl; lia|].
  replace (Z.abs (cond_Zopp s (Z.shiftl (Z.pos m) e))) with (Z.shiftl (Z.pos m) e)
    by (destruct s; simpl; lia).
  destruct (Z.le_gt_cases 0 e) as [He|He].
  - rewrite Z.shiftl_mul_pow2 by done.
    rewrite Z.max_r, Z.max_l by lia. simpl. lia.
  - rewrite Z.shiftl_div_pow2 by lia.
    rewrite Z.max_l, Z.max_r by lia. rewrite Z.pow_0_r.
    assert (0 < 2 ^ (- e)) as Hpos by (apply Z.pow_pos_nonneg; lia).
    pose proof (Z.mul_div_le (Z.pos m) (2 ^ (- e)) Hpos).
    pose proof (Z.mul_succ_div_gt (Z.pos m) (2 ^ (- e)) Hpos).
    lia.
Qed.

Lemma int_of_float_finite (x : spec_float) :
  finite x = true → ∃ n, Num.int_of_float x = OK n ∧ truncation x n.
Proof.
  destruct x as [s|s| |s m e]; try done; intros _.
  - by exists 0.
  - apply int_of_float_integer_part.
Qed.

Section Converter.

Variable value : string.

Lemma excel_serial_to_iso_blank :
  Str.all Str.isspace value = true → excel_serial_to_iso (Some value) = OK None.
Proof.
  intros Hall%strip_empty. unfold excel_serial_to_iso. by rewrite Hall.
Qed.

Hypothesis not_blank : Str.strip value ≠ "".

Lemma excel_serial_to_iso_not_a_number (e : exn) :
  Num.float_of_str (Str.strip value) = Raise e →
  excel_serial_to_iso (Some value) = OK None.
Proof using not_blank.
  intros Hf. unfold excel_serial_to_iso.
  apply truthy_true in not_blank as ->. simpl.
  destruct (float_of_str_Raise _ _ Hf) as [why ->]. by rewrite Hf.
Qed.

Lemma excel_serial_to_iso_number (serial : spec_float) (days : Z) :
  Num.float_of_str (Str.strip value) = OK serial →
  Num.int_of_float serial = OK days →
  excel_serial_to_iso (Some value) = OK (date_after_base days).
Proof using not_blank.
  intros Hf Hi. unfold excel_serial_to_iso, date_after_base.
  apply truthy_true in not_blank as ->. simpl.
  rewrite Hf, Hi. simpl. unfold Date.timedelta.
  destruct ((-999999999 <=? days) && (days <=? 999999999)); simpl; [|done].
  unfold Date.add.
  by destruct (0 <? Date.toordinal BASE_DATE + days),
              (Date.toordinal BASE_DATE + days <=? Date._MAXORDINAL).
Qed.

Lemma excel_serial_to_iso_not_finite (serial : spec_float) (e : exn) :
  Num.float_of_str (Str.strip value) = OK serial →
  Num.int_of_float serial = Raise e →
  excel_serial_to_iso (Some value) = Raise e.
Proof using not_blank.
  intros Hf Hi. unfold excel_serial_to_iso.
  apply truthy_true in not_blank as ->. simpl.
  by rewrite Hf, Hi.
Qed.

End Converter.

(** ** The record extractor *)

Lemma FIELD_MAP_truthy (column field : string) :
  FIELD_MAP !! column = Some field → Str.truthy field = true.
Proof.
  revert column field.
  change (map_Forall (λ _ field, Str.truthy field = true) FIELD_MAP).
  apply (bool_decide_unpack _). by vm_compute.
Qed.

Section Record_extractor.

Variable shared_strings : list string.

(** The cases of [log_cell] that leave the state as it is. *)
Local Ltac unchanged :=
  match goal with
  | H : OK _ = OK _ |- _ =>
      injection H as <- <-;
      split; [auto | intros [?|(? & ? & ? & ? & ? & ? & ?)]; [done | simplify_eq]]
  end.

Lemma log_cell_has_text record has_text cell record' has_text' :
  log_cell shared_strings (record, has_text) cell = OK (record', has_text') →
  has_text' = true ↔ has_text = true ∨ cell_counts shared_strings cell.
Proof.
  unfold log_cell, cell_counts. intros H.
  destruct (match_column _) as [column|] eqn:Hcol; [|by unchanged].
  destruct (FIELD_MAP !! column) as [field|] eqn:Hfield; [|by unchanged].
  rewrite (FIELD_MAP_truthy _ _ Hfield) in H. cbn [negb] in H.
  destruct (_cell_value shared_strings cell) as [[value|]|e] eqn:Hvalue;
    cbn [mbind result_bind] in H; [| by unchanged | done].
  destruct (Str.truthy (Str.strip value)) eqn:Htext; cbn [negb] in H.
  - assert (has_text' = true) as ->.
    { destruct (bool_decide _); [|by simplify_eq].
      destruct (excel_serial_to_iso _) as [[iso|]|];
        cbn [mbind result_bind] in H; by simplify_eq. }
    apply truthy_true in Htext. split; [|done]. intros _. right. eauto 10.
  - apply truthy_false in Htext. by unchanged.
Qed.

Lemma log_cells_has_text cells record has_text record' has_text' :
  for_in cells (log_cell shared_strings) (record, has_text) = OK (record', has_text') →
  has_text' = true ↔
  has_text = true ∨ ∃ cell, cell ∈ cells ∧ cell_counts shared_strings cell.
Proof.
  revert record has_text.
  induction cells as [|cell cells IH]; intros record has_text Hrun; cbn [for_in] in Hrun.
  - simplify_eq. split; [auto|]. intros [?|(? & []%elem_of_nil & _)]. done.
  - apply bind_OK_inv in Hrun as ([record1 has_text1] & Hcell & Hrun).
    rewrite (IH _ _ Hrun), (log_cell_has_text _ _ _ _ _ Hcell).
    split.
    + intros [[?|?]|(c & ? & ?)]; [by left | right; exists cell | right; exists c];
        by rewrite elem_of_cons; auto.
    + intros [?|(c & [->|?]%elem_of_cons & ?)]; [by left; left | by left; right |].
      right. by exists c.
Qed.

(** A row below the threshold: no cell of it is looked at. *)
Lemma log_row_header records row row_index :
  Num.int_of_str (ET.get row "r" "0") = OK row_index →
  row_index < 7 →
  log_row shared_strings records row = OK records.
Proof.
  intros Hr Hlt. unfold log_row. rewrite Hr. cbn [mbind result_bind].
  by destruct (Z.ltb_spec row_index 7); [|lia].
Qed.

(** A row at or above the threshold, when its cells raise nothing:
    [out] is what the row adds to the records. *)
Lemma log_row_body records row row_index records' :
  Num.int_of_str (ET.get row "r" "0") = OK row_index →
  7 ≤ row_index →
  log_row shared_strings records row = OK records' →
  ∃ out : option (gmap string string),
    records' = records ++ option_list out ∧
    (is_Some out ↔ row_has_text shared_strings row).
Proof.
  intros Hr Hge. unfold log_row. rewrite Hr. cbn [mbind result_bind].
  destruct (Z.ltb_spec row_index 7); [lia|].
  intros ([record has_text] & Hcells & Hout)%bind_OK_inv.
  apply log_cells_has_text in Hcells. fold (row_has_text shared_strings row) in Hcells.
  simplify_eq. destruct has_text.
  - exists (Some record). split; [done|]. split; [|by eauto].
    intros _. by destruct Hcells as [[?|?] _].
  - exists None. split; [by rewrite app_nil_r|]. split; [by intros [? ?]|].
    intros Hyes. destruct Hcells as [_ Hcells]. by discriminate Hcells; right.
Qed.

Lemma log_row_index records row records' :
  log_row shared_strings records row = OK records' →
  ∃ row_index, Num.int_of_str (ET.get row "r" "0") = OK row_index.
Proof. unfold log_row. intros (row_index & Hr & _)%bind_OK_inv. eauto. Qed.

(** What each row adds to the records, when the whole sheet is read
    without an exception. *)
Lemma log_rows_output rows records recs :
  for_in rows (log_row shared_strings) records = OK recs →
  ∃ outs : list (option (gmap string string)),
    recs = records ++ omap id outs ∧
    Forall2 (λ row out,
               ∃ row_index,
                 Num.int_of_str (ET.get row "r" "0") = OK row_index ∧
                 (is_Some out ↔ 7 ≤ row_index ∧ row_has_text shared_strings row))
            rows outs.
Proof.
  revert records. induction rows as [|row rows IH]; intros records Hrun; cbn [for_in] in Hrun.
  - exists []. simplify_eq. split; [by rewrite app_nil_r | constructor].
  - apply bind_OK_inv in Hrun as (records1 & Hrow & Hrun).
    destruct (IH _ Hrun) as (outs & -> & Houts).
    destruct (log_row_index _ _ _ Hrow) as [row_index Hr].
    destruct (Z.lt_ge_cases row_index 7) as [Hlt|Hge].
    + rewrite (log_row_header _ _ _ Hr Hlt) in Hrow. simplify_eq.
      exists (None :: outs). split; [done|]. constructor; [|done].
      exists row_index. split; [done|]. split; [by intros [? ?] | lia].
    + destruct (log_row_body _ _ _ _ Hr Hge Hrow) as (out & -> & Hout).
      exists (out :: outs). split.
      * rewrite <- app_assoc. by destruct out.
      * constructor; [|done]. exists row_index. rewrite Hout. tauto.
Qed.

(** An extraction that returns has decoded every cell of a mapped
    column in the rows at or above the threshold. *)
Lemma log_cell_decodes st cell st' column field :
  log_cell shared_strings st cell = OK st' →
  match_column (ET.get cell "r" "") = Some column →
  FIELD_MAP !! column = Some field →
  is_OK (_cell_value shared_strings cell).
Proof.
  unfold log_cell. destruct st as [record has_text]. intros H Hcol Hfield.
  rewrite Hcol, Hfield, (FIELD_MAP_truthy _ _ Hfield) in H. cbn [negb] in H.
  destruct (_cell_value shared_strings cell); [apply is_OK_OK | done].
Qed.

Lemma log_rows_decode rows records recs row row_index cell column field :
  for_in rows (log_row shared_strings) records = OK recs →
  row ∈ rows →
  Num.int_of_str (ET.get row "r" "0") = OK row_index →
  7 ≤ row_index →
  cell ∈ ET.findall [main "c"] row →
  match_column (ET.get cell "r" "") = Some column →
  FIELD_MAP !! column = Some field →
  is_OK (_cell_value shared_strings cell).
Proof.
  intros Hrun Hrow Hr Hge Hcell Hcol Hfield.
  destruct (for_in_each_OK _ _ _ _ Hrun row Hrow) as (records1 & records2 & Hbody).
  unfold log_row in Hbody. rewrite Hr in Hbody. cbn [mbind result_bind] in Hbody.
  destruct (Z.ltb_spec row_index 7); [lia|].
  apply bind_OK_inv in Hbody as (st & Hcells & _).
  destruct (for_in_each_OK _ _ _ _ Hcells cell Hcell) as (st1 & st2 & Hbody).
  by eapply log_cell_decodes.
Qed.

End Record_extractor.

(** ** The sheet locator *)

Lemma lower_truthy (s : string) : Str.truthy (Str.lower s) = Str.truthy s.
Proof. by destruct s. Qed.

Section Locator.

Variable zf : gmap string part.
Variable shared_strings : list string.

Variable needle : string.
Hypothesis needle_truthy : Str.truthy needle = true.

Lemma any_cell_contains_spec (cells : list ET.element) :
  (∀ cell, cell ∈ cells → is_OK (_cell_value shared_strings cell)) →
  ∃ b : bool,
    any_cell_contains shared_strings needle cells = OK b ∧
    (b = true ↔
     ∃ cell value,
       cell ∈ cells ∧ _cell_value shared_strings cell = OK (Some value) ∧
       Str.contains (Str.lower needle) (Str.lower value) = true).
Proof using needle_truthy.
  induction cells as [|cell cells IH]; intros Hdec; cbn [any_cell_contains].
  - exists false. split; [done|]. split; [done|].
    by intros (? & ? & []%elem_of_nil & _).
  - destruct (Hdec cell) as [value Hvalue]; [by left|].
    destruct IH as (b & Hrest & Hb); [by intros; apply Hdec; right|].
    rewrite Hvalue. cbn [mbind result_bind].
    assert ((∀ v, _cell_value shared_strings cell = OK (Some v) →
                  Str.contains (Str.lower needle) (Str.lower v) = false) →
            b = true ↔
            ∃ c v, c ∈ cell :: cells ∧ _cell_value shared_strings c = OK (Some v) ∧
                   Str.contains (Str.lower needle) (Str.lower v) = true)
      as Hskip.
    { intros Hno. rewrite Hb. split.
      - intros (c & v & ? & ? & ?). exists c, v. by rewrite elem_of_cons; auto.
      - intros (c & v & [->|?]%elem_of_cons & Hc & Hv); [|by eauto].
        rewrite (Hno _ Hc) in Hv. discriminate. }
    rewrite Hvalue in Hskip.
    destruct value as [value|].
    + destruct (Str.contains (Str.lower needle) (Str.lower value)) eqn:Hin.
      * assert (Str.truthy value = true) as ->.
        { rewrite <- lower_truthy. eapply contains_truthy; [|exact Hin].
          by rewrite lower_truthy. }
        exists true. split; [done|]. split; [|done]. intros _.
        exists cell, value. by rewrite elem_of_cons; auto.
      * rewrite andb_false_r. exists b. split; [done|]. apply Hskip.
        intros v ?. by simplify_eq.
    + exists b. split; [done|]. apply Hskip. intros v ?. by simplify_eq.
Qed.

Lemma sheet_contains_text_spec (path : string) :
  sheet_decodes zf shared_strings path →
  ∃ b : bool,
    _sheet_contains_text zf shared_strings path needle = OK b ∧
    (b = true ↔ sheet_has_text zf shared_strings path needle).
Proof using needle_truthy.
  intros (root & Hroot & Hdec). unfold _sheet_contains_text, sheet_has_text.
  rewrite Hroot. cbn [mbind result_bind]. fold (cells_of root).
  destruct (any_cell_contains_spec _ Hdec) as (b & -> & Hb).
  exists b. split; [done|]. rewrite Hb. split.
  - intros (cell & value & ? & ? & ?). by exists root, cell, value.
  - intros (root' & cell & value & ? & ? & ? & ?). simplify_eq. by exists cell, value.
Qed.

(** The probe returns the first sheet that has the text, when every
    sheet decodes. *)
Lemma probe_sheets_spec (paths : list string) :
  (∀ path, path ∈ paths → sheet_decodes zf shared_strings path) →
  (∃ (i : nat) path,
     paths !! i = Some path ∧ sheet_has_text zf shared_strings path needle ∧
     (∀ (j : nat) path', (j < i)%nat → paths !! j = Some path' →
                         ¬ sheet_has_text zf shared_strings path' needle) ∧
     probe_sheets zf shared_strings needle paths = OK (Some path))
  ∨ ((∀ path, path ∈ paths → ¬ sheet_has_text zf shared_strings path needle) ∧
     probe_sheets zf shared_strings needle paths = OK None).
Proof using needle_truthy.
  induction paths as [|path paths IH]; intros Hdec; cbn [probe_sheets].
  - right. split; [|done]. by intros ? []%elem_of_nil.
  - destruct (sheet_contains_text_spec path) as (b & -> & Hb); [by apply Hdec; left|].
    cbn [mbind result_bind]. destruct b.
    + left. exists 0%nat, path. split; [done|]. split; [by apply Hb|].
      split; [intros; lia | done].
    + assert (¬ sheet_has_text zf shared_strings path needle) as Hno by (rewrite <- Hb; done).
      destruct IH as [(i & p & Hi & Hp & Hfirst & ->)|[Hnone ->]];
        [by intros; apply Hdec; right | left | right].
      * exists (S i), p. split; [done|]. split; [done|]. split; [|done].
        intros [|j] path' Hj Hpath'; simpl in Hpath'; [by simplify_eq|].
        apply (Hfirst j); [lia | done].
      * split; [|done]. intros p [->|?]%elem_of_cons; [done | by apply Hnone].
Qed.

End Locator.

(** ** The dropdown extractor *)

Section Dropdown_extractor.

Variable shared_strings : list string.

Lemma dropdown_cell_decodes d cell d' column row_no :
  dropdown_cell shared_strings d cell = OK d' →
  match_column_row (ET.get cell "r" "") = Some (column, row_no) →
  row_no ≠ "1" →
  is_OK (_cell_value shared_strings cell).
Proof.
  unfold dropdown_cell. intros H Hmatch Hrow. rewrite Hmatch in H.
  rewrite bool_decide_eq_false_2 in H by done.
  destruct (_cell_value shared_strings cell); [apply is_OK_OK | done].
Qed.

(** Cells outside the columns A, C and E leave the lists as they are. *)
Lemma dropdown_cell_other_column d cell column row_no :
  match_column_row (ET.get cell "r" "") = Some (column, row_no) →
  column ≠ "A" → column ≠ "C" → column ≠ "E" →
  is_OK (_cell_value shared_strings cell) →
  dropdown_cell shared_strings d cell = OK d.
Proof.
  unfold dropdown_cell. intros -> HA HC HE [value ->].
  destruct (bool_decide (row_no = "1")); [done|]. cbn [mbind result_bind].
  destruct value as [value|]; [|done].
  destruct (negb (Str.truthy value)); [done|].
  by rewrite !bool_decide_eq_false_2.
Qed.

Lemma append_to_stripped key value d :
  all_stripped d → all_stripped (append_to key (Str.strip value) d).
Proof.
  intros Hd key' values v. unfold append_to.
  destruct (decide (key = key')) as [<-|Hne].
  - rewrite lookup_insert_eq. intros [= <-] [Hv|Hv%list_elem_of_singleton]%elem_of_app.
    + destruct (d !! key) as [l|] eqn:Hl; simpl in Hv; [by eapply Hd|].
      by apply elem_of_nil in Hv.
    + subst v. apply strip_idemp.
  - rewrite lookup_insert_ne by done. apply Hd.
Qed.

Lemma dropdown_cell_stripped d cell d' :
  dropdown_cell shared_strings d cell = OK d' → all_stripped d → all_stripped d'.
Proof.
  unfold dropdown_cell. intros H Hd.
  destruct (match_column_row _) as [[column row_no]|]; [|by simplify_eq].
  destruct (bool_decide (row_no = "1")); [by simplify_eq|].
  destruct (_cell_value shared_strings cell) as [[value|]|];
    cbn [mbind result_bind] in H; [|by simplify_eq|done].
  destruct (negb (Str.truthy value)); [by simplify_eq|].
  repeat (destruct (bool_decide _); [simplify_eq; by apply append_to_stripped|]).
  by simplify_eq.
Qed.

Lemma unique_from_subseteq seen values value :
  value ∈ unique_from seen values → value ∈ values.
Proof.
  revert seen. induction values as [|item rest IH]; intros seen; cbn [unique_from]; [done|].
  destruct (bool_decide (item ∈ seen)).
  - intros ?%IH. by right.
  - intros [->|?%IH]%elem_of_cons; [by left | by right].
Qed.

Lemma scan_dropdowns_stripped sheet d :
  scan_dropdowns shared_strings sheet = OK d → all_stripped d.
Proof.
  unfold scan_dropdowns. apply for_in_invariant.
  - intros d1 cell d2 _ Hd1 Hcell. by eapply dropdown_cell_stripped.
  - intros key values value. unfold empty_dropdowns.
    rewrite !lookup_insert. repeat case_decide; rewrite ?lookup_empty; intros [= <-];
      by intros ?%elem_of_nil.
Qed.

End Dropdown_extractor.

(** ** The log sheet *)

Section Log_sheet.

Variable zf : gmap string part.
Variable shared_strings : list string.
Variable sheet_targets : odict string.

(** No sheet name starts with the prefix of the log sheet. *)
Hypothesis no_name_matches :
  ∀ name path, (name, path) ∈ sheet_targets →
               Str.startswith "nc log" (Str.lower name) = false.

(** Every sheet of the mapping is a part of the archive that parses and
    whose cells decode. *)
Hypothesis sheets_decode :
  ∀ name path, (name, path) ∈ sheet_targets → sheet_decodes zf shared_strings path.

Lemma find_log_sheet_probes :
  _find_log_sheet zf shared_strings sheet_targets
  = probe_sheets zf shared_strings "Tag Number" (sheet_targets.*2).
Proof using no_name_matches.
  unfold _find_log_sheet.
  destruct (list_find _ sheet_targets) as [[i [name path]]|] eqn:Hfind; [|done].
  apply list_find_Some in Hfind as (Hi%list_elem_of_lookup_2 & Hname & _).
  cbn [fst] in Hname. by rewrite (no_name_matches _ _ Hi) in Hname.
Qed.

Lemma paths_decode path :
  path ∈ sheet_targets.*2 → sheet_decodes zf shared_strings path.
Proof using sheets_decode.
  intros ([name path'] & -> & Hitem)%list_elem_of_fmap. by eapply sheets_decode.
Qed.

Lemma find_log_sheet_found :
  (∃ name path, (name, path) ∈ sheet_targets ∧
                sheet_has_text zf shared_strings path "Tag Number") →
  ∃ (i : nat) name path,
    sheet_targets !! i = Some (name, path) ∧
    sheet_has_text zf shared_strings path "Tag Number" ∧
    (∀ (j : nat) name' path',
       (j < i)%nat → sheet_targets !! j = Some (name', path') →
       ¬ sheet_has_text zf shared_strings path' "Tag Number") ∧
    _find_log_sheet zf shared_strings sheet_targets = OK (Some path).
Proof using no_name_matches sheets_decode.
  intros (name & path & Hitem & Htext). rewrite find_log_sheet_probes.
  destruct (probe_sheets_spec zf shared_strings "Tag Number" eq_refl (sheet_targets.*2))
    as [(i & p & Hi & Hp & Hfirst & ->)|[Hnone _]]; [exact paths_decode | |].
  - apply list_lookup_fmap_Some in Hi as ([name' p'] & -> & Hi).
    exists i, name', p'. split; [done|]. split; [done|]. split; [|done].
    intros j name'' path'' Hj Hlookup. apply (Hfirst j); [done|].
    apply list_lookup_fmap_Some. by exists (name'', path'').
  - destruct (Hnone path); [|done].
    apply list_elem_of_fmap. by exists (name, path).
Qed.

Lemma find_log_sheet_not_found :
  (∀ name path, (name, path) ∈ sheet_targets →
                ¬ sheet_has_text zf shared_strings path "Tag Number") →
  _find_log_sheet zf shared_strings sheet_targets = OK None.
Proof using no_name_matches sheets_decode.
  intros Hnone. rewrite find_log_sheet_probes.
  destruct (probe_sheets_spec zf shared_strings "Tag Number" eq_refl (sheet_targets.*2))
    as [(i & p & Hi & Hp & _)|[_ ->]]; [exact paths_decode | | done].
  apply list_lookup_fmap_Some in Hi as ([name' p'] & -> & Hi%list_elem_of_lookup_2).
  by destruct (Hnone _ _ Hi).
Qed.

End Log_sheet.

Lemma decodes_check_sound zf shared_strings path :
  decodes_check zf shared_strings path = true → sheet_decodes zf shared_strings path.
Proof.
  unfold decodes_check, sheet_decodes.
  destruct (read_xml zf path) as [root|]; [|done].
  intros Hall. exists root. split; [done|]. intros cell Hcell.
  rewrite forallb_forall in Hall. apply list_elem_of_In, Hall in Hcell.
  destruct (_cell_value shared_strings cell); [apply is_OK_OK | done].
Qed.

Lemma sheet_has_text_check zf shared_strings path needle (b : bool) :
  Str.truthy needle = true →
  decodes_check zf shared_strings path = true →
  _sheet_contains_text zf shared_strings path needle = OK b →
  b = true ↔ sheet_has_text zf shared_strings path needle.
Proof.
  intros Hneedle Hdec%decodes_check_sound Hprobe.
  destruct (sheet_contains_text_spec zf shared_strings needle Hneedle path Hdec)
    as (b' & Hb' & Hiff).
  by same_result.
Qed.

(** ** The load as a whole *)

Lemma found_Some (path : option string) (p : string) : found path = Some p → path = Some p.
Proof. destruct path as [q|]; simpl; [|done]. by destruct (Str.truthy q); intros [= ->]. Qed.

(** A load that returns went through every stage. *)
Lemma load_OK_inv (zf : gmap string part) (data : ExcelData) :
  load zf = OK data →
  ∃ shared_strings sheet_targets log_sheet_path dropdown_sheet_path,
    _read_shared_strings zf = OK shared_strings ∧
    _sheet_targets zf = OK sheet_targets ∧
    _find_log_sheet zf shared_strings sheet_targets = OK (Some log_sheet_path) ∧
    _find_dropdown_sheet zf shared_strings sheet_targets = OK (Some dropdown_sheet_path) ∧
    _read_log_records zf shared_strings log_sheet_path = OK (records data) ∧
    _read_dropdowns zf shared_strings dropdown_sheet_path = OK (dropdowns data).
Proof.
  unfold load.
  intros (ss & Hss & H)%bind_OK_inv.
  apply bind_OK_inv in H as (targets & Htargets & H).
  apply bind_OK_inv in H as (log & Hlog & H).
  destruct (found log) as [log_path|] eqn:Hlog_path; [|done].
  apply found_Some in Hlog_path as ->.
  apply bind_OK_inv in H as (dd & Hdd & H).
  destruct (found dd) as [dd_path|] eqn:Hdd_path; [|done].
  apply found_Some in Hdd_path as ->.
  apply bind_OK_inv in H as (recs & Hrecs & H).
  apply bind_OK_inv in H as (drops & Hdrops & H).
  simplify_eq. by exists ss, targets, log_path, dd_path.
Qed.

(** * The claims of the specification *)

(** ** C1: the date serial converter and exceptions *)

(** When the converter raises, it is [int(serial)] that does, on an
    infinity or a NaN: that call stands outside both [try] blocks. *)
Lemma converter_raises_iff (value : string) (e : exn) :
  excel_serial_to_iso (Some value) = Raise e ↔
  Str.strip value ≠ "" ∧
  ∃ serial, Num.float_of_str (Str.strip value) = OK serial ∧
            Num.int_of_float serial = Raise e.
Proof.
  destruct (Str.strip value) as [|c r] eqn:Hstrip.
  - rewrite excel_serial_to_iso_blank by (by apply strip_empty). split; [done|].
    by intros [[] _].
  - assert (Str.strip value ≠ "") as Hne by (by rewrite Hstrip).
    rewrite <- Hstrip.
    destruct (Num.float_of_str (Str.strip value)) as [serial|e'] eqn:Hf.
    + destruct (Num.int_of_float serial) as [days|e'] eqn:Hi.
      * rewrite (excel_serial_to_iso_number _ Hne _ _ Hf Hi). split; [done|].
        intros (_ & serial' & ? & ?). congruence.
      * rewrite (excel_serial_to_iso_not_finite _ Hne _ _ Hf Hi). split.
        -- intros [= ->]. eauto.
        -- intros (_ & serial' & ? & ?). congruence.
    + rewrite (excel_serial_to_iso_not_a_number _ Hne _ Hf). split; [done|].
      intros (_ & serial' & ? & _). congruence.
Qed.

(** C1 (the code departs from the claim): the claim has the converter
    return "not convertible" for every text that is not a date;
    [excel_serial_to_iso] instead raises on the texts that [float] reads as
    an infinity or a NaN.  ["1e999"] is a number whose date is out of
    range: it overflows to infinity and [int] raises [OverflowError];
    ["inf"] does the same, and ["nan"] raises [ValueError]. *)
Theorem excel_serial_to_iso_raises :
  excel_serial_to_iso (Some "1e999") = Raise OverflowError ∧
  excel_serial_to_iso (Some "inf") = Raise OverflowError ∧
  excel_serial_to_iso (Some "nan") = Raise (ValueError NanToInteger).
Proof. by vm_compute. Qed.

(** Such a text in a date column aborts the load. *)
Lemma load_aborts_on_nan_date :
  load Example.package_nan_date = Raise (ValueError NanToInteger).
Proof. by vm_compute. Qed.

(** ** C2: shared-string indices beyond the table *)

(** C2, counterexample: in the package without a shared-strings part the
    table is empty, the cell A7 is typed as a shared string and stores the
    index 0, which is not below the length 0 of the table; the cell
    resolves to its raw text and the load returns. *)
Lemma empty_table_index_not_checked :
  _read_shared_strings Example.package = OK [] ∧
  ET.attrib (Example.cell "A7" (Some "s") "0") !! "t" = Some "s" ∧
  Num.int_of_str "0" = OK 0 ∧
  Z.of_nat (length ([] : list string)) ≤ 0 ∧
  _cell_value [] (Example.cell "A7" (Some "s") "0") = OK (Some "0") ∧
  (load Example.package ≫= λ data, OK (map map_to_list (records data))) =
    OK [[("containment_date", "2023-03-15"); ("mfg_date", "n/a"); ("tag_number", "0")];
        [("date_authorized", "1899-12-31")]].
Proof. by vm_compute. Qed.

(** C2 (amended): take a shared-string cell whose stored index is at
    least the length of the table.  With a table that is not empty,
    [_cell_value] raises [IndexError]; nothing handles it, so neither
    extraction pass returns when it decodes such a cell (a mapped column of
    a row at or above the threshold in the log sheet, or an addressed cell
    outside row "1" in the dropdown sheet), and the load does not return
    either.  With the empty table no lookup is made and the cell resolves
    to its raw text. *)
Theorem shared_string_index_out_of_range
    (shared_strings : list string) (cell v : ET.element) (index : Z) :
  ET.find (main "v") cell = Some v →
  ET.attrib cell !! "t" = Some "s" →
  Num.int_of_str (ET.text_or_empty v) = OK index →
  Z.of_nat (length shared_strings) ≤ index →
  (shared_strings = [] →
   _cell_value shared_strings cell = OK (Some (ET.text_or_empty v))) ∧
  (shared_strings ≠ [] →
   _cell_value shared_strings cell = Raise IndexError ∧
   (∀ zf sheet_targets log_sheet_path sheet row row_index column field,
      _read_shared_strings zf = OK shared_strings →
      _sheet_targets zf = OK sheet_targets →
      _find_log_sheet zf shared_strings sheet_targets = OK (Some log_sheet_path) →
      read_xml zf log_sheet_path = OK sheet →
      row ∈ ET.findall [main "sheetData"; main "row"] sheet →
      Num.int_of_str (ET.get row "r" "0") = OK row_index →
      7 ≤ row_index →
      cell ∈ ET.findall [main "c"] row →
      match_column (ET.get cell "r" "") = Some column →
      FIELD_MAP !! column = Some field →
      ¬ is_OK (_read_log_records zf shared_strings log_sheet_path) ∧ ¬ is_OK (load zf)) ∧
   (∀ zf sheet_targets dropdown_sheet_path sheet column row_no,
      _read_shared_strings zf = OK shared_strings →
      _sheet_targets zf = OK sheet_targets →
      _find_dropdown_sheet zf shared_strings sheet_targets = OK (Some dropdown_sheet_path) →
      read_xml zf dropdown_sheet_path = OK sheet →
      cell ∈ cells_of sheet →
      match_column_row (ET.get cell "r" "") = Some (column, row_no) →
      row_no ≠ "1" →
      ¬ is_OK (_read_dropdowns zf shared_strings dropdown_sheet_path) ∧ ¬ is_OK (load zf))).
Proof.
  intros Hv Ht Hindex Hbeyond. split.
  { intros ->. unfold _cell_value. rewrite Hv, Ht. by rewrite bool_decide_eq_true_2. }
  intros Hne.
  assert (_cell_value shared_strings cell = Raise IndexError) as Hraise.
  { rewrite (cell_value_shared _ _ _ Hv _ Hne Ht Hindex).
    by rewrite list_getitem_beyond. }
  assert (¬ is_OK (_cell_value shared_strings cell)) as Hnot
    by (rewrite Hraise; apply not_is_OK_Raise).
  split; [done|]. split.
  - intros zf targets path sheet row row_index column field
      Hss Htargets Hlog Hsheet Hrow Hr Hge Hcell Hcol Hfield.
    assert (¬ is_OK (_read_log_records zf shared_strings path)) as Hrecords.
    { intros [recs Hrecs]. unfold _read_log_records in Hrecs.
      rewrite Hsheet in Hrecs. cbn [mbind result_bind] in Hrecs.
      apply Hnot. by eapply log_rows_decode. }
    split; [done|]. intros [data Hload].
    apply load_OK_inv in Hload as (ss' & targets' & log' & dd' & ? & ? & ? & ? & Hrecs & _).
    same_result. apply Hrecords. by eexists.
  - intros zf targets path sheet column row_no
      Hss Htargets Hdd Hsheet Hcell Hmatch Hrow.
    assert (¬ is_OK (_read_dropdowns zf shared_strings path)) as Hdropdowns.
    { intros [d Hd]. unfold _read_dropdowns in Hd.
      rewrite Hsheet in Hd. cbn [mbind result_bind] in Hd.
      apply bind_OK_inv in Hd as (d0 & Hscan & _).
      destruct (for_in_each_OK _ _ _ _ Hscan cell Hcell) as (d1 & d2 & Hbody).
      apply Hnot. by eapply dropdown_cell_decodes. }
    split; [done|]. intros [data Hload].
    apply load_OK_inv in Hload as (ss' & targets' & log' & dd' & ? & ? & ? & ? & _ & Hd).
    same_result. apply Hdropdowns. by eexists.
Qed.

Lemma shared_string_index_out_of_range_witness :
  _read_shared_strings Example.package_bad_index = OK ["TAG-001"; "TAG-002"] ∧
  _cell_value ["TAG-001"; "TAG-002"] (Example.cell "A7" (Some "s") "2") = Raise IndexError ∧
  ¬ is_OK (load Example.package_bad_index).
Proof.
  split; [vm_compute; reflexivity|].
  destruct (shared_string_index_out_of_range
              ["TAG-001"; "TAG-002"] (Example.cell "A7" (Some "s") "2")
              (ET.Element (main "v") ∅ (Some "2") []) 2)
    as (_ & Hfull);
    [vm_compute; reflexivity | vm_compute; reflexivity | vm_compute; reflexivity
    | simpl; lia |].
  destruct Hfull as (Hcell & Hlog & _); [done|].
  split; [exact Hcell|].
  eapply (Hlog Example.package_bad_index Example.targets
               "xl/worksheets/sheet1.xml" Example.bad_index_log_sheet
               Example.bad_index_row 7 "A" "tag_number");
    [vm_compute; reflexivity | vm_compute; reflexivity | vm_compute; reflexivity
    | vm_compute; reflexivity
    | | vm_compute; reflexivity | lia | | vm_compute; reflexivity | vm_compute; reflexivity].
  - apply list_elem_of_further, list_elem_of_here.
  - apply list_elem_of_here.
Defined.

(** ** C3: what the dropdown scan appends *)

(** C3 (the code departs from the claim): [_read_dropdowns] tests the
    decoded value for emptiness before it strips it, so a cell of white
    space only passes the test and the empty string is appended.  Here the
    cell A2 holds one space and the first list comes out as [""]. *)
Theorem read_dropdowns_appends_empty_string :
  _cell_value [] (Example.cell "A2" None " ") = OK (Some " ") ∧
  Str.all Str.isspace " " = true ∧
  (_read_dropdowns Example.package_blank_dropdown [] "xl/worksheets/sheet2.xml"
     ≫= λ d, OK (d !! "rejection_type")) = OK (Some [""]) ∧
  (load Example.package_blank_dropdown ≫= λ data, OK (map_to_list (dropdowns data))) =
    OK [("rejection_class", ["Minor"]); ("rejection_type", [""]); ("disposition", [])].
Proof. by vm_compute. Qed.

(** The other two parts of the claim hold: what the scan appends is
    stripped ([scan_dropdowns_stripped]), and the cells of other columns
    change nothing ([dropdown_cell_other_column]).  So do the lists that
    [_read_dropdowns] returns. *)
Lemma read_dropdowns_stripped zf shared_strings path d :
  _read_dropdowns zf shared_strings path = OK d → all_stripped d.
Proof.
  unfold _read_dropdowns. intros (sheet & _ & H)%bind_OK_inv.
  apply bind_OK_inv in H as (d0 & Hscan%scan_dropdowns_stripped & [= <-]).
  intros key values value. rewrite lookup_fmap.
  destruct (d0 !! key) as [l|] eqn:Hl; simpl; [|done].
  intros [= <-] Hvalue%unique_from_subseteq. by eapply Hscan.
Qed.

(** ** C4: the rows that contribute a record *)

(** C4: when [_read_log_records] returns, its output is made of what each
    row of the sheet contributed, in order: [outs] holds, row by row, the
    record of the row or nothing.  A row at or above the threshold
    contributes a record if and only if one of its cells has a mapped
    column and decodes to text that is not empty once stripped; a row whose
    mapped cells all decode to no value or to white space only contributes
    nothing. *)
Theorem rows_contribute_iff_text
    (zf : gmap string part) (shared_strings : list string) (path : string)
    (sheet : ET.element) (recs : list (gmap string string)) :
  read_xml zf path = OK sheet →
  _read_log_records zf shared_strings path = OK recs →
  ∃ outs : list (option (gmap string string)),
    recs = omap id outs ∧
    Forall2 (λ row out,
               ∀ row_index,
                 Num.int_of_str (ET.get row "r" "0") = OK row_index →
                 7 ≤ row_index →
                 (is_Some out ↔ row_has_text shared_strings row) ∧
                 ((∀ cell column field,
                     cell ∈ ET.findall [main "c"] row →
                     match_column (ET.get cell "r" "") = Some column →
                     FIELD_MAP !! column = Some field →
                     _cell_value shared_strings cell = OK None ∨
                     ∃ value, _cell_value shared_strings cell = OK (Some value) ∧
                              Str.all Str.isspace value = true) →
                  out = None))
            (ET.findall [main "sheetData"; main "row"] sheet) outs.
Proof.
  intros Hsheet Hrecs. unfold _read_log_records in Hrecs.
  rewrite Hsheet in Hrecs. cbn [mbind result_bind] in Hrecs.
  destruct (log_rows_output _ _ _ _ Hrecs) as (outs & -> & Houts).
  exists outs. split; [done|].
  eapply Forall2_impl; [exact Houts|]. cbv beta.
  intros row out (row_index & Hr & Hout) row_index' Hr' Hge.
  same_result. split; [rewrite Hout; tauto|].
  intros Hblank. destruct out as [record|]; [|done].
  destruct Hout as [Hout _].
  destruct Hout as (_ & cell & Hcell & column & field & value & Hcol & Hfield & Hvalue & Htext);
    [by eauto|].
  destruct (Hblank cell column field Hcell Hcol Hfield) as [Hnone|(value' & Hvalue' & Hall)];
    [congruence|].
  same_result. by apply strip_empty in Hall.
Qed.

Lemma rows_contribute_iff_text_witness :
  read_xml Example.package "xl/worksheets/sheet1.xml" = OK Example.log_sheet ∧
  _read_log_records Example.package [] "xl/worksheets/sheet1.xml" = OK Example.log_records ∧
  ∃ outs : list (option (gmap string string)),
    Example.log_records = omap id outs ∧ length outs = 4%nat.
Proof.
  assert (read_xml Example.package "xl/worksheets/sheet1.xml" = OK Example.log_sheet)
    as Hsheet by (vm_compute; reflexivity).
  assert (_read_log_records Example.package [] "xl/worksheets/sheet1.xml"
          = OK Example.log_records)
    as Hrecs by (vm_compute; reflexivity).
  destruct (rows_contribute_iff_text _ _ _ _ _ Hsheet Hrecs) as (outs & Houts & Hrows).
  split; [exact Hsheet|]. split; [exact Hrecs|].
  exists outs. split; [exact Houts|].
  rewrite <- (Forall2_length _ _ _ Hrows). vm_compute; reflexivity.
Defined.

(** ** C5: date serials and date text *)

(** What the code does as the claim says: the serial 0 converts to the
    anchor date, 1899-12-30, and the serial 1 to the day after it,
    1899-12-31; a serial that [float] reads as a finite number is cut to
    its integer part [days], towards zero, and the date is the one [days]
    after the anchor; and a cell of a date column whose stripped text
    [float] does not read is stored in the record as that stripped text. *)
Lemma date_serials_and_date_text :
  (excel_serial_to_iso (Some "0") = OK (Some (Date.isoformat BASE_DATE)) ∧
   Date.isoformat BASE_DATE = "1899-12-30") ∧
  (excel_serial_to_iso (Some "1") = OK (Some "1899-12-31") ∧
   Date._ymd2ord 1899 12 31 = Date.toordinal BASE_DATE + 1) ∧
  (∀ value serial,
     Num.float_of_str (Str.strip value) = OK serial →
     finite serial = true →
     ∃ days, Num.int_of_float serial = OK days ∧ truncation serial days ∧
             excel_serial_to_iso (Some value) = OK (date_after_base days)) ∧
  (∀ shared_strings record has_text cell column field value why,
     match_column (ET.get cell "r" "") = Some column →
     FIELD_MAP !! column = Some field →
     field ∈ DATE_FIELDS →
     _cell_value shared_strings cell = OK (Some value) →
     Str.strip value ≠ "" →
     Num.float_of_str (Str.strip value) = Raise why →
     log_cell shared_strings (record, has_text) cell
     = OK (<[field := Str.strip value]> record, true)).
Proof.
  split; [by vm_compute|]. split; [by vm_compute|]. split.
  - intros value serial Hf Hfinite.
    destruct (int_of_float_finite serial Hfinite) as (days & Hdays & Hpart).
    exists days. split; [done|]. split; [done|].
    eapply excel_serial_to_iso_number; [|exact Hf|exact Hdays].
    intros Hblank. rewrite Hblank in Hf. by vm_compute in Hf.
  - intros ss record has_text cell column field value why Hcol Hfield Hdate Hvalue Htext Hf.
    unfold log_cell. rewrite Hcol, Hfield, (FIELD_MAP_truthy _ _ Hfield), Hvalue.
    cbn [negb mbind result_bind].
    apply truthy_true in Htext as Htruthy. rewrite Htruthy. cbn [negb].
    rewrite bool_decide_eq_true_2 by done.
    rewrite (excel_serial_to_iso_not_a_number (Str.strip value)) with (e := why);
      [done | by rewrite strip_idemp | by rewrite strip_idemp].
Qed.

Lemma date_serials_and_date_text_witness :
  (Num.float_of_str "45000.75" = OK (S754_finite false 6184855985455104 (-37)) ∧
   ∃ days, Num.int_of_float (S754_finite false 6184855985455104 (-37)) = OK days ∧
           truncation (S754_finite false 6184855985455104 (-37)) days ∧
           excel_serial_to_iso (Some " 45000.75 ") = OK (date_after_base days)) ∧
  (Num.float_of_str "n/a" = Raise (ValueError (InvalidFloatLiteral "n/a")) ∧
   log_cell [] (∅, false) (Example.cell "Q7" None " n/a ") = OK (<["mfg_date" := "n/a"]> ∅, true)).
Proof.
  destruct date_serials_and_date_text as (_ & _ & Hnumber & Htext).
  split; (split; [vm_compute; reflexivity|]).
  - apply (Hnumber " 45000.75 " (S754_finite false 6184855985455104 (-37)));
      vm_compute; reflexivity.
  - apply (Htext [] ∅ false (Example.cell "Q7" None " n/a ") "Q" "mfg_date" " n/a "
                 (ValueError (InvalidFloatLiteral "n/a")));
      [vm_compute; reflexivity | vm_compute; reflexivity | by vm_compute
      | vm_compute; reflexivity | by vm_compute | vm_compute; reflexivity].
Defined.

(** C5 (the code departs from the claim): the claim has a date cell whose
    text is not a number stored as its stripped text.  [nan], [inf] and
    [Infinity] are not numbers, but [float] reads them, and [int(serial)],
    which stands outside both [try] blocks of the converter, then raises:
    the cell is not stored, and the extraction and the load are aborted.
    This is the defect of C1, met from the record extractor. *)
Theorem date_text_nan_not_stored :
  log_cell [] (∅, false) (Example.cell "Q7" None " NaN ")
  = Raise (ValueError NanToInteger) ∧
  log_cell [] (∅, false) (Example.cell "M7" None "Infinity") = Raise OverflowError ∧
  _read_log_records Example.package_nan_date [] "xl/worksheets/sheet1.xml"
  = Raise (ValueError NanToInteger) ∧
  load Example.package_nan_date = Raise (ValueError NanToInteger).
Proof. repeat split; vm_compute; reflexivity. Qed.

(** ** C6: the rows below the threshold *)

(** C6: a row whose index is below 7 is skipped whatever its cells hold:
    [log_row] returns the records as they were, without looking at a cell,
    and taking the row out of the rows of the sheet changes neither the
    records that the extraction returns nor the exception that it
    raises. *)
Theorem header_rows_skipped
    (shared_strings : list string) (row : ET.element) (row_index : Z) :
  Num.int_of_str (ET.get row "r" "0") = OK row_index →
  row_index < 7 →
  (∀ records, log_row shared_strings records row = OK records) ∧
  (∀ before after records,
     for_in (before ++ row :: after) (log_row shared_strings) records =
     for_in (before ++ after) (log_row shared_strings) records).
Proof.
  intros Hr Hlt.
  assert (∀ records, log_row shared_strings records row = OK records) as Hskip
    by (by intros; eapply log_row_header).
  split; [done|]. intros before after records.
  rewrite !for_in_app. destruct (for_in before _ records) as [records1|]; [|done].
  cbn [mbind result_bind for_in]. by rewrite Hskip.
Qed.

Lemma header_rows_skipped_witness :
  Num.int_of_str "1" = OK 1 ∧
  row_has_text [] (Example.row "1" [Example.cell "A1" None "Tag Number"]) ∧
  log_row [] [] (Example.row "1" [Example.cell "A1" None "Tag Number"]) = OK [].
Proof.
  split; [by vm_compute|]. split.
  - exists (Example.cell "A1" None "Tag Number"). split; [apply list_elem_of_here|].
    exists "A", "tag_number", "Tag Number". by vm_compute.
  - apply (header_rows_skipped [] (Example.row "1" [Example.cell "A1" None "Tag Number"]) 1);
      [by vm_compute | lia].
Defined.

(** ** C7: the content probe *)

(** The names and the parts of the example [targets]. *)
Lemma example_targets_inv (P : string → string → Prop) :
  P "Data" "xl/worksheets/sheet1.xml" →
  P "Sheet2" "xl/worksheets/sheet2.xml" →
  ∀ name path, (name, path) ∈ Example.targets → P name path.
Proof.
  intros H1 H2 name path Hin. unfold Example.targets in Hin.
  apply elem_of_cons in Hin as [[= -> ->]|Hin]; [done|].
  apply elem_of_cons in Hin as [[= -> ->]|Hin]; [done|].
  by apply elem_of_nil in Hin.
Qed.

(** C7: when no sheet name starts with the prefix of the log sheet, every
    sheet of the mapping parses and decodes, and some sheet has a cell
    whose decoded text includes "Tag Number" whatever the case of its
    letters, [_find_log_sheet] returns, by the content probe, the part of a
    sheet with such a cell: the first one in the order of the mapping, and
    so that very sheet when it is the only one. *)
Theorem find_log_sheet_by_content
    (zf : gmap string part) (shared_strings : list string) (sheet_targets : odict string) :
  (∀ name path, (name, path) ∈ sheet_targets →
                Str.startswith "nc log" (Str.lower name) = false) →
  (∀ name path, (name, path) ∈ sheet_targets → sheet_decodes zf shared_strings path) →
  (∃ name path, (name, path) ∈ sheet_targets ∧
                sheet_has_text zf shared_strings path "Tag Number") →
  ∃ (i : nat) name path,
    sheet_targets !! i = Some (name, path) ∧
    sheet_has_text zf shared_strings path "Tag Number" ∧
    (∀ (j : nat) name' path',
       (j < i)%nat → sheet_targets !! j = Some (name', path') →
       ¬ sheet_has_text zf shared_strings path' "Tag Number") ∧
    probe_sheets zf shared_strings "Tag Number" (sheet_targets.*2) = OK (Some path) ∧
    _find_log_sheet zf shared_strings sheet_targets = OK (Some path).
Proof.
  intros Hnames Hdec Hsome.
  destruct (find_log_sheet_found _ _ _ Hnames Hdec Hsome)
    as (i & name & path & Hi & Htext & Hfirst & Hfind).
  exists i, name, path. repeat (split; [done|]).
  by rewrite <- (find_log_sheet_probes _ _ _ Hnames).
Qed.

Lemma find_log_sheet_by_content_witness :
  _sheet_targets Example.package = OK Example.targets ∧
  ∃ (i : nat) name path,
    Example.targets !! i = Some (name, path) ∧
    sheet_has_text Example.package [] path "Tag Number" ∧
    (∀ (j : nat) name' path',
       (j < i)%nat → Example.targets !! j = Some (name', path') →
       ¬ sheet_has_text Example.package [] path' "Tag Number") ∧
    probe_sheets Example.package [] "Tag Number" (Example.targets.*2) = OK (Some path) ∧
    _find_log_sheet Example.package [] Example.targets = OK (Some path).
Proof.
  split; [vm_compute; reflexivity|].
  apply (find_log_sheet_by_content Example.package [] Example.targets).
  - apply example_targets_inv; vm_compute; reflexivity.
  - apply example_targets_inv; apply decodes_check_sound; vm_compute; reflexivity.
  - exists "Data", "xl/worksheets/sheet1.xml". split; [apply list_elem_of_here|].
    apply (sheet_has_text_check Example.package [] "xl/worksheets/sheet1.xml" "Tag Number" true);
      vm_compute; reflexivity.
Defined.

(** ** C8: packages without a shared-strings part *)

(** C8: when the archive has no part [xl/sharedStrings.xml], the table is
    read as the empty list, without an exception; and with the empty table
    every cell resolves, without an exception, to the literal text of its
    value element (or to no value when it has none), whether or not its
    type marks it as a shared-string cell. *)
Theorem no_shared_strings_part (zf : gmap string part) :
  zf !! "xl/sharedStrings.xml" = None →
  _read_shared_strings zf = OK [] ∧
  ∀ cell, _cell_value [] cell = OK (ET.text_or_empty <$> ET.find (main "v") cell).
Proof.
  intros Hpart. split.
  - unfold _read_shared_strings, read_xml. by rewrite Hpart.
  - intros cell. unfold _cell_value.
    destruct (ET.find (main "v") cell) as [v|]; [|done].
    by destruct (bool_decide _).
Qed.

Lemma no_shared_strings_part_witness :
  Example.package !! "xl/sharedStrings.xml" = None ∧
  _read_shared_strings Example.package = OK [] ∧
  _cell_value [] (Example.cell "A7" (Some "s") "0") = OK (Some "0").
Proof.
  assert (Example.package !! "xl/sharedStrings.xml" = None) as Hpart by (by vm_compute).
  destruct (no_shared_strings_part Example.package Hpart) as [Htable Hcells].
  split; [exact Hpart|]. split; [exact Htable|].
  rewrite Hcells. by vm_compute.
Defined.

(** ** C9: the log sheet that is not found *)

(** C9: when no sheet name starts with the prefix of the log sheet and no
    sheet has a cell whose text includes "Tag Number" (every sheet of the
    mapping parsing and decoding), the load raises the [ValueError] of the
    log sheet.  It is not the [ValueError] of the dropdown sheet, which the
    load raises when the log sheet is found and the dropdown sheet is
    not: the two carry different messages. *)
Theorem log_sheet_not_found
    (zf : gmap string part) (shared_strings : list string) (sheet_targets : odict string) :
  _read_shared_strings zf = OK shared_strings →
  _sheet_targets zf = OK sheet_targets →
  (∀ name path, (name, path) ∈ sheet_targets →
                Str.startswith "nc log" (Str.lower name) = false) →
  (∀ name path, (name, path) ∈ sheet_targets → sheet_decodes zf shared_strings path) →
  (∀ name path, (name, path) ∈ sheet_targets →
                ¬ sheet_has_text zf shared_strings path "Tag Number") →
  load zf = Raise NO_LOG_SHEET ∧
  NO_LOG_SHEET ≠ NO_DROPDOWN_SHEET ∧
  (∀ zf' shared_strings' sheet_targets' log_sheet_path,
     _read_shared_strings zf' = OK shared_strings' →
     _sheet_targets zf' = OK sheet_targets' →
     _find_log_sheet zf' shared_strings' sheet_targets' = OK (Some log_sheet_path) →
     log_sheet_path ≠ "" →
     _find_dropdown_sheet zf' shared_strings' sheet_targets' = OK None →
     load zf' = Raise NO_DROPDOWN_SHEET).
Proof.
  intros Hss Htargets Hnames Hdec Hnone. split; [|split; [done|]].
  - unfold load. rewrite Hss, Htargets. cbn [mbind result_bind].
    by rewrite (find_log_sheet_not_found _ _ _ Hnames Hdec Hnone).
  - intros zf' ss' targets' log Hss' Htargets' Hlog Hpath Hdd.
    unfold load. rewrite Hss', Htargets'. cbn [mbind result_bind].
    rewrite Hlog. cbn [mbind result_bind found].
    apply truthy_true in Hpath as ->. by rewrite Hdd.
Qed.

Lemma log_sheet_not_found_witness :
  _read_shared_strings Example.package_no_log = OK [] ∧
  _sheet_targets Example.package_no_log = OK Example.targets ∧
  load Example.package_no_log = Raise NO_LOG_SHEET.
Proof.
  assert (_read_shared_strings Example.package_no_log = OK []) as Hss
    by (vm_compute; reflexivity).
  assert (_sheet_targets Example.package_no_log = OK Example.targets) as Htargets
    by (vm_compute; reflexivity).
  split; [exact Hss|]. split; [exact Htargets|].
  apply (log_sheet_not_found Example.package_no_log [] Example.targets Hss Htargets).
  - apply example_targets_inv; vm_compute; reflexivity.
  - apply example_targets_inv; apply decodes_check_sound; vm_compute; reflexivity.
  - apply example_targets_inv.
    + rewrite <- (sheet_has_text_check Example.package_no_log [] "xl/worksheets/sheet1.xml"
                    "Tag Number" false); [done | ..]; vm_compute; reflexivity.
    + rewrite <- (sheet_has_text_check Example.package_no_log [] "xl/worksheets/sheet2.xml"
                    "Tag Number" false); [done | ..]; vm_compute; reflexivity.
Defined.

(** ** C10: negative shared-string indices *)

(** C10: with a table of [n > 0] strings, a shared-string cell whose raw
    text parses as [-k] with [1 <= k <= n] resolves, without an exception,
    to the string at position [n - k] of the table. *)
Theorem cell_value_negative_index
    (shared_strings : list string) (cell v : ET.element) (k : Z) :
  ET.find (main "v") cell = Some v →
  ET.attrib cell !! "t" = Some "s" →
  Num.int_of_str (ET.text_or_empty v) = OK (- k) →
  1 ≤ k ≤ Z.of_nat (length shared_strings) →
  ∃ shared,
    shared_strings !! Z.to_nat (Z.of_nat (length shared_strings) - k) = Some shared ∧
    _cell_value shared_strings cell = OK (Some shared).
Proof.
  intros Hv Ht Hindex Hk.
  assert (shared_strings ≠ []) as Hne by (destruct shared_strings; [simpl in Hk; lia | done]).
  rewrite (cell_value_shared _ _ _ Hv _ Hne Ht Hindex).
  destruct (list_getitem_end_relative shared_strings k Hk) as (shared & Hlookup & ->).
  by exists shared.
Qed.

Lemma cell_value_negative_index_witness :
  Num.int_of_str "-1" = OK (- 1) ∧
  _cell_value ["TAG-001"; "TAG-002"] (Example.cell "A7" (Some "s") "-1") = OK (Some "TAG-002").
Proof.
  split; [by vm_compute|].
  destruct (cell_value_negative_index
              ["TAG-001"; "TAG-002"] (Example.cell "A7" (Some "s") "-1")
              (ET.Element (main "v") ∅ (Some "-1") []) 1)
    as (shared & Hlookup & ->);
    [by vm_compute | by vm_compute | by vm_compute | simpl; lia |].
  simpl in Hlookup. by injection Hlookup as <-.
Defined.

(** * Further properties of the code *)

#[local] Set Warnings "-clear-no-such-hyp".

(** ** Deduplication in [_read_dropdowns] *)

Lemma unique_from_elem_of (seen : gset string) (values : list string) (value : string) :
  value ∈ unique_from seen values ↔ value ∈ values ∧ value ∉ seen.
Proof.
  revert seen. induction values as [|item rest IH]; intros seen; cbn [unique_from].
  - split; [by intros ?%elem_of_nil | by intros [?%elem_of_nil _]].
  - destruct (bool_decide_reflect (item ∈ seen)) as [Hseen|Hseen].
    + rewrite IH, elem_of_cons. split; [by intros [? ?]; auto|].
      intros [[->|?] ?]; done.
    + rewrite !elem_of_cons, IH. split.
      * intros [->|[? Hnot]]; [by auto|]. split; [by auto|]. set_solver.
      * intros [[->|?] ?]; [by left|].
        destruct (decide (value = item)) as [->|]; [by left|]. right. set_solver.
Qed.

Lemma unique_from_NoDup (seen : gset string) (values : list string) :
  NoDup (unique_from seen values).
Proof.
  revert seen. induction values as [|item rest IH]; intros seen; cbn [unique_from].
  - constructor.
  - destruct (bool_decide (item ∈ seen)); [apply IH|].
    constructor; [|apply IH]. rewrite unique_from_elem_of. set_solver.
Qed.

Lemma unique_from_sublist (seen : gset string) (values : list string) :
  sublist (unique_from seen values) values.
Proof.
  revert seen. induction values as [|item rest IH]; intros seen; cbn [unique_from].
  - constructor.
  - destruct (bool_decide (item ∈ seen)); [by apply sublist_cons | by apply sublist_skip].
Qed.

Lemma unique_from_snoc (seen : gset string) (values : list string) (value : string) :
  unique_from seen (values ++ [value]) =
  unique_from seen values
  ++ (if bool_decide (value ∈ seen ∨ value ∈ values) then [] else [value]).
Proof.
  revert seen. induction values as [|item rest IH]; intros seen; cbn [unique_from app].
  - destruct (bool_decide_reflect (value ∈ seen)) as [Hseen|Hseen].
    + by rewrite bool_decide_eq_true_2 by auto.
    + rewrite bool_decide_eq_false_2; [done|]. intros [?|?%elem_of_nil]; done.
  - destruct (bool_decide_reflect (item ∈ seen)) as [Hseen|Hseen].
    + rewrite IH. f_equal.
      rewrite (bool_decide_ext (value ∈ seen ∨ value ∈ rest)
                               (value ∈ seen ∨ value ∈ item :: rest)); [done|].
      rewrite elem_of_cons. split; [tauto|]. intros [?|[->|?]]; auto.
    + rewrite IH. cbn [app]. do 2 f_equal.
      rewrite (bool_decide_ext (value ∈ {[item]} ∪ seen ∨ value ∈ rest)
                               (value ∈ seen ∨ value ∈ item :: rest)); [done|].
      rewrite elem_of_cons, elem_of_union, elem_of_singleton. tauto.
Qed.

Lemma unique_from_fixed (seen : gset string) (values : list string) :
  NoDup values → (∀ value, value ∈ values → value ∉ seen) →
  unique_from seen values = values.
Proof.
  revert seen. induction values as [|item rest IH]; intros seen Hnodup Hseen; [done|].
  cbn [unique_from]. apply NoDup_cons in Hnodup as [Hitem Hrest].
  rewrite bool_decide_eq_false_2 by (apply Hseen; by left).
  f_equal. apply IH; [done|]. intros value Hvalue.
  assert (value ≠ item) by (by intros ->).
  pose proof (Hseen value ltac:(by right)). set_solver.
Qed.

(** X1: the deduplication of the dropdown lists keeps the first occurrence
    of each value and nothing else. *)
Theorem unique_keeps_first_occurrences (values : list string) :
  NoDup (unique values) ∧
  (∀ value, value ∈ unique values ↔ value ∈ values) ∧
  sublist (unique values) values ∧
  (∀ value,
     unique (values ++ [value]) =
     if bool_decide (value ∈ values) then unique values else unique values ++ [value]) ∧
  unique (unique values) = unique values.
Proof.
  unfold unique. split; [apply unique_from_NoDup|]. split.
  { intros value. rewrite unique_from_elem_of. set_solver. }
  split; [apply unique_from_sublist|]. split.
  - intros value. rewrite unique_from_snoc.
    destruct (bool_decide_reflect (value ∈ values)) as [Hin|Hin].
    + rewrite bool_decide_eq_true_2 by auto. apply app_nil_r.
    + rewrite bool_decide_eq_false_2; [done|]. set_solver.
  - apply unique_from_fixed; [apply unique_from_NoDup | set_solver].
Qed.

(** ** The index of a shared string *)

Lemma list_getitem_in_range {A} (l : list A) (i : Z) :
  0 ≤ i < Z.of_nat (length l) →
  ∃ x, l !! Z.to_nat i = Some x ∧ list_getitem l i = OK x.
Proof.
  intros Hi. unfold list_getitem.
  destruct (Z.ltb_spec i 0); [lia|].
  destruct (Z.leb_spec 0 i); [|lia].
  destruct (Z.ltb_spec i (Z.of_nat (length l))); [|lia]. simpl.
  destruct (lookup_lt_is_Some_2 l (Z.to_nat i)) as [x Hx]; [lia|].
  exists x. by rewrite Hx.
Qed.

Lemma list_getitem_IndexError {A} (l : list A) (i : Z) :
  list_getitem l i = Raise IndexError ↔
  i < - Z.of_nat (length l) ∨ Z.of_nat (length l) ≤ i.
Proof.
  split.
  - intros Hraise.
    destruct (Z.lt_ge_cases i (- Z.of_nat (length l))); [by left|].
    destruct (Z.lt_ge_cases i (Z.of_nat (length l))); [|by right].
    destruct (Z.lt_ge_cases i 0).
    + destruct (list_getitem_end_relative l (- i)) as (x & _ & Hx); [lia|].
      rewrite Z.opp_involutive in Hx. congruence.
    + destruct (list_getitem_in_range l i) as (x & _ & Hx); [lia|]. congruence.
  - intros [Hlow|Hhigh]; [|by apply list_getitem_beyond].
    unfold list_getitem. destruct (Z.ltb_spec i 0); [|lia].
    destruct (Z.leb_spec 0 (i + Z.of_nat (length l))); [lia|]. done.
Qed.

(** X2: a shared-string cell resolves exactly for the indices from [-n]
    to [n - 1] of a table of [n > 0] strings: an index from 0 gives the
    entry at that place, and the cell raises [IndexError] if and only if
    the index is below [-n] or at least [n].  Raw text that [int] does not
    read raises the [ValueError] of [int], not an [IndexError]. *)
Theorem cell_value_index_bounds
    (shared_strings : list string) (cell v : ET.element) :
  shared_strings ≠ [] →
  ET.find (main "v") cell = Some v →
  ET.attrib cell !! "t" = Some "s" →
  (∀ index,
     Num.int_of_str (ET.text_or_empty v) = OK index →
     (0 ≤ index < Z.of_nat (length shared_strings) →
      ∃ shared, shared_strings !! Z.to_nat index = Some shared ∧
                _cell_value shared_strings cell = OK (Some shared)) ∧
     (_cell_value shared_strings cell = Raise IndexError ↔
      index < - Z.of_nat (length shared_strings) ∨ Z.of_nat (length shared_strings) ≤ index)) ∧
  (∀ e, Num.int_of_str (ET.text_or_empty v) = Raise e →
        _cell_value shared_strings cell = Raise e ∧ e ≠ IndexError).
Proof.
  intros Hne Hv Ht. split.
  - intros index Hindex. rewrite (cell_value_shared _ _ _ Hv _ Hne Ht Hindex). split.
    + intros Hrange.
      destruct (list_getitem_in_range shared_strings index Hrange) as (x & Hx & ->).
      by exists x.
    + rewrite <- list_getitem_IndexError.
      destruct (list_getitem shared_strings index); simpl; split; congruence.
  - intros e He. unfold _cell_value. rewrite Hv, Ht, bool_decide_eq_true_2 by done.
    destruct shared_strings; [done|]. rewrite He. split; [done|].
    unfold Num.int_of_str in He.
    destruct (Num.split_sign _) as [neg body].
    destruct (Num.int_digits body 0 0) as [[value n]|]; [|by intros ->; simplify_eq].
    destruct (bool_decide _); by intros ->; simplify_eq.
Qed.

Lemma cell_value_index_bounds_witness :
  _cell_value ["TAG-001"; "TAG-002"] (Example.cell "A7" (Some "s") "1") = OK (Some "TAG-002") ∧
  _cell_value ["TAG-001"; "TAG-002"] (Example.cell "A7" (Some "s") "x")
  = Raise (ValueError (InvalidIntLiteral "x")).
Proof.
  destruct (cell_value_index_bounds
              ["TAG-001"; "TAG-002"] (Example.cell "A7" (Some "s") "1")
              (ET.Element (main "v") ∅ (Some "1") []))
    as [Hindex _]; [done | vm_compute; reflexivity | vm_compute; reflexivity |].
  destruct (Hindex 1) as [Hin _]; [vm_compute; reflexivity|].
  destruct Hin as (shared & Hlookup & ->); [simpl; lia|].
  simpl in Hlookup. injection Hlookup as <-. split; [reflexivity|].
  apply (cell_value_index_bounds
           ["TAG-001"; "TAG-002"] (Example.cell "A7" (Some "s") "x")
           (ET.Element (main "v") ∅ (Some "x") []));
    [done | vm_compute; reflexivity | vm_compute; reflexivity | vm_compute; reflexivity].
Defined.

(** ** The lists of the dropdown extractor *)

Section Dropdown_lists.

Variable shared_strings : list string.

Lemma append_to_lookup key value d key' :
  default [] (append_to key value d !! key') =
  default [] (d !! key') ++ (if bool_decide (key = key') then [value] else []).
Proof.
  unfold append_to. destruct (bool_decide_reflect (key = key')) as [<-|Hne].
  - by rewrite lookup_insert_eq.
  - rewrite lookup_insert_ne by done. by rewrite app_nil_r.
Qed.

Lemma dropdown_cell_lists d cell d' key column :
  dropdown_cell shared_strings d cell = OK d' →
  (key, column) ∈ DROPDOWN_COLUMNS →
  default [] (d' !! key) =
  default [] (d !! key) ++ option_list (dropdown_entry shared_strings column cell).
Proof.
  unfold dropdown_cell, dropdown_entry. intros H Hkey.
  destruct (match_column_row _) as [[c row_no]|]; [|simplify_eq; by rewrite app_nil_r].
  destruct (bool_decide (row_no = "1"));
    [simplify_eq; by rewrite andb_false_r, app_nil_r|].
  rewrite andb_true_r.
  destruct (_cell_value shared_strings cell) as [[value|]|];
    cbn [mbind result_bind] in H; [| |done].
  2:{ simplify_eq. destruct (bool_decide _); by rewrite app_nil_r. }
  destruct (Str.truthy value); cbn [negb] in H.
  2:{ simplify_eq. destruct (bool_decide _); by rewrite app_nil_r. }
  assert (key = "rejection_type" ∧ column = "A" ∨ key = "rejection_class" ∧ column = "C"
          ∨ key = "disposition" ∧ column = "E") as Hcases.
  { unfold DROPDOWN_COLUMNS in Hkey.
    repeat (apply elem_of_cons in Hkey as [[= -> ->]|Hkey]); auto.
    by apply elem_of_nil in Hkey. }
  destruct (bool_decide_reflect (c = "A")) as [->|HA];
    [|destruct (bool_decide_reflect (c = "C")) as [->|HC];
      [|destruct (bool_decide_reflect (c = "E")) as [->|HE]]];
    injection H as <-; rewrite ?append_to_lookup;
    destruct Hcases as [[-> ->]|[[-> ->]|[-> ->]]];
    rewrite ?bool_decide_eq_false_2 by done; by rewrite ?app_nil_r.
Qed.

Lemma append_to_is_Some k v (d : gmap string (list string)) key :
  is_Some (append_to k v d !! key) ↔ k = key ∨ is_Some (d !! key).
Proof.
  unfold append_to. rewrite lookup_insert_is_Some.
  destruct (decide (k = key)); [by split; auto | tauto].
Qed.

Lemma dropdown_cell_keys d cell d' key :
  dropdown_cell shared_strings d cell = OK d' →
  (is_Some (d !! key) → is_Some (d' !! key)) ∧
  (is_Some (d' !! key) → is_Some (d !! key) ∨ key ∈ DROPDOWN_COLUMNS.*1).
Proof.
  unfold dropdown_cell. intros H.
  destruct (match_column_row _) as [[c row_no]|]; [|by simplify_eq; auto].
  destruct (bool_decide (row_no = "1")); [by simplify_eq; auto|].
  destruct (_cell_value shared_strings cell) as [[value|]|];
    cbn [mbind result_bind] in H; [|by simplify_eq; auto|done].
  destruct (Str.truthy value); cbn [negb] in H; [|by simplify_eq; auto].
  unfold DROPDOWN_COLUMNS. cbn [fmap list_fmap fst].
  repeat (destruct (bool_decide _);
          [injection H as <-; rewrite append_to_is_Some, !elem_of_cons;
           split; [by auto | intros [<-|?]; auto]|]).
  by simplify_eq; auto.
Qed.

Lemma scan_lists cells d0 d key column :
  for_in cells (dropdown_cell shared_strings) d0 = OK d →
  (key, column) ∈ DROPDOWN_COLUMNS →
  default [] (d !! key) =
  default [] (d0 !! key) ++ omap (dropdown_entry shared_strings column) cells.
Proof.
  intros Hrun Hkey. revert d0 Hrun.
  induction cells as [|cell cells IH]; intros d0 Hrun; cbn [for_in] in Hrun.
  - simplify_eq. by rewrite app_nil_r.
  - apply bind_OK_inv in Hrun as (d1 & Hcell & Hrun).
    rewrite (IH _ Hrun), (dropdown_cell_lists _ _ _ _ _ Hcell Hkey).
    rewrite <- app_assoc. f_equal. cbn [omap list_omap].
    by destruct (dropdown_entry _ _ _).
Qed.

Lemma scan_keys cells d0 d key :
  for_in cells (dropdown_cell shared_strings) d0 = OK d →
  is_Some (d !! key) → is_Some (d0 !! key) ∨ key ∈ DROPDOWN_COLUMNS.*1.
Proof.
  revert d0. induction cells as [|cell cells IH]; intros d0 Hrun Hsome; cbn [for_in] in Hrun.
  - simplify_eq. by left.
  - apply bind_OK_inv in Hrun as (d1 & Hcell & Hrun).
    destruct (IH _ Hrun Hsome) as [Hd1|?]; [|by right].
    by apply (dropdown_cell_keys _ _ _ key Hcell) in Hd1.
Qed.

Lemma scan_keeps_keys cells d0 d key :
  for_in cells (dropdown_cell shared_strings) d0 = OK d →
  is_Some (d0 !! key) → is_Some (d !! key).
Proof.
  revert d0. induction cells as [|cell cells IH]; intros d0 Hrun Hsome; cbn [for_in] in Hrun.
  - by simplify_eq.
  - apply bind_OK_inv in Hrun as (d1 & Hcell & Hrun).
    apply (IH _ Hrun). by apply (dropdown_cell_keys _ _ _ key Hcell).
Qed.

End Dropdown_lists.

(** X3: when [_read_dropdowns] returns, its dictionary has the three keys
    [rejection_type], [rejection_class] and [disposition] and no other;
    the list under each is made of the stripped texts of the cells of its
    column (A, C, E) whose row number is not "1" and that decode to text
    that is not empty, in document order, each value kept at its first
    occurrence only. *)
Theorem read_dropdowns_lists
    (zf : gmap string part) (shared_strings : list string) (path : string)
    (sheet : ET.element) (d : gmap string (list string)) :
  read_xml zf path = OK sheet →
  _read_dropdowns zf shared_strings path = OK d →
  (∀ key column,
     (key, column) ∈ DROPDOWN_COLUMNS →
     d !! key = Some (unique (omap (dropdown_entry shared_strings column) (cells_of sheet)))) ∧
  (∀ key, is_Some (d !! key) → key ∈ DROPDOWN_COLUMNS.*1).
Proof.
  intros Hsheet Hread. unfold _read_dropdowns in Hread.
  rewrite Hsheet in Hread. cbn [mbind result_bind] in Hread.
  apply bind_OK_inv in Hread as (d0 & Hscan & [= <-]).
  unfold scan_dropdowns in Hscan. fold (cells_of sheet) in Hscan.
  assert (∀ key, is_Some (empty_dropdowns !! key) ↔ key ∈ DROPDOWN_COLUMNS.*1) as Hempty.
  { intros key. unfold empty_dropdowns, DROPDOWN_COLUMNS. cbn [fmap list_fmap fst].
    rewrite !lookup_insert_is_Some, lookup_empty, !elem_of_cons, elem_of_nil.
    split; [|intros [->|[->|[->|[]]]]; auto 10].
    intros [->|[_ [->|[_ [->|[_ []%is_Some_None]]]]]]; auto. }
  split.
  - intros key column Hkey. rewrite lookup_fmap.
    pose proof (scan_lists _ _ _ _ _ _ Hscan Hkey) as Hlist.
    assert (is_Some (d0 !! key)) as [values Hvalues].
    { eapply scan_keeps_keys; [exact Hscan|]. apply Hempty.
      by apply (list_elem_of_fmap_2 fst _ (key, column)). }
    assert (empty_dropdowns !! key = Some []) as Hnil.
    { unfold DROPDOWN_COLUMNS in Hkey.
      repeat (apply elem_of_cons in Hkey as [[= -> ->]|Hkey]); try done.
      by apply elem_of_nil in Hkey. }
    rewrite Hvalues, Hnil in Hlist. simpl in Hlist. by rewrite Hvalues, Hlist.
  - intros key Hsome. rewrite lookup_fmap, fmap_is_Some in Hsome.
    destruct (scan_keys _ _ _ _ key Hscan Hsome) as [?%Hempty|?]; done.
Qed.

Lemma read_dropdowns_lists_witness :
  _read_dropdowns Example.package [] "xl/worksheets/sheet2.xml" = OK Example.dropdown_lists ∧
  Example.dropdown_lists !! "rejection_type"
  = Some (unique (omap (dropdown_entry [] "A") (cells_of Example.dropdown_sheet))) ∧
  omap (dropdown_entry [] "A") (cells_of Example.dropdown_sheet) = ["Scratch"; "Dent"; "Scratch"].
Proof.
  assert (read_xml Example.package "xl/worksheets/sheet2.xml" = OK Example.dropdown_sheet)
    as Hsheet by (vm_compute; reflexivity).
  assert (_read_dropdowns Example.package [] "xl/worksheets/sheet2.xml"
          = OK Example.dropdown_lists)
    as Hread by (vm_compute; reflexivity).
  split; [exact Hread|]. split; [|vm_compute; reflexivity].
  apply (read_dropdowns_lists _ _ _ _ _ Hsheet Hread), list_elem_of_here.
Defined.

(** ** The records of the record extractor *)

Lemma digit_char_cases (d : Z) :
  Date.digit_char d ∈ ["0"; "1"; "2"; "3"; "4"; "5"; "6"; "7"; "8"; "9"]%char.
Proof.
  unfold Date.digit_char. pose proof (Z.mod_pos_bound d 10 ltac:(lia)) as Hd.
  assert (d mod 10 = 0 ∨ d mod 10 = 1 ∨ d mod 10 = 2 ∨ d mod 10 = 3 ∨ d mod 10 = 4
          ∨ d mod 10 = 5 ∨ d mod 10 = 6 ∨ d mod 10 = 7 ∨ d mod 10 = 8 ∨ d mod 10 = 9)
    as Hcases by lia.
  repeat (destruct Hcases as [->|Hcases]; [cbn; rewrite !elem_of_cons; tauto|]).
  rewrite Hcases. cbn. rewrite !elem_of_cons. tauto.
Qed.

Lemma digit_char_isdigit (d : Z) :
  Str.isdigit (Date.digit_char d) = true ∧ Str.isspace (Date.digit_char d) = false ∧
  Num.digit_value (Date.digit_char d) = d mod 10.
Proof.
  unfold Date.digit_char. pose proof (Z.mod_pos_bound d 10 ltac:(lia)) as Hd.
  assert (d mod 10 = 0 ∨ d mod 10 = 1 ∨ d mod 10 = 2 ∨ d mod 10 = 3 ∨ d mod 10 = 4
          ∨ d mod 10 = 5 ∨ d mod 10 = 6 ∨ d mod 10 = 7 ∨ d mod 10 = 8 ∨ d mod 10 = 9)
    as Hcases by lia.
  repeat (destruct Hcases as [->|Hcases]; [done|]). by rewrite Hcases.
Qed.

Lemma rstrip_by_clean_end (ws : ascii → bool) (s : string) (c : ascii) :
  ws c = false → Str.rstrip_by ws (s +:+ String c "") = s +:+ String c "".
Proof.
  intros Hc. induction s as [|a s IH]; simpl.
  - by rewrite Hc.
  - simpl in IH. rewrite IH. by destruct s.
Qed.

(** What [isoformat] returns is not empty and has no white space at its
    ends. *)
Lemma isoformat_stripped (d : Date.date) :
  Date.isoformat d ≠ "" ∧ Str.strip (Date.isoformat d) = Date.isoformat d.
Proof.
  split; [done|]. unfold Str.strip, Str.strip_by.
  rewrite lstrip_by_clean.
  - apply (rstrip_by_clean_end Str.isspace
             (Date.pad4 (Date.year d) +:+ "-" +:+ Date.pad2 (Date.month d) +:+ "-"
              +:+ String (Date.digit_char (Date.day d / 10)) "")
             (Date.digit_char (Date.day d))).
    apply digit_char_isdigit.
  - apply (proj1 (proj2 (digit_char_isdigit _))).
Qed.

Lemma excel_serial_to_iso_stripped (value iso : string) :
  excel_serial_to_iso (Some value) = OK (Some iso) → iso ≠ "" ∧ Str.strip iso = iso.
Proof.
  unfold excel_serial_to_iso.
  destruct (negb _); [done|].
  destruct (Num.float_of_str _) as [serial|[]]; try done.
  destruct (Num.int_of_float serial) as [days|]; [|done]. cbn [mbind result_bind].
  destruct (Date.timedelta days) as [delta|[]]; try done. cbn [mbind result_bind].
  destruct (Date.add BASE_DATE delta) as [date_value|[]]; try done.
  intros [= <-]. apply isoformat_stripped.
Qed.

Section Records.

Variable shared_strings : list string.

Lemma fields_ok_insert record column field value :
  fields_ok record → FIELD_MAP !! column = Some field →
  value ≠ "" → Str.strip value = value →
  fields_ok (<[field := value]> record).
Proof.
  intros Hrecord Hfield Hvalue Hstrip field' value'.
  destruct (decide (field = field')) as [<-|Hne].
  - rewrite lookup_insert_eq. intros [= <-]. eauto.
  - rewrite lookup_insert_ne by done. apply Hrecord.
Qed.

Lemma log_cell_fields_ok record has_text cell record' has_text' :
  log_cell shared_strings (record, has_text) cell = OK (record', has_text') →
  fields_ok record ∧ (has_text = true → record ≠ ∅) →
  fields_ok record' ∧ (has_text' = true → record' ≠ ∅).
Proof.
  unfold log_cell. intros H [Hrecord Hempty].
  destruct (match_column _) as [column|]; [|by simplify_eq].
  destruct (FIELD_MAP !! column) as [field|] eqn:Hfield; [|by simplify_eq].
  destruct (negb (Str.truthy field)); [by simplify_eq|].
  destruct (_cell_value shared_strings cell) as [[value|]|];
    cbn [mbind result_bind] in H; [|by simplify_eq|done].
  destruct (Str.truthy (Str.strip value)) eqn:Htext; cbn [negb] in H; [|by simplify_eq].
  apply truthy_true in Htext.
  assert (∀ v, v ≠ "" → Str.strip v = v →
               fields_ok (<[field := v]> record) ∧ (true = true → <[field := v]> record ≠ ∅))
    as Hstore.
  { intros v ? ?. split; [by eapply fields_ok_insert|]. intros _. apply insert_non_empty. }
  destruct (bool_decide _).
  - destruct (excel_serial_to_iso _) as [[iso|]|] eqn:Hiso;
      cbn [mbind result_bind] in H; [| |done].
    + apply excel_serial_to_iso_stripped in Hiso as [Hne Hstrip].
      apply truthy_true in Hne as Htruthy. rewrite Htruthy in H.
      injection H as <- <-. by apply Hstore.
    + injection H as <- <-. apply Hstore; [done | apply strip_idemp].
  - injection H as <- <-. apply Hstore; [done | apply strip_idemp].
Qed.

Lemma log_row_fields_ok records row records' :
  log_row shared_strings records row = OK records' →
  Forall (λ record, record ≠ ∅ ∧ fields_ok record) records →
  Forall (λ record, record ≠ ∅ ∧ fields_ok record) records'.
Proof.
  unfold log_row. intros (row_index & _ & H)%bind_OK_inv Hrecords.
  destruct (row_index <? 7); [by simplify_eq|].
  apply bind_OK_inv in H as ([record has_text] & Hcells & H).
  assert (fields_ok record ∧ (has_text = true → record ≠ ∅)) as [Hrecord Hempty].
  { revert Hcells.
    apply (for_in_invariant (λ st, fields_ok st.1 ∧ (st.2 = true → st.1 ≠ ∅))).
    - intros [r h] cell [r' h'] _ Hst Hcell. by eapply log_cell_fields_ok.
    - split; [|done]. intros field value Hlookup. cbn [fst] in Hlookup.
      by rewrite lookup_empty in Hlookup. }
  destruct has_text; simplify_eq; [|done].
  apply Forall_app. split; [done|]. constructor; [auto|constructor].
Qed.

End Records.

(** X4: every record that [_read_log_records] returns has at least one
    field; its keys are field names of [FIELD_MAP], and its values are
    strings that are not empty and have no white space at their ends. *)
Theorem records_well_formed
    (zf : gmap string part) (shared_strings : list string) (path : string)
    (recs : list (gmap string string)) :
  _read_log_records zf shared_strings path = OK recs →
  ∀ record, record ∈ recs →
    record ≠ ∅ ∧
    ∀ field value,
      record !! field = Some value →
      (∃ column, FIELD_MAP !! column = Some field) ∧ value ≠ "" ∧ Str.strip value = value.
Proof.
  unfold _read_log_records. intros (sheet & _ & Hrows)%bind_OK_inv.
  assert (Forall (λ record, record ≠ ∅ ∧ fields_ok record) recs) as Hall.
  { revert Hrows. apply for_in_invariant; [|constructor].
    intros records row records' _ Hrecords Hrow. by eapply log_row_fields_ok. }
  intros record Hrecord. rewrite Forall_forall in Hall. by apply Hall.
Qed.

Lemma records_well_formed_witness :
  _read_log_records Example.package [] "xl/worksheets/sheet1.xml" = OK Example.log_records ∧
  ∀ record, record ∈ Example.log_records →
    record ≠ ∅ ∧
    ∀ field value,
      record !! field = Some value →
      (∃ column, FIELD_MAP !! column = Some field) ∧ value ≠ "" ∧ Str.strip value = value.
Proof.
  assert (_read_log_records Example.package [] "xl/worksheets/sheet1.xml"
          = OK Example.log_records)
    as Hrecs by (vm_compute; reflexivity).
  split; [exact Hrecs|]. exact (records_well_formed _ _ _ _ Hrecs).
Defined.

(** ** The sheet locator: names first *)

(** X5: a sheet whose name starts with "nc log", whatever the case of its
    letters, is the log sheet: [_find_log_sheet] returns the part of the
    first such sheet of the mapping without reading any part of the
    archive, so whatever the archive holds. *)
Theorem find_log_sheet_by_name
    (zf : gmap string part) (shared_strings : list string) (sheet_targets : odict string)
    (i : nat) (name path : string) :
  sheet_targets !! i = Some (name, path) →
  Str.startswith "nc log" (Str.lower name) = true →
  (∀ (j : nat) name' path',
     (j < i)%nat → sheet_targets !! j = Some (name', path') →
     Str.startswith "nc log" (Str.lower name') = false) →
  _find_log_sheet zf shared_strings sheet_targets = OK (Some path).
Proof.
  intros Hi Hname Hfirst. unfold _find_log_sheet.
  rewrite (proj2 (list_find_Some _ sheet_targets i (name, path))); [done|].
  split; [done|]. split; [done|]. intros j [name' path'] Hj Hlt. cbn [fst].
  by rewrite (Hfirst j name' path' Hlt Hj).
Qed.

Lemma find_log_sheet_by_name_witness :
  _find_log_sheet ∅ [] [("Notes", "xl/worksheets/sheet1.xml");
                        ("NC LOG 2025", "xl/worksheets/sheet2.xml")]
  = OK (Some "xl/worksheets/sheet2.xml").
Proof.
  apply (find_log_sheet_by_name ∅ [] _ 1 "NC LOG 2025"); [reflexivity | reflexivity |].
  intros [|j] name' path' Hj Hlookup; [|lia].
  injection Hlookup as <- <-. reflexivity.
Defined.

Section Dropdown_sheet.

Variable zf : gmap string part.
Variable shared_strings : list string.
Variable sheet_targets : odict string.

Hypothesis sheets_decode :
  ∀ name path, (name, path) ∈ sheet_targets → sheet_decodes zf shared_strings path.

Lemma find_dropdown_sheet_cases :
  (∃ name path,
     (name, path) ∈ sheet_targets ∧
     sheet_has_text zf shared_strings path "Rejection Type:" ∧
     _find_dropdown_sheet zf shared_strings sheet_targets = OK (Some path) ∧
     ((∃ name' path', (name', path') ∈ sheet_targets ∧
                      Str.contains "sheet" (Str.lower name') = true ∧
                      sheet_has_text zf shared_strings path' "Rejection Type:") →
      ∃ name0, (name0, path) ∈ sheet_targets ∧ Str.contains "sheet" (Str.lower name0) = true))
  ∨ ((∀ name path, (name, path) ∈ sheet_targets →
                   ¬ sheet_has_text zf shared_strings path "Rejection Type:") ∧
     _find_dropdown_sheet zf shared_strings sheet_targets = OK None).
Proof using sheets_decode.
  unfold _find_dropdown_sheet.
  set (named := filter (λ item : string * string,
                          Str.contains "sheet" (Str.lower item.1) = true) sheet_targets).
  assert (∀ path, path ∈ named.*2 →
                  ∃ name, (name, path) ∈ sheet_targets ∧
                          Str.contains "sheet" (Str.lower name) = true) as Hnamed.
  { intros path ([name p] & -> & Hin)%list_elem_of_fmap.
    apply list_elem_of_filter in Hin as [Hname Hin]. by exists name. }
  destruct (probe_sheets_spec zf shared_strings "Rejection Type:" eq_refl (named.*2))
    as [(i & p & Hi & Hp & _ & ->)|[Hnone ->]].
  { intros path (name & Hin & _)%Hnamed. by eapply sheets_decode. }
  - left. cbn [mbind result_bind].
    destruct (Hnamed p) as (name & Hin & Hname); [by eapply list_elem_of_lookup_2|].
    exists name, p. split; [done|]. split; [done|]. split; [done|]. eauto.
  - cbn [mbind result_bind].
    destruct (probe_sheets_spec zf shared_strings "Rejection Type:" eq_refl (sheet_targets.*2))
      as [(i & p & Hi & Hp & _ & ->)|[Hnone' ->]].
    { intros path ([name p] & -> & Hin)%list_elem_of_fmap. by eapply sheets_decode. }
    + left. apply list_lookup_fmap_Some in Hi as ([name p'] & -> & Hi%list_elem_of_lookup_2).
      exists name, p'. split; [done|]. split; [done|]. split; [done|].
      intros (name' & path' & Hin & Hname & Htext). destruct (Hnone path'); [|done].
      apply list_elem_of_fmap. exists (name', path'). split; [done|].
      by apply list_elem_of_filter.
    + right. split; [|done]. intros name path Hin. apply Hnone'.
      apply list_elem_of_fmap. by exists (name, path).
Qed.

End Dropdown_sheet.

(** X6: when every sheet of the mapping parses and decodes,
    [_find_dropdown_sheet] returns a sheet with a cell whose text includes
    "Rejection Type:" if there is one, and nothing otherwise; among the
    sheets that have the marker, one whose name contains "sheet" is
    preferred to the others. *)
Theorem find_dropdown_sheet_prefers_named
    (zf : gmap string part) (shared_strings : list string) (sheet_targets : odict string) :
  (∀ name path, (name, path) ∈ sheet_targets → sheet_decodes zf shared_strings path) →
  (∃ name path,
     (name, path) ∈ sheet_targets ∧
     sheet_has_text zf shared_strings path "Rejection Type:" ∧
     _find_dropdown_sheet zf shared_strings sheet_targets = OK (Some path) ∧
     ((∃ name' path', (name', path') ∈ sheet_targets ∧
                      Str.contains "sheet" (Str.lower name') = true ∧
                      sheet_has_text zf shared_strings path' "Rejection Type:") →
      ∃ name0, (name0, path) ∈ sheet_targets ∧ Str.contains "sheet" (Str.lower name0) = true))
  ∨ ((∀ name path, (name, path) ∈ sheet_targets →
                   ¬ sheet_has_text zf shared_strings path "Rejection Type:") ∧
     _find_dropdown_sheet zf shared_strings sheet_targets = OK None).
Proof. apply find_dropdown_sheet_cases. Qed.

Lemma find_dropdown_sheet_prefers_named_witness :
  _find_dropdown_sheet Example.package_no_log [] Example.targets
  = OK (Some "xl/worksheets/sheet2.xml").
Proof.
  destruct (find_dropdown_sheet_prefers_named Example.package_no_log [] Example.targets)
    as [(name & path & _ & _ & -> & Hnamed)|[Hnone _]].
  - apply example_targets_inv; apply decodes_check_sound; vm_compute; reflexivity.
  - destruct Hnamed as (name0 & Hin & Hname).
    + exists "Sheet2", "xl/worksheets/sheet2.xml".
      split; [apply list_elem_of_further, list_elem_of_here|].
      split; [reflexivity|].
      apply (sheet_has_text_check Example.package_no_log [] "xl/worksheets/sheet2.xml"
               "Rejection Type:" true); vm_compute; reflexivity.
    + revert Hname. revert name0 path Hin.
      apply (example_targets_inv (λ name0 path, _ → OK (Some path) = _)); [|done].
      vm_compute. discriminate.
  - destruct (Hnone "Sheet2" "xl/worksheets/sheet2.xml");
      [apply list_elem_of_further, list_elem_of_here|].
    apply (sheet_has_text_check Example.package_no_log [] "xl/worksheets/sheet2.xml"
             "Rejection Type:" true); vm_compute; reflexivity.
Defined.

(** ** The relationship resolver *)

Lemma foldl_invariant {A B} (P : A → Prop) (f : A → B → A) (l : list B) (a : A) :
  P a → (∀ a x, x ∈ l → P a → P (f a x)) → P (foldl f a l).
Proof.
  revert a. induction l as [|x l IH]; intros a Ha Hf; [done|].
  cbn [foldl]. apply IH; [apply Hf; [by left | done]|].
  intros a' y Hy. apply Hf. by right.
Qed.

Lemma odict_set_elem_of {V} (d : odict V) (k : string) (v : V) (k' : string) (v' : V) :
  (k', v') ∈ odict_set d k v → (k' = k ∧ v' = v) ∨ (k', v') ∈ d.
Proof.
  induction d as [|[k0 v0] d IH]; cbn [odict_set].
  - intros Hin%list_elem_of_singleton. left. by simplify_eq.
  - destruct (bool_decide (k0 = k)).
    + intros [Heq|?]%elem_of_cons; [left; by simplify_eq | right; by right].
    + intros [Heq|Hin]%elem_of_cons; [right; rewrite Heq; by left|].
      destruct (IH Hin) as [?|?]; [by left | right; by right].
Qed.

Lemma odict_set_keys {V} (d : odict V) (k : string) (v : V) (k' : string) :
  k' ∈ (odict_set d k v).*1 ↔ k' = k ∨ k' ∈ d.*1.
Proof.
  induction d as [|[k0 v0] d IH]; cbn [odict_set].
  - cbn. rewrite elem_of_cons, elem_of_nil. tauto.
  - destruct (bool_decide_reflect (k0 = k)) as [->|Hne]; cbn.
    + rewrite !elem_of_cons. tauto.
    + cbn in IH. rewrite !elem_of_cons, IH. tauto.
Qed.

Lemma odict_set_NoDup {V} (d : odict V) (k : string) (v : V) :
  NoDup d.*1 → NoDup (odict_set d k v).*1.
Proof.
  induction d as [|[k0 v0] d IH]; cbn [odict_set]; intros Hd.
  - cbn. apply NoDup_singleton.
  - cbn in Hd. apply NoDup_cons in Hd as [Hk0 Hd].
    destruct (bool_decide_reflect (k0 = k)) as [->|Hne]; cbn.
    + by apply NoDup_cons.
    + apply NoDup_cons. split; [|by apply IH].
      intros [?|?]%odict_set_keys; done.
Qed.

(** A dictionary assignment is read back, and leaves the other keys as
    they were. *)
Lemma odict_set_lookup {V} (d : odict V) (k : string) (v : V) (k' : string) :
  NoDup d.*1 →
  (list_to_map (odict_set d k v) : gmap string V) !! k' =
  if bool_decide (k' = k) then Some v else (list_to_map d : gmap string V) !! k'.
Proof.
  induction d as [|[k0 v0] d IH]; cbn [odict_set]; intros Hd.
  - cbn. destruct (decide (k' = k)) as [Hk'|Hk'].
    + rewrite bool_decide_eq_true_2 by done. subst k'. by rewrite lookup_insert_eq.
    + rewrite bool_decide_eq_false_2 by done. by rewrite lookup_insert_ne.
  - cbn in Hd. apply NoDup_cons in Hd as [Hk0 Hd].
    destruct (decide (k0 = k)) as [Hk|Hk].
    + rewrite (bool_decide_eq_true_2 _ Hk). cbn. subst k0.
      destruct (decide (k' = k)) as [Hk'|Hk'].
      * rewrite bool_decide_eq_true_2 by done. subst k'. by rewrite lookup_insert_eq.
      * rewrite bool_decide_eq_false_2 by done. by rewrite !lookup_insert_ne.
    + rewrite (bool_decide_eq_false_2 _ Hk). cbn.
      destruct (decide (k0 = k')) as [Hk'|Hk'].
      * subst k'. rewrite !lookup_insert_eq. by rewrite bool_decide_eq_false_2.
      * rewrite !lookup_insert_ne by done. by apply IH.
Qed.

Lemma part_of_target_relative (target : string) :
  Str.startswith "/" (part_of_target target) = false.
Proof.
  unfold part_of_target. destruct (negb _); [done|].
  pose proof (lstrip_by_starts_clean (λ c, bool_decide (c = "/"%char)) target) as Hclean.
  unfold Str.lstrip_char. destruct (Str.lstrip_by _ target) as [|c r]; [done|].
  cbn in Hclean. cbn. apply bool_decide_eq_false in Hclean.
  rewrite bool_decide_eq_false_2; [done|]. by intros <-.
Qed.

Lemma rels_step_OK (rels0 : gmap string string) (rel : ET.element) :
  is_OK (rels_step rels0 rel) ↔
  (is_worksheet_rel rel = true →
   is_Some (ET.attrib rel !! "Id") ∧ is_Some (ET.attrib rel !! "Target")).
Proof.
  unfold rels_step, is_worksheet_rel, attrib_getitem.
  destruct (Str.endswith "/worksheet" (ET.get rel "Type" "")).
  - destruct (ET.attrib rel !! "Id") as [id|]; cbn [mbind result_bind].
    + destruct (ET.attrib rel !! "Target") as [target|]; cbn [mbind result_bind].
      * split; [by eauto | intros _; apply is_OK_OK].
      * split; [by intros ?%not_is_OK_Raise|].
        intros Hboth. destruct Hboth as [_ [? ?]]; done.
    + split; [by intros ?%not_is_OK_Raise|].
      intros Hboth. destruct Hboth as [[? ?] _]; done.
  - split; [done | intros _; apply is_OK_OK].
Qed.

Lemma rels_OK_iff (elems : list ET.element) (rels0 : gmap string string) :
  is_OK (for_in elems rels_step rels0) ↔
  ∀ rel, rel ∈ elems → is_worksheet_rel rel = true →
         is_Some (ET.attrib rel !! "Id") ∧ is_Some (ET.attrib rel !! "Target").
Proof.
  revert rels0. induction elems as [|rel elems IH]; intros rels0; cbn [for_in].
  - split; [by intros _ ? ?%elem_of_nil | intros _; apply is_OK_OK].
  - pose proof (rels_step_OK rels0 rel) as Hstep.
    destruct (rels_step rels0 rel) as [rels1|e]; cbn [mbind result_bind].
    + rewrite IH. split.
      * intros Hrest r [->|?]%elem_of_cons; [apply Hstep, is_OK_OK | by apply Hrest].
      * intros Hall r ?. apply Hall. by right.
    + split; [by intros ?%not_is_OK_Raise|]. intros Hall.
      exfalso. apply (not_is_OK_Raise (A := gmap string string) e).
      apply Hstep, Hall. by left.
Qed.

(** X7: [_sheet_targets] returns exactly when the archive has the parts
    [xl/workbook.xml] and [xl/_rels/workbook.xml.rels], both parse, and
    every relationship of a worksheet has its [Id] and its [Target]; a
    sheet whose relationship is not declared is no failure. *)
Theorem sheet_targets_returns (zf : gmap string part) :
  is_OK (_sheet_targets zf) ↔
  ∃ workbook_xml rels_xml,
    zf !! "xl/workbook.xml" = Some (Document workbook_xml) ∧
    zf !! "xl/_rels/workbook.xml.rels" = Some (Document rels_xml) ∧
    rels_complete rels_xml.
Proof.
  unfold _sheet_targets, read_xml, rels_complete.
  destruct (zf !! "xl/workbook.xml") as [[|workbook_xml]|]; cbn [mbind result_bind].
  1, 3: split; [by intros ?%not_is_OK_Raise | by intros (? & ? & ? & _)].
  destruct (zf !! "xl/_rels/workbook.xml.rels") as [[|rels_xml]|]; cbn [mbind result_bind].
  1, 3: split; [by intros ?%not_is_OK_Raise | by intros (? & ? & _ & ? & _)].
  fold rels_step.
  pose proof (rels_OK_iff (ET.findall [qname PKG_REL_NS "Relationship"] rels_xml) ∅)
    as Hrels.
  destruct (for_in _ rels_step ∅) as [rels|e]; cbn [mbind result_bind].
  - split; [|intros _; apply is_OK_OK].
    intros _. exists workbook_xml, rels_xml. split; [done|]. split; [done|].
    apply Hrels, is_OK_OK.
  - split; [by intros ?%not_is_OK_Raise|].
    intros (? & rels_xml' & _ & ? & Hall). simplify_eq.
    by apply Hrels, not_is_OK_Raise in Hall.
Qed.

(** X8: the mapping that [_sheet_targets] returns has each sheet name
    once, every name is that of a sheet that the workbook declares with a
    relationship id, and no path starts with a slash. *)
Theorem sheet_targets_well_formed (zf : gmap string part) (sheet_targets : odict string) :
  _sheet_targets zf = OK sheet_targets →
  NoDup sheet_targets.*1 ∧
  ∀ name path, (name, path) ∈ sheet_targets →
    Str.startswith "/" path = false ∧
    ∃ workbook_xml rid,
      zf !! "xl/workbook.xml" = Some (Document workbook_xml) ∧
      (name, rid) ∈ declared_sheets workbook_xml.
Proof.
  unfold _sheet_targets. intros Hrun.
  apply bind_OK_inv in Hrun as (workbook_xml & Hworkbook & Hrun).
  apply bind_OK_inv in Hrun as (rels_xml & Hrels_xml & Hrun).
  apply bind_OK_inv in Hrun as (rels & Hrels & Hrun).
  fold (declared_sheets workbook_xml) in Hrun.
  assert (zf !! "xl/workbook.xml" = Some (Document workbook_xml)) as Hpart.
  { unfold read_xml in Hworkbook.
    destruct (zf !! "xl/workbook.xml") as [[|?]|]; by simplify_eq. }
  injection Hrun as <-.
  apply (foldl_invariant
           (λ t : odict string,
              NoDup t.*1 ∧
              ∀ name path, (name, path) ∈ t →
                Str.startswith "/" path = false ∧
                ∃ workbook_xml rid,
                  zf !! "xl/workbook.xml" = Some (Document workbook_xml) ∧
                  (name, rid) ∈ declared_sheets workbook_xml)).
  - split; [apply NoDup_nil_2 | by intros ? ? ?%elem_of_nil].
  - intros t [name rid] Hsheet [Hnodup Hall].
    destruct (rels !! rid) as [target|]; [|done].
    destruct (negb (Str.truthy target)); [done|].
    pose proof (part_of_target_relative target) as Hrel. unfold part_of_target in Hrel.
    match goal with
    | |- context [if ?b then _ else _] =>
        change b with (negb (Str.startswith "/" target))
    end.
    assert (∃ path, Str.startswith "/" path = false ∧
              (if negb (Str.startswith "/" target)
               then odict_set t name ("xl/" +:+ target)
               else odict_set t name (Str.lstrip_char "/" target))
              = odict_set t name path) as (path0 & Hpath0 & ->).
    { destruct (negb (Str.startswith "/" target)); eauto. }
    split; [by apply odict_set_NoDup|].
    intros name' path [[-> ->]|Hin]%odict_set_elem_of; [|by apply Hall].
    split; [done|]. by exists workbook_xml, rid.
Qed.

Lemma sheet_targets_well_formed_witness :
  _sheet_targets Example.package = OK Example.targets ∧
  NoDup Example.targets.*1 ∧
  ∀ name path, (name, path) ∈ Example.targets →
    Str.startswith "/" path = false ∧
    ∃ workbook_xml rid,
      Example.package !! "xl/workbook.xml" = Some (Document workbook_xml) ∧
      (name, rid) ∈ declared_sheets workbook_xml.
Proof.
  assert (_sheet_targets Example.package = OK Example.targets) as Htargets
    by (vm_compute; reflexivity).
  split; [exact Htargets|]. exact (sheet_targets_well_formed _ _ Htargets).
Defined.

(** ** Dates: the text of a date and its parser *)

(** A check that holds of every number below a bound holds of each. *)
Lemma all_below_spec (n : N) (P : Z → bool) :
  all_below n P = true → ∀ i, 0 ≤ i < Z.of_N n → P i = true.
Proof.
  unfold all_below.
  assert (∀ n, (N.iter n (λ '(ok, i), (ok && P i, i + 1)) (true, 0)).2 = Z.of_N n
               ∧ ((N.iter n (λ '(ok, i), (ok && P i, i + 1)) (true, 0)).1 = true →
                  ∀ i, 0 ≤ i < Z.of_N n → P i = true)) as Hiter.
  { clear n. induction n as [|n [IHi IHok]] using N.peano_ind.
    - split; [done|]. intros _ i Hi. lia.
    - rewrite N.iter_succ.
      destruct (N.iter n _ _) as [ok j]. cbn [fst snd] in *. subst j.
      split; [lia|]. intros [Hok HP]%andb_prop i Hi.
      destruct (decide (i = Z.of_N n)) as [->|Hne]; [done|]. apply IHok; [done|lia]. }
  apply Hiter.
Qed.

Lemma year_reads_back_all (y : Z) : 0 ≤ y ≤ 9999 → year_reads_back y = true.
Proof.
  intros Hy. apply (all_below_spec 10000 year_reads_back); [|lia].
  vm_compute; reflexivity.
Qed.

Lemma month_day_read_back_all (m d : Z) :
  1 ≤ m ≤ 12 → 1 ≤ d ≤ 31 →
  Strptime.first_month_day (Strptime.month_matches (Date.pad2 m +:+ "-" +:+ Date.pad2 d))
  = Some (m, d, EmptyString).
Proof.
  intros Hm Hd.
  assert (month_day_read_back (m * 32 + d) = true) as Hcheck.
  { apply (all_below_spec 416 month_day_read_back); [|lia]. vm_compute; reflexivity. }
  unfold month_day_read_back in Hcheck. cbv zeta in Hcheck.
  rewrite Z.div_add_l, Z.div_small, Z.add_0_r in Hcheck by lia.
  replace ((m * 32 + d) mod 32) with d in Hcheck
    by (rewrite Z.add_comm, Z.mod_add, Z.mod_small; lia).
  apply orb_prop in Hcheck as [Hcheck|Hcheck]; [|by apply bool_decide_eq_true in Hcheck].
  apply orb_prop in Hcheck as [Hcheck|Hcheck]; lia.
Qed.

Lemma days_in_month_bound (y m : Z) : Strptime._days_in_month y m ≤ 31.
Proof.
  unfold Strptime._days_in_month. destruct (_ && _); [lia|].
  unfold Date.table.
  destruct (Z.to_nat m) as [|[|[|[|[|[|[|[|[|[|[|[|[|[|?]]]]]]]]]]]]]]; cbn; lia.
Qed.

(** [strptime] reads the ISO text of a date back. *)
Lemma strptime_ymd_isoformat (d : Date.date) :
  Strptime.valid d = true →
  Strptime.strptime_ymd (Date.isoformat d) = Some d.
Proof.
  destruct d as [y m dd]. unfold Strptime.valid. cbn [Date.year Date.month Date.day].
  intros Hvalid.
  assert (1 ≤ y ≤ 9999 ∧ 1 ≤ m ≤ 12 ∧ 1 ≤ dd ≤ 31) as (Hy & Hm & Hd).
  { pose proof (days_in_month_bound y m). lia. }
  pose proof (year_reads_back_all y ltac:(lia)) as Hyear.
  pose proof (month_day_read_back_all m dd Hm Hd) as Hmd.
  unfold year_reads_back in Hyear.
  unfold Date.isoformat. cbn [Date.year Date.month Date.day].
  destruct (Date.pad4 y) as [|a [|b [|c [|e [|? ?]]]]] eqn:Hpad; try done.
  apply andb_prop in Hyear as [Hdigits Hvalue]. apply Z.eqb_eq in Hvalue.
  change (String a (String b (String c (String e ""))) +:+
            "-" +:+ Date.pad2 m +:+ "-" +:+ Date.pad2 dd)
    with (String a (String b (String c (String e (String "-"
            (Date.pad2 m +:+ "-" +:+ Date.pad2 dd)))))).
  cbn [Strptime.strptime_ymd].
  rewrite Hdigits. cbn [andb]. unfold Strptime.char_is at 1.
  rewrite bool_decide_eq_true_2 by done.
  rewrite Hmd, Hvalue. unfold Strptime.valid. cbn [Date.year Date.month Date.day].
  by rewrite Hvalid.
Qed.

Lemma coerce_date_param_strptime (d : Date.date) :
  coerce_date_param (Some (Date.isoformat d)) = Strptime.strptime_ymd (Date.isoformat d).
Proof.
  unfold coerce_date_param. destruct (isoformat_stripped d) as [Hne _].
  by apply truthy_true in Hne as ->.
Qed.

(** X9: [coerce_date_param] reads back the ISO text of every date of the
    calendar (year 1 to 9999, a month, a day of that month): the range
    that the dashboard prints with [isoformat] is the one it parses. *)
Theorem coerce_date_param_isoformat (d : Date.date) :
  Strptime.valid d = true →
  coerce_date_param (Some (Date.isoformat d)) = Some d.
Proof. intros Hvalid. rewrite coerce_date_param_strptime. by apply strptime_ymd_isoformat. Qed.

Lemma coerce_date_param_isoformat_witness :
  Strptime.valid (Date.mkdate 2024 2 29) = true ∧
  coerce_date_param (Some "2024-02-29") = Some (Date.mkdate 2024 2 29).
Proof.
  split; [reflexivity|].
  apply (coerce_date_param_isoformat (Date.mkdate 2024 2 29)). reflexivity.
Defined.

(** ** Dates: ordinals, over the 400-year cycle of the calendar *)

Lemma cycle_days_ok (r : Z) : 0 ≤ r < 146097 → cycle_day_ok r = true.
Proof.
  intros Hr. apply (all_below_spec 146097 cycle_day_ok); [|lia].
  vm_compute; reflexivity.
Qed.

Lemma is_leap_cycle (y q : Z) : Date._is_leap (y + 400 * q) = Date._is_leap y.
Proof.
  unfold Date._is_leap.
  replace (y + 400 * q) with (y + (100 * q) * 4) at 1 by lia.
  replace (y + 400 * q) with (y + (4 * q) * 100) at 1 by lia.
  replace (y + 400 * q) with (y + q * 400) by lia.
  by rewrite !Z.mod_add by lia.
Qed.

Lemma days_before_year_cycle (y q : Z) :
  Date._days_before_year (y + 400 * q) = Date._days_before_year y + 146097 * q.
Proof.
  unfold Date._days_before_year. cbv zeta.
  replace ((y + 400 * q - 1) / 4) with ((y - 1 + (100 * q) * 4) / 4) by (f_equal; lia).
  replace ((y + 400 * q - 1) / 100) with ((y - 1 + (4 * q) * 100) / 100) by (f_equal; lia).
  replace ((y + 400 * q - 1) / 400) with ((y - 1 + q * 400) / 400) by (f_equal; lia).
  rewrite !Z.div_add by lia. lia.
Qed.

Lemma days_in_month_cycle (y q m : Z) :
  Strptime._days_in_month (y + 400 * q) m = Strptime._days_in_month y m.
Proof. unfold Strptime._days_in_month. by rewrite is_leap_cycle. Qed.

Lemma ymd2ord_cycle (y q m d : Z) :
  Date._ymd2ord (y + 400 * q) m d = Date._ymd2ord y m d + 146097 * q.
Proof.
  unfold Date._ymd2ord, Date._days_before_month.
  rewrite is_leap_cycle, days_before_year_cycle. lia.
Qed.

Lemma ord2ymd_cycle (q r : Z) :
  0 ≤ r < 146097 →
  Date._ord2ymd (146097 * q + r + 1) =
  let d := Date._ord2ymd (r + 1) in
  Date.mkdate (Date.year d + 400 * q) (Date.month d) (Date.day d).
Proof.
  intros Hr. unfold Date._ord2ymd. cbv zeta.
  change Date._DI400Y with 146097.
  replace (146097 * q + r + 1 - 1) with (r + q * 146097) by lia.
  replace (r + 1 - 1) with r by lia.
  rewrite Z.div_add, Z.mod_add by lia.
  rewrite (Z.div_small r 146097), (Z.mod_small r 146097) by lia.
  repeat match goal with
         | |- context [if ?b then _ else _] => destruct b
         end; cbn [Date.year Date.month Date.day]; f_equal; lia.
Qed.

(** The date of an ordinal exists, and its ordinal is the one it was made
    from. *)
Lemma ord2ymd_valid (n : Z) :
  1 ≤ n ≤ Date._MAXORDINAL →
  Strptime.valid (Date._ord2ymd n) = true ∧ Date.toordinal (Date._ord2ymd n) = n.
Proof.
  unfold Date._MAXORDINAL. intros Hn.
  pose proof (Z.div_mod (n - 1) 146097 ltac:(lia)) as Hdiv.
  pose proof (Z.mod_pos_bound (n - 1) 146097 ltac:(lia)) as Hr.
  set (q := (n - 1) / 146097) in *. set (r := (n - 1) mod 146097) in *.
  assert (0 ≤ q ≤ 24) as Hq by lia.
  replace n with (146097 * q + r + 1) by lia.
  rewrite ord2ymd_cycle by done. cbv zeta.
  pose proof (cycle_days_ok r Hr) as Hok. unfold cycle_day_ok in Hok. cbv zeta in Hok.
  destruct (Date._ord2ymd (r + 1)) as [y m d]. cbn [Date.year Date.month Date.day] in *.
  unfold Strptime.valid, Date.toordinal. cbn [Date.year Date.month Date.day].
  rewrite days_in_month_cycle, ymd2ord_cycle.
  unfold Date.toordinal in Hok. cbn [Date.year Date.month Date.day] in Hok.
  repeat (apply andb_prop in Hok as [Hok ?]).
  split; [|lia].
  repeat (apply andb_true_intro; split); lia.
Qed.

(** X10: when [excel_serial_to_iso] returns a text, that text is the ISO
    form of a date that [coerce_date_param] reads back, the date is the
    one [days] days after 1899-12-30, where [days] is the integer part of
    the serial, and [days] lies between -693593 (0001-01-01) and 2958465
    (9999-12-31). *)
Theorem serial_date_reads_back (value iso : string) :
  excel_serial_to_iso (Some value) = OK (Some iso) →
  ∃ serial days d,
    Num.float_of_str (Str.strip value) = OK serial ∧
    Num.int_of_float serial = OK days ∧
    -693593 ≤ days ≤ 2958465 ∧
    coerce_date_param (Some iso) = Some d ∧
    Date.toordinal d = Date.toordinal BASE_DATE + days ∧
    Date.isoformat d = iso.
Proof.
  unfold excel_serial_to_iso.
  destruct (negb _); [done|].
  destruct (Num.float_of_str _) as [serial|[]]; try done.
  destruct (Num.int_of_float serial) as [days|] eqn:Hdays; [|done].
  cbn [mbind result_bind]. unfold Date.timedelta.
  destruct (_ && _); cbn [mbind result_bind]; [|done].
  unfold Date.add.
  change (Date.toordinal BASE_DATE) with 693594.
  destruct ((0 <? 693594 + days) && (693594 + days <=? Date._MAXORDINAL)) eqn:Hrange;
    [|done].
  apply andb_prop in Hrange as [Hlo Hhi]. intros [= <-].
  assert (1 ≤ 693594 + days ≤ Date._MAXORDINAL) as Hn by lia.
  destruct (ord2ymd_valid _ Hn) as [Hvalid Hord].
  exists serial, days, (Date._ord2ymd (693594 + days)).
  repeat split; try done; [unfold Date._MAXORDINAL in *; lia..|].
  rewrite coerce_date_param_strptime. by apply strptime_ymd_isoformat.
Qed.

Lemma serial_date_reads_back_witness :
  excel_serial_to_iso (Some " 45000.75 ") = OK (Some "2023-03-15") ∧
  ∃ serial days d,
    Num.float_of_str (Str.strip " 45000.75 ") = OK serial ∧
    Num.int_of_float serial = OK days ∧
    -693593 ≤ days ≤ 2958465 ∧
    coerce_date_param (Some "2023-03-15") = Some d ∧
    Date.toordinal d = Date.toordinal BASE_DATE + days ∧
    Date.isoformat d = "2023-03-15".
Proof.
  assert (excel_serial_to_iso (Some " 45000.75 ") = OK (Some "2023-03-15")) as Hiso
    by (vm_compute; reflexivity).
  split; [exact Hiso|]. exact (serial_date_reads_back _ _ Hiso).
Defined.

(** ** The database layer: cleaned records *)

Lemma strip_nil : Str.strip "" = "".
Proof. done. Qed.

Lemma clean_value_stored (value : pyval) : stored_value (Database.clean_value value).
Proof.
  destruct value as [|s|n]; cbn; [done| |done].
  destruct (Str.truthy (Str.strip s)) eqn:Htext; [|done]. cbn.
  split; [by apply truthy_true | apply strip_idemp].
Qed.

Lemma clean_value_fixed (value : pyval) :
  stored_value value → Database.clean_value value = value.
Proof.
  destruct value as [|s|n]; cbn; [done| |done].
  intros [Hs ->]. by apply truthy_true in Hs as ->.
Qed.

Lemma clean_record_fold (record acc : gmap string pyval) (keys : list string) (k : string) :
  foldl (λ (cleaned : gmap string pyval) key,
           match record !! key with
           | None => cleaned
           | Some value => <[key := Database.clean_value value]> cleaned
           end) acc keys !! k
  = match (if bool_decide (k ∈ keys) then record !! k else None) with
    | Some value => Some (Database.clean_value value)
    | None => acc !! k
    end.
Proof.
  revert acc. induction keys as [|key keys IH]; intros acc; cbn [foldl]; [done|].
  rewrite IH. destruct (decide (k ∈ keys)) as [Hin|Hin].
  - rewrite !bool_decide_eq_true_2 by (done || by right).
    destruct (record !! k) eqn:Hk; [done|].
    destruct (record !! key) eqn:Hkey; [|done].
    rewrite lookup_insert_ne; [done|]. intros ->. congruence.
  - rewrite (bool_decide_eq_false_2 _ Hin).
    destruct (decide (k = key)) as [->|Hne].
    + rewrite bool_decide_eq_true_2 by left.
      destruct (record !! key); [by rewrite lookup_insert_eq | done].
    + rewrite bool_decide_eq_false_2 by (intros [?|?]%elem_of_cons; done).
      destruct (record !! key); [by rewrite lookup_insert_ne | done].
Qed.

(** The cleaned record has the columns of the record that the table has,
    each with its value cleaned. *)
Lemma clean_record_lookup (record : gmap string pyval) (k : string) :
  Database.clean_record record !! k =
  if bool_decide (k ∈ Database.TAG_COLUMNS)
  then Database.clean_value <$> record !! k else None.
Proof.
  unfold Database.clean_record. rewrite clean_record_fold.
  destruct (bool_decide _); [|done]. by destruct (record !! k).
Qed.

Lemma stripped_text_clean (record : gmap string pyval) (k : string) :
  k ∈ Database.TAG_COLUMNS →
  Database.stripped_text (Database.clean_record record) k = Database.stripped_text record k.
Proof.
  intros Hk. unfold Database.stripped_text.
  rewrite clean_record_lookup, bool_decide_eq_true_2 by done.
  destruct (record !! k) as [[|s|n]|]; cbn; try done.
  destruct (Str.truthy (Str.strip s)) eqn:Htext.
  - rewrite Htext, strip_idemp. by destruct s.
  - apply truthy_false in Htext. destruct s; [done|]. cbn [Str.truthy]. by rewrite Htext.
Qed.

(** X11: cleaning a record twice is cleaning it once, and a record counts
    as closed exactly when its cleaned form does: [seed_from_excel] may
    set [is_closed] before it cleans. *)
Theorem clean_record_idempotent (record : gmap string pyval) :
  Database.clean_record (Database.clean_record record) = Database.clean_record record
  ∧ Database.determine_is_closed (Database.clean_record record)
    = Database.determine_is_closed record.
Proof.
  split.
  - apply map_eq. intros k. rewrite !clean_record_lookup.
    destruct (bool_decide _); [|done].
    destruct (record !! k) as [value|]; [|done]. cbn.
    f_equal. apply clean_value_fixed, clean_value_stored.
  - unfold Database.determine_is_closed.
    rewrite !stripped_text_clean; [done|..]; vm_compute; set_solver.
Qed.

(** X12: [clean_record] keeps the columns of the table only; what it
    stores under a column is the cleaned value of the record, which is
    never a string that is empty or has white space at an end. *)
Theorem clean_record_values (record : gmap string pyval) (k : string) (value : pyval) :
  Database.clean_record record !! k = Some value →
  k ∈ Database.TAG_COLUMNS ∧ stored_value value ∧
  ∃ value0, record !! k = Some value0 ∧ value = Database.clean_value value0.
Proof.
  rewrite clean_record_lookup.
  destruct (bool_decide_reflect (k ∈ Database.TAG_COLUMNS)) as [Hk|]; [|done].
  destruct (record !! k) as [value0|]; [|done]. intros [= <-].
  split; [done|]. split; [apply clean_value_stored | by exists value0].
Qed.

Lemma clean_record_values_witness :
  Database.clean_record {[ "closed_by" := PStr " Ann "; "shift" := PStr "2" ]} !! "closed_by"
  = Some (PStr "Ann") ∧
  "closed_by" ∈ Database.TAG_COLUMNS ∧ stored_value (PStr "Ann") ∧
  ∃ value0,
    ({[ "closed_by" := PStr " Ann "; "shift" := PStr "2" ]} : gmap string pyval) !! "closed_by"
    = Some value0 ∧
    PStr "Ann" = Database.clean_value value0.
Proof.
  assert (Database.clean_record {[ "closed_by" := PStr " Ann "; "shift" := PStr "2" ]}
          !! "closed_by" = Some (PStr "Ann")) as Hclean by (vm_compute; reflexivity).
  split; [exact Hclean|]. exact (clean_record_values _ _ _ Hclean).
Defined.

(** ** The database layer: the statements *)

Lemma statement_pairs (d : gmap string pyval) (columns : list string) (col : string)
    (v : pyval) :
  (∀ c, c ∈ columns → is_Some (d !! c)) →
  length (Database.values_of d columns) = length columns ∧
  ((col, v) ∈ zip columns (Database.values_of d columns) ↔ col ∈ columns ∧ d !! col = Some v).
Proof.
  unfold Database.values_of.
  induction columns as [|c columns IH]; intros Hall; cbn [omap list_omap zip zip_with].
  - split; [done|]. rewrite elem_of_nil. split; [done|]. by intros [?%elem_of_nil _].
  - destruct (Hall c) as [vc Hvc]; [by left|]. rewrite Hvc. cbn [zip_with length].
    destruct IH as [IHlen IH]; [intros ? ?; apply Hall; by right|].
    split; [by rewrite IHlen|].
    rewrite !elem_of_cons, IH. split.
    + intros [[= -> ->]|[? ?]]; [by split; [left|] | by split; [right|]].
    + intros [[->|Hin] Hv]; [left; congruence | by right].
Qed.

Lemma columns_of_spec (d : gmap string pyval) (col : string) :
  col ∈ Database.columns_of d ↔ col ∈ Database.TAG_COLUMNS ∧ is_Some (d !! col).
Proof. unfold Database.columns_of. rewrite list_elem_of_filter. tauto. Qed.

Lemma TAG_COLUMNS_NoDup : NoDup Database.TAG_COLUMNS.
Proof. apply (bool_decide_unpack _). vm_compute; reflexivity. Qed.

Lemma columns_of_NoDup (d : gmap string pyval) : NoDup (Database.columns_of d).
Proof. apply NoDup_filter, TAG_COLUMNS_NoDup. Qed.

(** The columns and the values of a statement are those of the
    dictionary that the table has. *)
Lemma statement_of (d : gmap string pyval) (col : string) (v : pyval) :
  length (Database.values_of d (Database.columns_of d)) = length (Database.columns_of d) ∧
  ((col, v) ∈ zip (Database.columns_of d) (Database.values_of d (Database.columns_of d))
   ↔ col ∈ Database.TAG_COLUMNS ∧ d !! col = Some v).
Proof.
  destruct (statement_pairs d (Database.columns_of d) col v) as [Hlen Hpairs].
  { by intros c [_ ?]%columns_of_spec. }
  split; [done|]. rewrite Hpairs, columns_of_spec. split; [tauto|].
  intros [? Hv]. rewrite Hv. eauto.
Qed.

Lemma FIELD_MAP_columns (column field : string) :
  FIELD_MAP !! column = Some field →
  field ∈ Database.TAG_COLUMNS ∧ field ∉ ["created_at"; "updated_at"; "is_closed"].
Proof.
  revert column field. apply map_Forall_lookup.
  apply (bool_decide_unpack _). vm_compute; reflexivity.
Qed.

Lemma stripped_text_of_strings (record : gmap string string) (key : string) :
  Database.stripped_text (PStr <$> record) key
  = Returns (Str.strip (default "" (record !! key))).
Proof.
  unfold Database.stripped_text. rewrite lookup_fmap.
  destruct (record !! key) as [s|]; cbn; [|done]. by destruct s.
Qed.

Lemma determine_is_closed_of_strings (record : gmap string string) :
  Database.determine_is_closed (PStr <$> record)
  = Returns (if closed_text record then 1 else 0).
Proof.
  unfold Database.determine_is_closed, closed_text.
  rewrite !stripped_text_of_strings.
  destruct (Str.truthy _); [done|]. cbn [orb].
  set (complete := Str.lower _).
  destruct (bool_decide_reflect
              (complete ∈ ({[ "yes"; "y"; "true"; "closed"; "complete" ]} : gset string)))
    as [Hin|Hout].
  - rewrite bool_decide_eq_true_2; [done|]. set_solver.
  - destruct (bool_decide_reflect
                (complete ∈ ({[ "1"; "closed"; "done" ]} : gset string))) as [Hin'|Hout'].
    + rewrite bool_decide_eq_true_2; [done|]. set_solver.
    + rewrite bool_decide_eq_false_2; [done|]. set_solver.
Qed.

Lemma determine_is_closed_reads (d d' : gmap string pyval) :
  d' !! "closed_date" = d !! "closed_date" →
  d' !! "complete" = d !! "complete" →
  Database.determine_is_closed d' = Database.determine_is_closed d.
Proof.
  intros Hclosed Hcomplete. unfold Database.determine_is_closed, Database.stripped_text.
  by rewrite Hclosed, Hcomplete.
Qed.

(** What [seed_from_excel] inserts for a record whose fields are those of
    the loader. *)
Lemma seed_statement_of_fields (now : string) (record : gmap string string) :
  fields_ok record → now ≠ "" → Str.strip now = now →
  ∃ columns values,
    let is_closed := if closed_text record then 1 else 0 in
    Database.seed_statement now (PStr <$> record) = Returns (columns, values) ∧
    length values = length columns ∧ NoDup columns ∧
    ∀ col v, (col, v) ∈ zip columns values ↔ seeded now is_closed record !! col = Some v.
Proof.
  intros Hfields Hnow Hstripped. cbv zeta.
  assert (∀ k, k ∈ ["created_at"; "updated_at"; "is_closed"] →
               (PStr <$> record : gmap string pyval) !! k = None) as Hfresh.
  { intros k Hk. rewrite lookup_fmap. destruct (record !! k) as [v|] eqn:Hv; [|done].
    destruct (Hfields k v Hv) as [[column Hcolumn] _].
    by destruct (FIELD_MAP_columns _ _ Hcolumn) as [_ []]. }
  assert (Database.setdefault "created_at" (PStr now) (PStr <$> record)
          = <["created_at" := PStr now]> (PStr <$> record)) as Hcreated.
  { unfold Database.setdefault. rewrite Hfresh; [done | set_solver]. }
  assert (Database.setdefault "updated_at" (PStr now)
            (<["created_at" := PStr now]> (PStr <$> record))
          = <["updated_at" := PStr now]> (<["created_at" := PStr now]> (PStr <$> record)))
    as Hupdated.
  { unfold Database.setdefault. rewrite lookup_insert_ne, Hfresh; [done | set_solver | done]. }
  unfold Database.seed_statement. cbv zeta. rewrite Hcreated, Hupdated.
  rewrite (determine_is_closed_reads (PStr <$> record))
    by (by rewrite !lookup_insert_ne).
  rewrite determine_is_closed_of_strings. cbv beta iota zeta.
  fold (seeded now (if closed_text record then 1 else 0) record).
  set (d := seeded now _ record).
  assert (∀ k v, d !! k = Some v → k ∈ Database.TAG_COLUMNS ∧ stored_value v) as Hd.
  { intros k v. unfold d, seeded.
    rewrite !lookup_insert_Some, lookup_fmap_Some.
    intros [[<- <-]|[_ [[<- <-]|[_ [[<- <-]|[_ (s & <- & Hs)]]]]]].
    1-3: split; [vm_compute; set_solver | done].
    destruct (Hfields k s Hs) as ([column Hcolumn] & ? & ?).
    by destruct (FIELD_MAP_columns _ _ Hcolumn). }
  assert (Database.clean_record d = d) as ->.
  { apply map_eq. intros k. rewrite clean_record_lookup.
    destruct (d !! k) as [v|] eqn:Hv; [|by destruct (bool_decide _)].
    destruct (Hd k v Hv) as [Hk Hstored].
    rewrite bool_decide_eq_true_2 by done. cbn. f_equal. by apply clean_value_fixed. }
  eexists _, _. split; [done|].
  split; [apply (statement_of d "" PNone)|]. split; [apply columns_of_NoDup|].
  intros col v. destruct (statement_of d col v) as [_ ->].
  split; [tauto|]. intros Hv. split; [|done]. by destruct (Hd col v Hv).
Qed.

Lemma read_log_records_fields
    (zf : gmap string part) (shared_strings : list string) (path : string)
    (recs : list (gmap string string)) :
  _read_log_records zf shared_strings path = OK recs → Forall fields_ok recs.
Proof.
  unfold _read_log_records. intros (sheet & _ & Hrows)%bind_OK_inv.
  assert (Forall (λ record, record ≠ ∅ ∧ fields_ok record) recs) as Hall.
  { revert Hrows. apply for_in_invariant; [|constructor].
    intros records row records' _ Hrecords Hrow. by eapply log_row_fields_ok. }
  eapply Forall_impl; [exact Hall|]. by intros ? [_ ?].
Qed.

(** X13: for every record that [load] returns, [seed_from_excel] builds
    an insertion (at a time stamp [now] that is stripped text) without an
    exception, with as many values as columns and no column twice, and
    the pairs of a column and its value are exactly the fields of the
    record, unchanged, with [created_at] and [updated_at] at [now] and
    [is_closed] at 1 when the record has a closed date or a [complete]
    text that says so, and at 0 otherwise. *)
Theorem seed_statement_of_loaded_record
    (zf : gmap string part) (data : ExcelData) (record : gmap string string)
    (now : string) :
  load zf = OK data → record ∈ records data → now ≠ "" → Str.strip now = now →
  ∃ columns values,
    let is_closed := if closed_text record then 1 else 0 in
    Database.seed_statement now (PStr <$> record) = Returns (columns, values) ∧
    length values = length columns ∧ NoDup columns ∧
    ∀ col v, (col, v) ∈ zip columns values ↔ seeded now is_closed record !! col = Some v.
Proof.
  intros (ss & targets & log_path & dd_path & _ & _ & _ & _ & Hrecords & _)%load_OK_inv
         Hrecord Hnow Hstripped.
  apply read_log_records_fields in Hrecords. rewrite Forall_forall in Hrecords.
  by apply seed_statement_of_fields; [apply Hrecords|..].
Qed.

Lemma seed_statement_of_loaded_record_witness :
  load Example.package = OK (mkExcelData Example.log_records Example.dropdown_lists) ∧
  ∃ columns values,
    let record : gmap string string := list_to_map [("date_authorized", "1899-12-31")] in
    Database.seed_statement "2025-01-01T00:00:00" (PStr <$> record)
    = Returns (columns, values) ∧
    length values = length columns ∧ NoDup columns ∧
    ∀ col v, (col, v) ∈ zip columns values
             ↔ seeded "2025-01-01T00:00:00" (if closed_text record then 1 else 0) record
               !! col = Some v.
Proof.
  assert (load Example.package = OK (mkExcelData Example.log_records Example.dropdown_lists))
    as Hload by (vm_compute; reflexivity).
  split; [exact Hload|].
  apply (seed_statement_of_loaded_record Example.package _
           (list_to_map [("date_authorized", "1899-12-31")]) "2025-01-01T00:00:00" Hload).
  - right. left.
  - discriminate.
  - reflexivity.
Defined.

(** X14: the update that [update_tag] builds always assigns [updated_at]
    (the time stamp [now]) and [is_closed], so the return of the function
    on an empty list of assignments is never taken; and the function
    raises only on a [closed_date] or [complete] that is an integer other
    than 0. *)
Theorem update_statement_never_empty (now : string) (data : gmap string pyval) :
  match Database.update_statement now data with
  | Returns None => False
  | Returns (Some (columns, values)) =>
      "updated_at" ∈ columns ∧ "is_closed" ∈ columns ∧
      length values = length columns ∧ (("updated_at", PStr now) ∈ zip columns values)
  | AttributeError =>
      ∃ n, n ≠ 0 ∧ (data !! "closed_date" = Some (PInt n) ∨ data !! "complete" = Some (PInt n))
  end.
Proof.
  unfold Database.update_statement.
  rewrite (determine_is_closed_reads data) by (by rewrite lookup_insert_ne).
  destruct (Database.determine_is_closed data) as [is_closed|] eqn:Hclosed.
  - set (d := <["is_closed" := PInt is_closed]> (<["updated_at" := PStr now]> data)).
    assert ("updated_at" ∈ Database.columns_of d ∧ "is_closed" ∈ Database.columns_of d)
      as [Hupdated His_closed].
    { rewrite !columns_of_spec. unfold d.
      rewrite lookup_insert_eq, lookup_insert_ne, lookup_insert_eq by done.
      repeat split; try (vm_compute; set_solver); eauto. }
    destruct (Database.columns_of d) as [|c cs] eqn:Hcolumns; [by apply elem_of_nil in Hupdated|].
    rewrite <- Hcolumns in *. split; [done|]. split; [done|].
    split; [apply (statement_of d "" PNone)|].
    apply statement_of. split; [vm_compute; set_solver|].
    unfold d. by rewrite lookup_insert_ne, lookup_insert_eq.
  - unfold Database.determine_is_closed, Database.stripped_text in Hclosed.
    destruct (data !! "closed_date") as [[|s|n]|] eqn:Hdate;
      destruct (data !! "complete") as [[|s'|n']|] eqn:Hcomplete;
      repeat match type of Hclosed with
             | context [if ?b then _ else _] => destruct b eqn:?
             end; try done.
    all: try (exists n; split; [lia | by left]).
    all: try (exists n'; split; [lia | by right]).
Qed.

(** ** The forms *)

Lemma strip_or_none_stored (value : string) : stored_value (App.strip_or_none value).
Proof.
  unfold App.strip_or_none. cbv zeta.
  destruct (Str.truthy (Str.strip value)) eqn:Htext; [|done]. cbn.
  split; [by apply truthy_true | apply strip_idemp].
Qed.

Lemma normalized_stored (form : gmap string string) (name : string) :
  stored_value (App.normalized form name).
Proof.
  unfold App.normalized. cbv zeta.
  destruct (_ && _).
  - pose proof (strip_or_none_stored (default "" (form !! (name +:+ "_other")))) as Hcustom.
    destruct (App.strip_or_none (default "" _)) as [|custom|]; try done.
    apply strip_or_none_stored.
  - destruct (form !! name); [apply strip_or_none_stored | done].
Qed.

Lemma first_loop_lookup (form : gmap string string) (fields : list App.field)
    (data : gmap string pyval) (k : string) :
  foldl (λ (data : gmap string pyval) f,
           <[App.name f := App.normalized form (App.name f)]> data) data fields !! k
  = if bool_decide (k ∈ App.name <$> fields) then Some (App.normalized form k) else data !! k.
Proof.
  revert data. induction fields as [|f fields IH]; intros data; cbn [foldl]; [done|].
  rewrite IH, fmap_cons. destruct (decide (k ∈ App.name <$> fields)) as [Hin|Hin].
  - by rewrite !bool_decide_eq_true_2 by (done || by right).
  - rewrite (bool_decide_eq_false_2 _ Hin).
    destruct (decide (k = App.name f)) as [->|Hne].
    + by rewrite lookup_insert_eq, bool_decide_eq_true_2 by left.
    + rewrite lookup_insert_ne by done.
      by rewrite bool_decide_eq_false_2 by (intros [?|?]%elem_of_cons; done).
Qed.

Lemma date_loop_fixed (data : gmap string pyval) (names : list string) :
  (∀ name, name ∈ names → ∃ v, data !! name = Some v ∧ stored_value v) →
  foldl (λ (data : gmap string pyval) name,
           match data !! name with
           | None | Some PNone | Some (PStr EmptyString) => <[name := PNone]> data
           | Some _ => data
           end) data names = data.
Proof.
  induction names as [|name names IH]; intros Hall; cbn [foldl]; [done|].
  destruct (Hall name) as (v & Hv & Hstored); [left|].
  rewrite Hv. destruct v as [|[|c s]|n].
  - rewrite insert_id by done. apply IH. intros ? ?. apply Hall. by right.
  - by destruct Hstored.
  - apply IH. intros ? ?. apply Hall. by right.
  - apply IH. intros ? ?. apply Hall. by right.
Qed.

Lemma DATE_FIELDS_names (name : string) :
  name ∈ elements App.DATE_FIELDS → name ∈ FIELD_NAMES.
Proof.
  rewrite elem_of_elements. unfold App.DATE_FIELDS. rewrite elem_of_list_to_set.
  intros (f & -> & [_ Hf]%list_elem_of_filter)%list_elem_of_fmap.
  by apply list_elem_of_fmap_2.
Qed.

Lemma normalize_form_data_lookup (form : gmap string string) (k : string) :
  App.normalize_form_data form !! k
  = if bool_decide (k ∈ FIELD_NAMES) then Some (App.normalized form k) else None.
Proof.
  unfold App.normalize_form_data. cbv zeta.
  rewrite date_loop_fixed.
  - by rewrite first_loop_lookup, lookup_empty.
  - intros name Hname%DATE_FIELDS_names. exists (App.normalized form name).
    rewrite first_loop_lookup. fold FIELD_NAMES.
    rewrite bool_decide_eq_true_2 by done. split; [done | apply normalized_stored].
Qed.

(** X15: the dictionary of [normalize_form_data] has the fields of the
    form as its keys, whatever the form sent; the value of a field is what
    the first loop stores for it, and that is [None] or a string that is
    not empty and has no white space at its ends, so the loop over the
    date fields changes nothing. *)
Theorem normalize_form_data_fields (form : gmap string string) (k : string) :
  App.normalize_form_data form !! k
  = (if bool_decide (k ∈ FIELD_NAMES) then Some (App.normalized form k) else None)
  ∧ stored_value (App.normalized form k).
Proof. split; [apply normalize_form_data_lookup | apply normalized_stored]. Qed.

(** X16: a tag that comes from the form counts as closed exactly when its
    closed date is not blank: the form has no [complete] field, so the
    second test of [determine_is_closed] never holds of it. *)
Theorem form_is_closed (form : gmap string string) :
  Database.determine_is_closed (App.normalize_form_data form)
  = Returns (if Str.truthy (Str.strip (default "" (form !! "closed_date"))) then 1 else 0).
Proof.
  unfold Database.determine_is_closed, Database.stripped_text.
  rewrite !normalize_form_data_lookup.
  assert (bool_decide ("closed_date" ∈ FIELD_NAMES) = true) as -> by (vm_compute; reflexivity).
  assert (bool_decide ("complete" ∈ FIELD_NAMES) = false) as -> by (vm_compute; reflexivity).
  unfold App.normalized. cbv zeta.
  destruct (bool_decide ("closed_date" ∈ App.SELECT_FIELDS)) eqn:Hselect;
    [vm_compute in Hselect; discriminate|].
  cbn [andb]. destruct (form !! "closed_date") as [value|]; cbn [default];
    [|vm_compute; reflexivity].
  unfold App.strip_or_none. cbv zeta.
  destruct (Str.truthy (Str.strip value)) eqn:Htext.
  - unfold id. by rewrite Htext, strip_idemp, Htext.
  - unfold id. rewrite Htext. vm_compute; reflexivity.
Qed.

Lemma context_fold_raised (dropdown_options : gmap string (list string))
    (record : gmap string pyval) (fields : list string) :
  foldl (context_step dropdown_options record) AttributeError fields = AttributeError.
Proof. by induction fields. Qed.

Lemma context_step_inv (dropdown_options : gmap string (list string))
    (record : gmap string pyval) (fields : list string)
    (sv0 ov0 sv ov : gmap string string) (g : string) :
  foldl (context_step dropdown_options record)
        (context_step dropdown_options record (Returns (sv0, ov0)) g) fields
  = Returns (sv, ov) →
  ∃ current sv1 ov1,
    Database.stripped_text record g = Returns current ∧
    foldl (context_step dropdown_options record) (Returns (sv1, ov1)) fields = Returns (sv, ov) ∧
    (∀ f, f ≠ g → sv1 !! f = sv0 !! f ∧ ov1 !! f = ov0 !! f) ∧
    if Str.truthy current && negb (bool_decide (current ∈ default [] (dropdown_options !! g)))
    then sv1 !! g = Some "__other__" ∧ ov1 !! g = Some current
    else sv1 !! g = Some current ∧ ov1 !! g = ov0 !! g.
Proof.
  unfold context_step at 2.
  destruct (Database.stripped_text record g) as [current|];
    [|by rewrite context_fold_raised].
  cbv zeta. intros Hrun. exists current.
  destruct (Str.truthy current && _); eexists _, _; (split; [done|]); (split; [exact Hrun|]).
  - split; [|by rewrite !lookup_insert_eq].
    intros f Hf. by rewrite !lookup_insert_ne.
  - split; [|by rewrite !lookup_insert_eq].
    intros f Hf. by rewrite !lookup_insert_ne.
Qed.

Lemma context_fold_frame (dropdown_options : gmap string (list string))
    (record : gmap string pyval) (fields : list string)
    (sv0 ov0 sv ov : gmap string string) (f : string) :
  foldl (context_step dropdown_options record) (Returns (sv0, ov0)) fields = Returns (sv, ov) →
  f ∉ fields → sv !! f = sv0 !! f ∧ ov !! f = ov0 !! f.
Proof.
  revert sv0 ov0. induction fields as [|g fields IH]; intros sv0 ov0; cbn [foldl].
  { by intros [= -> ->] _. }
  intros (current & sv1 & ov1 & _ & Hrun & Hframe & _)%context_step_inv
         [Hne Hout]%not_elem_of_cons.
  destruct (IH _ _ Hrun Hout) as [-> ->]. by apply Hframe.
Qed.

Lemma context_fold (dropdown_options : gmap string (list string))
    (record : gmap string pyval) (fields : list string)
    (sv0 ov0 sv ov : gmap string string) (f : string) :
  NoDup fields →
  foldl (context_step dropdown_options record) (Returns (sv0, ov0)) fields = Returns (sv, ov) →
  f ∈ fields →
  ∃ current,
    Database.stripped_text record f = Returns current ∧
    if Str.truthy current && negb (bool_decide (current ∈ default [] (dropdown_options !! f)))
    then sv !! f = Some "__other__" ∧ ov !! f = Some current
    else sv !! f = Some current ∧ ov !! f = ov0 !! f.
Proof.
  revert sv0 ov0. induction fields as [|g fields IH]; intros sv0 ov0; cbn [foldl].
  { by intros _ _ ?%elem_of_nil. }
  intros [Hg Hfields]%NoDup_cons
         (current & sv1 & ov1 & Hcurrent & Hrun & Hframe & Hstep)%context_step_inv
         [->|Hin]%elem_of_cons.
  - exists current. split; [done|].
    by destruct (context_fold_frame _ _ _ _ _ _ _ g Hrun Hg) as [-> ->].
  - destruct (IH _ _ Hfields Hrun Hin) as (c & Hc & Hlookup). exists c. split; [done|].
    destruct (Str.truthy c && _); [done|].
    destruct Hlookup as [? ->]. split; [done|]. apply Hframe. by intros ->.
Qed.

(** X17: [normalize_form_data] undoes [prepare_form_context]: when a form
    sends back, for a select field, the selection and the other value
    that [prepare_form_context] made of a record, and no option of the
    field is the text [__other__], the field is normalized to the
    stripped text of the record, or to [None] when that is empty. *)
Theorem form_context_round_trip (dropdown_options : gmap string (list string))
    (record : gmap string pyval) (select_values other_values : gmap string string)
    (form : gmap string string) (f : string) :
  App.prepare_form_context dropdown_options record = Returns (select_values, other_values) →
  f ∈ App.SELECT_FIELDS →
  "__other__" ∉ default [] (dropdown_options !! f) →
  form !! f = select_values !! f →
  form !! (f +:+ "_other") = other_values !! f →
  ∃ current,
    Database.stripped_text record f = Returns current ∧
    App.normalized form f = App.strip_or_none current.
Proof.
  intros Hcontext Hf Hoption Hselect Hother.
  destruct (context_fold dropdown_options record (elements App.SELECT_FIELDS)
              ∅ ∅ select_values other_values f) as (current & Hcurrent & Hlookup).
  { apply NoDup_elements. }
  { exact Hcontext. }
  { apply elem_of_elements, Hf. }
  exists current. split; [done|].
  assert (Str.strip current = current) as Hstripped.
  { assert (∃ x, current = Str.strip x) as [x ->]; [|apply strip_idemp].
    unfold Database.stripped_text in Hcurrent.
    destruct (record !! f) as [[|s|n]|].
    - injection Hcurrent as <-. by eexists.
    - injection Hcurrent as <-. by eexists.
    - destruct (n =? 0); [|discriminate]. injection Hcurrent as <-. by eexists.
    - injection Hcurrent as <-. by eexists. }
  unfold App.normalized. cbv zeta.
  rewrite (bool_decide_eq_true_2 _ Hf). cbn [andb].
  destruct (Str.truthy current && _) eqn:Hcase.
  - destruct Hlookup as [Hsv Hov]. rewrite Hselect, Hsv, Hother, Hov.
    rewrite bool_decide_eq_true_2 by done. cbn [default].
    apply andb_prop in Hcase as [Htruthy _].
    unfold App.strip_or_none, id. cbv zeta. rewrite Hstripped, Htruthy.
    by rewrite Hstripped, Htruthy.
  - destruct Hlookup as [Hsv Hov]. rewrite Hselect, Hsv.
    rewrite bool_decide_eq_false_2; [done|]. intros [= ->].
    apply andb_false_iff in Hcase as [Hcase|Hcase]; [done|].
    apply negb_false_iff, bool_decide_eq_true in Hcase. exact (Hoption Hcase).
Qed.

Lemma form_context_round_trip_witness :
  ∃ current,
    Database.stripped_text {[ "disposition" := PStr " Rework " ]} "disposition"
    = Returns current ∧
    App.normalized {[ "disposition" := "__other__"; "disposition_other" := "Rework" ]}
                   "disposition"
    = App.strip_or_none current.
Proof.
  apply (form_context_round_trip
           {[ "disposition" := ["Scrap"; "Use as is"] ]}
           {[ "disposition" := PStr " Rework " ]}
           {[ "disposition" := "__other__"; "rejection_type" := ""; "rejection_class" := "" ]}
           {[ "disposition" := "Rework" ]}).
  - vm_compute; reflexivity.
  - apply (bool_decide_unpack _). vm_compute; reflexivity.
  - apply (bool_decide_unpack _). vm_compute; reflexivity.
  - vm_compute; reflexivity.
  - vm_compute; reflexivity.
Defined.
